(** * redditsenty: a shallow embedding of [api.py] and its specification

    The development follows the layout of the program:

    - [PyStr]      the Python string operations the program uses;
    - [Float64]    binary64 values, as the rationals they denote;
    - [Regex]      the backtracking matcher behind [re.search];
    - [Calendar]   naive datetimes, [DATE(...)] and [strftime];
    - the data model ([Post], the [posts] table), the world the program
      runs in (database, generative service, clock) and the monad of
      Python computations (state and exceptions);
    - the program itself, function by function, under the names of the
      source;
    - the properties of the specification.

    Conventions.  A Python [str] is a [string] of ASCII characters
    ([upper] and [lower] change the letters a-z and A-Z only, [\d] is
    0-9).  A Python [float] is the rational it denotes; every float
    operation is the exact operation followed by [Float64.round].
    [await] is sequencing: the program is embedded as run by one task at
    a time, and [asyncio.sleep] only advances the world's tick. *)

From Stdlib Require Import List Bool Arith ZArith QArith Qround Lia.
From Stdlib Require Import Permutation Sorted.
From Stdlib Require Import Ascii String DecimalString.
Import ListNotations.

Set Implicit Arguments.
Set Warnings "-register-all".

(* ===================================================================== *)
(** ** Python strings *)
(* ===================================================================== *)

Module PyStr.

Local Open Scope string_scope.

(** The double quote and the line feed, which a literal cannot hold. *)
Definition dquote : string := String (ascii_of_nat 34) EmptyString.
Definition newline : string := String (ascii_of_nat 10) EmptyString.

Definition is_lower (c : ascii) : bool :=
  (97 <=? nat_of_ascii c)%nat && (nat_of_ascii c <=? 122)%nat.

Definition is_upper (c : ascii) : bool :=
  (65 <=? nat_of_ascii c)%nat && (nat_of_ascii c <=? 90)%nat.

Definition upper_char (c : ascii) : ascii :=
  if is_lower c then ascii_of_nat (nat_of_ascii c - 32) else c.

Definition lower_char (c : ascii) : ascii :=
  if is_upper c then ascii_of_nat (nat_of_ascii c + 32) else c.

(** [s.upper()] and [s.lower()]. *)
Fixpoint upper (s : string) : string :=
  match s with
  | EmptyString => EmptyString
  | String c t => String (upper_char c) (upper t)
  end.

Fixpoint lower (s : string) : string :=
  match s with
  | EmptyString => EmptyString
  | String c t => String (lower_char c) (lower t)
  end.

(** [s.startswith(p)]. *)
Fixpoint startswith (p s : string) : bool :=
  match p, s with
  | EmptyString, _ => true
  | String a p', String b s' => Ascii.eqb a b && startswith p' s'
  | String _ _, EmptyString => false
  end.

(** [p in s]: [p] occurs in [s] as a substring. *)
Fixpoint contains (p s : string) : bool :=
  startswith p s ||
  match s with
  | EmptyString => false
  | String _ t => contains p t
  end.

(** [s[:n]] for a non-negative [n]. *)
Fixpoint take (n : nat) (s : string) : string :=
  match n, s with
  | O, _ => EmptyString
  | S _, EmptyString => EmptyString
  | S k, String c t => String c (take k t)
  end.

(** [str(n)] for an [int]. *)
Definition str_of_Z (n : Z) : string := NilZero.string_of_int (Z.to_int n).

(** [sep.join(l)]. *)
Fixpoint join (sep : string) (l : list string) : string :=
  match l with
  | [] => EmptyString
  | [x] => x
  | x :: rest => x ++ sep ++ join sep rest
  end.

(** [s.strip()] removes leading and trailing white space. *)
Definition is_space (c : ascii) : bool :=
  let n := nat_of_ascii c in
  ((9 <=? n)%nat && (n <=? 13)%nat) || (n =? 32)%nat || ((28 <=? n)%nat && (n <=? 31)%nat).

Fixpoint lstrip (s : string) : string :=
  match s with
  | EmptyString => EmptyString
  | String c t => if is_space c then lstrip t else s
  end.

Fixpoint rstrip (s : string) : string :=
  match s with
  | EmptyString => EmptyString
  | String c t =>
      match rstrip t with
      | EmptyString => if is_space c then EmptyString else String c EmptyString
      | t' => String c t'
      end
  end.

Definition strip (s : string) : string := rstrip (lstrip s).

(** [s.replace(old, new)] for a non-empty [old]; the fuel is the length
    of [s], which bounds the number of positions visited. *)
Fixpoint drop (n : nat) (s : string) : string :=
  match n, s with
  | O, _ => s
  | S _, EmptyString => EmptyString
  | S k, String _ t => drop k t
  end.

Fixpoint replace_fuel (fuel : nat) (old new s : string) : string :=
  match fuel with
  | O => s
  | S k =>
      match s with
      | EmptyString => EmptyString
      | String c t =>
          if startswith old s
          then new ++ replace_fuel k old new (drop (String.length old) s)
          else String c (replace_fuel k old new t)
      end
  end.

Definition replace (old new s : string) : string :=
  replace_fuel (String.length s) old new s.

(** Case-insensitive occurrence, the way the specification words it:
    some substring of [s] equals [p] up to the case of its letters. *)
Definition eq_nocase (a b : ascii) : bool := Ascii.eqb (upper_char a) (upper_char b).

Fixpoint startswith_nocase (p s : string) : bool :=
  match p, s with
  | EmptyString, _ => true
  | String a p', String b s' => eq_nocase a b && startswith_nocase p' s'
  | String _ _, EmptyString => false
  end.

Fixpoint contains_nocase (p s : string) : bool :=
  startswith_nocase p s ||
  match s with
  | EmptyString => false
  | String _ t => contains_nocase p t
  end.

End PyStr.

(* ===================================================================== *)
(** ** binary64 *)
(* ===================================================================== *)

Module Float64.

Local Open Scope Z_scope.

(** The integer nearest to [n / d] for [0 <= n] and [0 < d], ties to even. *)
Definition div_half_even (n d : Z) : Z :=
  let q := n / d in
  let r := n mod d in
  match 2 * r ?= d with
  | Lt => q
  | Gt => q + 1
  | Eq => if Z.even q then q else q + 1
  end.

(** [floor (log2 (a / d))] for [0 < a] and [0 < d]. *)
Definition floor_log2 (a d : Z) : Z :=
  let e0 := Z.log2 a - Z.log2 d in
  let below := if 0 <=? e0 then a <? d * 2 ^ e0 else a * 2 ^ (- e0) <? d in
  if below then e0 - 1 else e0.

(** What stands for an infinity: beyond every finite binary64 value. *)
Definition huge : Z := 2 ^ 1024.

(** Rounding to the nearest binary64 value (53-bit significand, exponents
    from -1074, ties to even); an overflow gives [huge] with the sign. *)
Definition round (x : Q) : Q :=
  let n := Qnum x in
  let d := Zpos (Qden x) in
  if n =? 0 then 0%Q
  else
    let a := Z.abs n in
    let u := Z.max (floor_log2 a d - 52) (-1074) in
    let m := if 0 <=? u then div_half_even a (d * 2 ^ u)
             else div_half_even (a * 2 ^ (- u)) d in
    let r : Q :=
      if 0 <=? u
      then (if huge <=? m * 2 ^ u then inject_Z huge else inject_Z (m * 2 ^ u))
      else Qred (Qmake m (Z.to_pos (2 ^ (- u)))) in
    if n <? 0 then Qopp r else r.

(** The arithmetic the program uses. *)
Definition div (x y : Q) : Q := round (x / y).
Definition mul (x y : Q) : Q := round (x * y).

(** [a > b] and [a <= b] on floats. *)
Definition gtb (a b : Q) : bool := negb (Qle_bool a b).
Definition ltb (a b : Q) : bool := negb (Qle_bool b a).
Definition leb (a b : Q) : bool := Qle_bool a b.

(** [round(x, 1)]: the decimal with one digit nearest to [x], ties to
    even, read back as a float. *)
Definition round1 (x : Q) : Q :=
  let n := Qnum x * 10 in
  let d := Zpos (Qden x) in
  let k := if n <? 0 then - div_half_even (- n) d else div_half_even n d in
  round (Qred (Qmake k 10)).

End Float64.

(* ===================================================================== *)
(** ** Regular expressions: the fragment [re.search] is used on *)
(* ===================================================================== *)

Module Regex.

(** One character class under a greedy quantifier: [c], [c?], [c*], [c+]. *)
Inductive quant : Type := One | Opt | Star | Plus.

Definition regex : Type := list ((ascii -> bool) * quant).

(** Matching is by backtracking in Python's order: a greedy quantifier
    first takes all it can and gives characters back one at a time while
    the rest of the pattern, [k], fails.  A match is the matched text. *)
Definition one (c : ascii -> bool) (k : string -> option string) (s : string)
    : option string :=
  match s with
  | String a t => if c a then option_map (String a) (k t) else None
  | EmptyString => None
  end.

Fixpoint star (c : ascii -> bool) (k : string -> option string) (s : string)
    : option string :=
  match s with
  | String a t =>
      if c a
      then match star c k t with
           | Some m => Some (String a m)
           | None => k s
           end
      else k s
  | EmptyString => k s
  end.

(** Matching at the head of [s]. *)
Fixpoint match_here (re : regex) (s : string) {struct re} : option string :=
  match re with
  | [] => Some EmptyString
  | (c, q) :: re' =>
      match q with
      | One => one c (match_here re') s
      | Opt => match one c (match_here re') s with
               | Some m => Some m
               | None => match_here re' s
               end
      | Star => star c (match_here re') s
      | Plus => one c (star c (match_here re')) s
      end
  end.

(** [re.search(re, s)]: the match at the leftmost position that has one,
    as (start index, matched text). *)
Fixpoint search (re : regex) (s : string) : option (nat * string) :=
  match match_here re s with
  | Some m => Some (O, m)
  | None =>
      match s with
      | EmptyString => None
      | String _ t =>
          match search re t with
          | Some (i, m) => Some (S i, m)
          | None => None
          end
      end
  end.

Definition is_digit (c : ascii) : bool :=
  (48 <=? nat_of_ascii c)%nat && (nat_of_ascii c <=? 57)%nat.
Definition is_sign (c : ascii) : bool :=
  Ascii.eqb c "-"%char || Ascii.eqb c "+"%char.
Definition is_dot (c : ascii) : bool := Ascii.eqb c "."%char.

(** The pattern of [analyze_sentiment]: [[-+]?\d*\.?\d+]. *)
Definition number_re : regex :=
  [(is_sign, Opt); (is_digit, Star); (is_dot, Opt); (is_digit, Plus)].

End Regex.

(* ===================================================================== *)
(** ** [float(text)] on decimal literals *)
(* ===================================================================== *)

Module PyFloat.

Local Open Scope Z_scope.

Definition digit_value (c : ascii) : Z := Z.of_nat (nat_of_ascii c) - 48.

(** The digits at the head of [s] read as a number after [acc], with the
    rest of [s]. *)
Fixpoint read_digits (acc : Z) (count : nat) (s : string) : Z * nat * string :=
  match s with
  | String c t =>
      if Regex.is_digit c then read_digits (10 * acc + digit_value c) (S count) t
      else (acc, count, s)
  | EmptyString => (acc, count, s)
  end.

(** The exact value of a literal: an optional sign, digits, and an
    optional dot followed by digits, with at least one digit in all;
    [None] is Python's [ValueError]. *)
Definition literal_value (text : string) : option Q :=
  let '(negative, body) :=
    match text with
    | String c t =>
        if Ascii.eqb c "-"%char then (true, t)
        else if Ascii.eqb c "+"%char then (false, t)
        else (false, text)
    | EmptyString => (false, text)
    end in
  let '(ip, ni, rest) := read_digits 0 O body in
  let '(fp, nf, rest') :=
    match rest with
    | String c t => if Regex.is_dot c then read_digits 0 O t else (0, O, rest)
    | EmptyString => (0, O, rest)
    end in
  match rest' with
  | EmptyString =>
      if (ni + nf =? 0)%nat then None
      else
        let den := 10 ^ Z.of_nat nf in
        let num := ip * den + fp in
        Some (Qred (Qmake (if negative then - num else num) (Z.to_pos den)))
  | String _ _ => None
  end.

(** [float(text)]. *)
Definition float (text : string) : option Q :=
  option_map Float64.round (literal_value text).

End PyFloat.

(* ===================================================================== *)
(** ** Naive datetimes *)
(* ===================================================================== *)

Module Calendar.

Local Open Scope Z_scope.

(** A [datetime] is its number of microseconds since 1970-01-01T00:00:00
    on the naive local time line; a [timedelta] is a number of
    microseconds. *)
Definition datetime : Type := Z.

Definition usec_per_day : Z := 86400000000.

Definition timedelta_days (n : Z) : Z := n * usec_per_day.

(** The calendar day a datetime falls on, counted from 1970-01-01. *)
Definition day_of (t : datetime) : Z := t / usec_per_day.

(** Year, month and day of a day number (proleptic Gregorian calendar). *)
Definition civil_from_days (z0 : Z) : Z * Z * Z :=
  let z := z0 + 719468 in
  let era := z / 146097 in
  let doe := z - era * 146097 in
  let yoe := (doe - doe / 1460 + doe / 36524 - doe / 146096) / 365 in
  let y := yoe + era * 400 in
  let doy := doe - (365 * yoe + yoe / 4 - yoe / 100) in
  let mp := (5 * doy + 2) / 153 in
  let d := doy - (153 * mp + 2) / 5 + 1 in
  let m := if mp <? 10 then mp + 3 else mp - 9 in
  (if m <=? 2 then y + 1 else y, m, d).

Definition pad (width : nat) (n : Z) : string :=
  let s := PyStr.str_of_Z n in
  let fix zeros (k : nat) : string :=
    match k with O => EmptyString | S k' => String "0"%char (zeros k') end in
  String.append (zeros (width - String.length s)%nat) s.

(** [d.strftime("%Y-%m-%d")], which is also SQLite's [DATE(d)] on the
    ISO text the datetime is stored as. *)
Definition format_day (day : Z) : string :=
  let '(y, m, d) := civil_from_days day in
  String.append (pad 4 y)
    (String.append "-" (String.append (pad 2 m) (String.append "-" (pad 2 d)))).

Definition strftime_ymd (t : datetime) : string := format_day (day_of t).

End Calendar.

(* ===================================================================== *)
(** ** Data model *)
(* ===================================================================== *)

(** The pydantic model [Post]: the twelve keys of the dict
    [fetch_reddit_posts] builds, and the three classification columns,
    which are unset ([None]) in a post as fetched. *)
Record Post : Type := {
  id : string;
  title : string;
  selftext : string;
  author : string;
  score : Z;
  ups : Z;
  downs : Z;
  num_comments : Z;
  created_utc : Calendar.datetime;
  permalink : string;
  url : string;
  subreddit : string;
  sentiment : option string;
  sentiment_score : option Q;
  analyzed_at : option Calendar.datetime
}.

(** A row of the table [posts]: SQLite's [rowid] and the columns.  The
    table is the list of its rows in [rowid] order.  The full-text index
    [posts_fts] is kept beside the table by the triggers of [init_db] and
    is read through the table. *)
Record row : Type := { rowid : Z; post : Post }.

Definition table : Type := list row.

Record Citation : Type := {
  cite_title : string;
  cite_subreddit : string;
  cite_author : string;
  cite_sentiment : string;
  cite_score : Z;
  cite_url : string
}.

Record SentimentSummary : Type := {
  ss_positive : Z;
  ss_neutral : Z;
  ss_negative : Z;
  ss_total : Z;
  ss_positive_percent : Q;
  ss_negative_percent : Q;
  ss_overall_tone : string
}.

Record SearchAnalysis : Type := {
  sa_query : string;
  sa_summary : string;
  sa_sentiment_summary : SentimentSummary;
  sa_positive_examples : list Citation;
  sa_negative_examples : list Citation;
  sa_neutral_examples : list Citation
}.

Record SentimentDistribution : Type := {
  sd_positive : Z;
  sd_neutral : Z;
  sd_negative : Z
}.

Record TimelineData : Type := {
  tl_labels : list string;
  tl_positive : list Z;
  tl_neutral : list Z;
  tl_negative : list Z
}.

Record SearchResult : Type := {
  sr_query : string;
  sr_total_results : Z;
  sr_positive : Z;
  sr_neutral : Z;
  sr_negative : Z;
  sr_posts : list Post
}.

(** The events of the streamed analysis, by their [event:] name. *)
Inductive sse_event : Type :=
| EvStatus (message : string)
| EvSentiment (stats : SentimentSummary)
| EvSummaryChunk (chunk accumulated : string)
| EvComplete (payload : SearchAnalysis).

(** Decoded JSON.  A [JObject] is a Python dict: its keys are distinct. *)
Inductive json : Type :=
| JNull
| JBool (b : bool)
| JNumber (q : Q)
| JString (s : string)
| JArray (items : list json)
| JObject (fields : list (string * json)).

(** Python exceptions the program can meet. *)
Inductive exn : Type :=
| SqliteError
| ClientError
| TimeoutError
| JSONDecodeError
| UnicodeDecodeError
| KeyError (key : string)
| TypeError
| AttributeError
| ZeroDivisionError
| NameError (name : string).

Inductive result (A : Type) : Type :=
| Ok (a : A)
| Raise (e : exn).

Arguments Ok {A} a.
Arguments Raise {A} e.

(* ===================================================================== *)
(** ** The world the program runs in *)
(* ===================================================================== *)

(** What [urlopen] and [json.loads] give [fetch_reddit_posts]. *)
Inductive reddit_reply : Type :=
| FetchFails (e : exn)
    (* the request or the decoding raises *)
| Listing (children : option (list Post)).
    (* decoded JSON; [None] when it lacks a key the loop reads *)

(** What [POST /completion] gives: the call raises, or a response comes
    back with a status and a body; the body is what [response.json()]
    returns, [None] when that call raises. *)
Inductive http_reply : Type :=
| ConnectionFails (e : exn)
| Response (status : Z) (body : option json).

(** A line of a streamed response, as lines 941 to 944 read it. *)
Inductive sse_line : Type :=
| Undecodable
    (* bytes that are not UTF-8 *)
| Other (text : string)
    (* stripped, it does not start with [data: ] *)
| Data (payload : option json).
    (* [data: ] and then what [json.loads] reads; [None] when it raises *)

Inductive stream_end : Type :=
| Closed
| Broken (e : exn).

Inductive stream_reply : Type :=
| StreamFails (e : exn)
| StreamResponse (status : Z) (lines : list sse_line) (ending : stream_end).

(** The SQL statements of the program. *)
Inductive stmt : Type :=
| SelectId (post_id : string)
| InsertOrReplace (post_id : string)
| DeleteOlder (cutoff : Calendar.datetime)
| FtsMatch (q : string)
| SelectRows (rowids : list Z)
| SelectDistribution
| SelectTimeline.

(** The collaborators: each answers by the tick at which it is asked. *)
Record env : Type := {
  reddit : nat -> string -> reddit_reply;
  completion : nat -> string -> http_reply;
  completion_stream : nat -> string -> stream_reply;
  sql_fails : nat -> stmt -> bool;
    (* whether the statement raises [sqlite3.Error] *)
  now : nat -> Calendar.datetime;
  fts5 : string -> option (string -> string -> bool)
    (* FTS5's reading of a query as a test on (title, selftext);
       [None] when the query is not an FTS5 expression *)
}.

Record world : Type := {
  posts : table;
  tick : nat;
  sql_log : list stmt;       (* statements executed, latest last *)
  llm_calls : list string;   (* prompts posted to the service, latest last *)
  stdout : list string;      (* lines printed, latest last *)
  sent : list sse_event      (* events yielded to the client, latest last *)
}.

(** A Python computation: it changes the world and returns or raises. *)
Definition M (A : Type) : Type := world -> result A * world.

Definition ret {A : Type} (a : A) : M A := fun w => (Ok a, w).

Definition bind {A B : Type} (m : M A) (k : A -> M B) : M B :=
  fun w =>
    match m w with
    | (Ok a, w') => k a w'
    | (Raise e, w') => (Raise e, w')
    end.

Definition raise {A : Type} (e : exn) : M A := fun w => (Raise e, w).

(** [try: m except Exception as e: h e]. *)
Definition try_except {A : Type} (m : M A) (h : exn -> M A) : M A :=
  fun w =>
    match m w with
    | (Ok a, w') => (Ok a, w')
    | (Raise e, w') => h e w'
    end.

Definition lift {A : Type} (r : result A) : M A := fun w => (r, w).

Declare Scope py_scope.
Delimit Scope py_scope with py.
Notation "x <- m ;; k" := (bind m (fun x => k))
  (at level 61, m at next level, right associativity) : py_scope.
Notation "' p <- m ;; k" := (bind m (fun x => match x with p => k end))
  (at level 61, p pattern, m at next level, right associativity) : py_scope.
Notation "m ;; k" := (bind m (fun _ => k))
  (at level 61, right associativity) : py_scope.

Definition advance (w : world) : world :=
  {| posts := posts w; tick := S (tick w); sql_log := sql_log w;
     llm_calls := llm_calls w; stdout := stdout w; sent := sent w |}.

Definition print (line : string) : M unit :=
  fun w =>
    (Ok tt,
     {| posts := posts w; tick := tick w; sql_log := sql_log w;
        llm_calls := llm_calls w; stdout := stdout w ++ [line]; sent := sent w |}).

(** [yield] of the event generator. *)
Definition yield_event (ev : sse_event) : M unit :=
  fun w =>
    (Ok tt,
     {| posts := posts w; tick := tick w; sql_log := sql_log w;
        llm_calls := llm_calls w; stdout := stdout w; sent := sent w ++ [ev] |}).

(** [await asyncio.sleep(...)]. *)
Definition sleep : M unit := fun w => (Ok tt, advance w).

Section Program.

Variable E : env.

Local Open Scope py_scope.
Local Open Scope string_scope.

(** [datetime.now()]. *)
Definition datetime_now : M Calendar.datetime :=
  fun w => (Ok (now E (tick w)), advance w).

(** One statement on a fresh connection, committed: [run] gives its rows
    and the table it leaves. *)
Definition sql {A : Type} (s : stmt) (run : table -> A * table) : M A :=
  fun w =>
    if sql_fails E (tick w) s then (Raise SqliteError, advance w)
    else
      let '(a, t) := run (posts w) in
      (Ok a,
       {| posts := t; tick := S (tick w); sql_log := sql_log w ++ [s];
          llm_calls := llm_calls w; stdout := stdout w; sent := sent w |}).

Definition http_log (prompt : string) (w : world) : world :=
  {| posts := posts w; tick := S (tick w); sql_log := sql_log w;
     llm_calls := llm_calls w ++ [prompt]; stdout := stdout w; sent := sent w |}.

(** [session.post(.../completion, json=payload)]. *)
Definition post_completion (prompt : string) : M http_reply :=
  fun w => (Ok (completion E (tick w) prompt), http_log prompt w).

(** The same with ["stream": True]. *)
Definition post_completion_stream (prompt : string) : M stream_reply :=
  fun w => (Ok (completion_stream E (tick w) prompt), http_log prompt w).

Definition urlopen (subreddit : string) : M reddit_reply :=
  fun w => (Ok (reddit E (tick w) subreddit), advance w).

(* --------------------------------------------------------------------- *)
(** *** Configuration (lines 41 to 62) *)

Definition AI_SUBREDDITS : list string :=
  [ "LocalLLaMA"; "machinelearning"; "artificial"; "OpenAI"; "ClaudeAI";
    "deeplearning"; "MachineLearning"; "ArtificialInteligence"; "llama";
    "ollama"; "transformers"; "huggingface"; "AIethics"; "agetech";
    "LanguageModel" ].

Definition FETCH_INTERVAL_MINUTES : Z := 15.
Definition MAX_POSTS_PER_FETCH : Z := 25.
Definition KEEP_MONTHS : Z := 6.

(** [str(e)] of a caught exception, as far as the program prints it. *)
Definition exn_text (e : exn) : string :=
  match e with
  | SqliteError => "sqlite3.Error"
  | ClientError => "ClientError"
  | TimeoutError => "TimeoutError"
  | JSONDecodeError => "JSONDecodeError"
  | UnicodeDecodeError => "UnicodeDecodeError"
  | KeyError k => "KeyError: " ++ k
  | TypeError => "TypeError"
  | AttributeError => "AttributeError"
  | ZeroDivisionError => "division by zero"
  | NameError n => "name '" ++ n ++ "' is not defined"
  end.

(* --------------------------------------------------------------------- *)
(** *** [cleanup_old_posts] (lines 234 to 247) *)

Definition older_than (cutoff : Calendar.datetime) (r : row) : bool :=
  (created_utc (post r) <? cutoff)%Z.

Definition delete_older (cutoff : Calendar.datetime) (t : table) : Z * table :=
  (Z.of_nat (List.length (filter (older_than cutoff) t)),
   filter (fun r => negb (older_than cutoff r)) t).

Definition cleanup_old_posts : M unit :=
  t <- datetime_now ;;
  let cutoff := (t - Calendar.timedelta_days (KEEP_MONTHS * 30))%Z in
  deleted <- sql (DeleteOlder cutoff) (delete_older cutoff) ;;
  if (0 <? deleted)%Z
  then print ("Cleaned up " ++ PyStr.str_of_Z deleted ++ " old posts")
  else ret tt.

(* --------------------------------------------------------------------- *)
(** *** [fetch_reddit_posts] (lines 250 to 286) *)

Definition fetch_reddit_posts (subreddit : string) (limit : Z) : M (list Post) :=
  r <- urlopen subreddit ;;
  match r with
  | FetchFails e =>
      print ("Error fetching r/" ++ subreddit ++ ": " ++ exn_text e) ;;
      ret []
  | Listing None => raise (KeyError "data")
  | Listing (Some children) => ret children
  end.

(* --------------------------------------------------------------------- *)
(** *** [analyze_sentiment] (lines 289 to 346) *)

Definition sentiment_prompt (text : string) : string :=
  PyStr.join PyStr.newline
    [ "Analyze the sentiment of this Reddit post.";
      "Classify as: POSITIVE, NEGATIVE, or NEUTRAL.";
      "Score: -1.0 (negative) to +1.0 (positive).";
      "";
      "Text: " ++ PyStr.take 400 text;
      "";
      "Respond exactly:";
      "Sentiment: [POSITIVE/NEGATIVE/NEUTRAL]";
      "Score: [number]" ].

(** The float literals [0.7] and [-0.7]. *)
Definition f_0_7 : Q := Float64.round (7 # 10).
Definition f_neg_0_7 : Q := Float64.round (- (7 # 10)).

(** Lines 321 to 342: the reading of the completion text. *)
Definition parse_completion (completion : string) : string * Q :=
  let '(sentiment, score) :=
    if PyStr.contains "POSITIVE" (PyStr.upper completion) then ("positive", f_0_7)
    else if PyStr.contains "NEGATIVE" (PyStr.upper completion) then ("negative", f_neg_0_7)
    else ("neutral", 0%Q) in
  let score :=
    match Regex.search Regex.number_re completion with
    | Some (_, text) =>
        match PyFloat.float text with
        | Some s => if Float64.leb (-1) s && Float64.leb s 1 then s else score
        | None => score
        end
    | None => score
    end in
  (sentiment, score).

(** [d.get(key, default)] on a decoded value: only a dict has [get]. *)
Fixpoint assoc (key : string) (fields : list (string * json)) : option json :=
  match fields with
  | [] => None
  | (k, v) :: rest => if String.eqb k key then Some v else assoc key rest
  end.

Definition json_get (j : json) (key : string) (default : json) : result json :=
  match j with
  | JObject fields =>
      match assoc key fields with
      | Some v => Ok v
      | None => Ok default
      end
  | _ => Raise AttributeError
  end.

Definition analyze_sentiment (text : string) : M (option string * option Q) :=
  let prompt := sentiment_prompt text in
  try_except
    (r <- post_completion prompt ;;
     match r with
     | ConnectionFails e => raise e
     | Response status body =>
         if negb (status =? 200)%Z then ret (None, None)
         else
           match body with
           | None => raise JSONDecodeError
           | Some result =>
               completion <- lift (json_get result "content" (JString "")) ;;
               match completion with
               | JString c =>
                   let '(sentiment, score) := parse_completion c in
                   ret (Some sentiment, Some score)
               | _ => raise AttributeError
               end
           end
     end)
    (fun e =>
       print ("Sentiment analysis error: " ++ exn_text e) ;;
       ret (None, None)).

(* --------------------------------------------------------------------- *)
(** *** [store_post] (lines 349 to 381) *)

Definition next_rowid (t : table) : Z :=
  (1 + fold_right (fun r m => Z.max (rowid r) m) 0 t)%Z.

Definition has_id (post_id : string) (r : row) : bool :=
  String.eqb (id (post r)) post_id.

(** [INSERT OR REPLACE]: a row of the same [id] goes, the new row comes
    last. *)
Definition insert_or_replace (p : Post) (t : table) : unit * table :=
  let kept := filter (fun r => negb (has_id (id p) r)) t in
  (tt, (kept ++ [{| rowid := next_rowid kept; post := p |}])%list).

(** [sentiment or None]. *)
Definition or_none (s : option string) : option string :=
  match s with
  | Some "" => None
  | _ => s
  end.

Definition store_post (p : Post) (sentiment0 : option string) (score0 : option Q) : M unit :=
  t <- datetime_now ;;
  sql (InsertOrReplace (id p))
    (insert_or_replace
       {| id := id p; title := title p; selftext := selftext p; author := author p;
          score := score p; ups := ups p; downs := downs p;
          num_comments := num_comments p; created_utc := created_utc p;
          permalink := permalink p; url := url p; subreddit := subreddit p;
          sentiment := or_none sentiment0; sentiment_score := score0;
          analyzed_at := Some t |}).

(* --------------------------------------------------------------------- *)
(** *** [fetch_and_analyze_subreddit] (lines 384 to 413) *)

(** [SELECT id FROM posts WHERE id = ?] and [cursor.fetchone()]. *)
Definition select_id (post_id : string) (t : table) : bool * table :=
  (existsb (has_id post_id) t, t).

(** The body of the loop, for one post: what it adds to [analyzed]. *)
Definition analyze_post (p : Post) : M Z :=
  found <- sql (SelectId (id p)) (select_id (id p)) ;;
  if found then ret 0%Z
  else
    let text := title p ++ " " ++ PyStr.take 200 (selftext p) in
    '(sentiment0, score0) <- analyze_sentiment text ;;
    store_post p sentiment0 score0 ;;
    sleep ;;
    ret 1%Z.

Fixpoint analyze_posts (l : list Post) (analyzed : Z) : M Z :=
  match l with
  | [] => ret analyzed
  | p :: rest =>
      k <- analyze_post p ;;
      analyze_posts rest (analyzed + k)%Z
  end.

Definition fetch_and_analyze_subreddit (subreddit0 : string) : M Z :=
  print ("Fetching r/" ++ subreddit0 ++ "...") ;;
  fetched <- fetch_reddit_posts subreddit0 MAX_POSTS_PER_FETCH ;;
  analyzed <- analyze_posts fetched 0%Z ;;
  print ("  Analyzed " ++ PyStr.str_of_Z analyzed ++ " new posts from r/" ++ subreddit0) ;;
  ret analyzed.

(* --------------------------------------------------------------------- *)
(** *** [background_fetcher] (lines 417 to 435) *)

(** The [for] loop over the subreddits, with its [try]. *)
Fixpoint fetch_all (subreddits : list string) (total_analyzed : Z) : M Z :=
  match subreddits with
  | [] => ret total_analyzed
  | s :: rest =>
      total' <-
        try_except
          (analyzed <- fetch_and_analyze_subreddit s ;;
           ret (total_analyzed + analyzed)%Z)
          (fun e =>
             print ("Error fetching r/" ++ s ++ ": " ++ exn_text e) ;;
             ret total_analyzed) ;;
      fetch_all rest total'
  end.

(** One turn of [while True]. *)
Definition sweep : M unit :=
  total_analyzed <- fetch_all AI_SUBREDDITS 0%Z ;;
  cleanup_old_posts ;;
  (if (0 <? total_analyzed)%Z
   then print ("Background fetch complete: " ++ PyStr.str_of_Z total_analyzed ++ " new posts")
   else ret tt) ;;
  sleep.

(** [while True], unrolled [turns] times: [Ok tt] says the loop has made
    that many turns and is still running. *)
Fixpoint background_fetcher (turns : nat) : M unit :=
  match turns with
  | O => ret tt
  | S k => sweep ;; background_fetcher k
  end.

(* --------------------------------------------------------------------- *)
(** *** Full-text search (lines 534 to 552, 621 to 654, 772 to 812) *)

(** [SELECT rowid FROM posts_fts WHERE posts_fts MATCH ?]. *)
Definition fts_query (q : string) : M (list Z) :=
  match fts5 E q with
  | None => fun w => (Raise SqliteError, advance w)
  | Some test =>
      sql (FtsMatch q)
        (fun t =>
           (map rowid (filter (fun r => test (title (post r)) (selftext (post r))) t), t))
  end.

(** [SELECT ... FROM posts WHERE rowid IN (...)], rows in [rowid] order. *)
Definition select_rows (rowids : list Z) : M (list Post) :=
  sql (SelectRows rowids)
    (fun t => (map post (filter (fun r => existsb (Z.eqb (rowid r)) rowids) t), t)).

(* --------------------------------------------------------------------- *)
(** *** List operations of the query surfaces *)

(** [s.split(",")]. *)
Fixpoint split_commas (s : string) : list string :=
  match s with
  | EmptyString => [EmptyString]
  | String c t =>
      if Ascii.eqb c ","%char then EmptyString :: split_commas t
      else
        match split_commas t with
        | [] => [String c EmptyString]
        | x :: rest => String c x :: rest
        end
  end.

(** [if subreddits: ... p.subreddit in sub_list]. *)
Definition filter_subreddits (subreddits : option string) (l : list Post) : list Post :=
  match subreddits with
  | None => l
  | Some "" => l
  | Some text =>
      let sub_list := map PyStr.strip (split_commas text) in
      filter (fun p => existsb (String.eqb (subreddit p)) sub_list) l
  end.

(** [l.sort(key=key, reverse=True)]: stable, largest key first. *)
Fixpoint insert_desc (A : Type) (key : A -> Z) (x : A) (l : list A) : list A :=
  match l with
  | [] => [x]
  | y :: rest =>
      if (key y <=? key x)%Z then x :: y :: rest
      else y :: insert_desc key x rest
  end.

Definition sort_desc (A : Type) (key : A -> Z) (l : list A) : list A :=
  fold_right (insert_desc key) [] l.

(** [l[:limit]], also for a negative [limit]. *)
Definition slice_to (A : Type) (limit : Z) (l : list A) : list A :=
  if (0 <=? limit)%Z then firstn (Z.to_nat limit) l
  else firstn (List.length l - Z.to_nat (- limit)) l.

Definition len (A : Type) (l : list A) : Z := Z.of_nat (List.length l).

Definition sentiment_is (label : string) (p : Post) : bool :=
  match sentiment p with
  | Some s => String.eqb s label
  | None => false
  end.

Definition engagement (p : Post) : Z := (score p + num_comments p)%Z.

(* --------------------------------------------------------------------- *)
(** *** Percentages and tone (lines 701 to 716 and 856 to 870) *)

(** [a / b] on [int]s. *)
Definition truediv (a b : Z) : result Q :=
  if (b =? 0)%Z then Raise ZeroDivisionError
  else Ok (Float64.div (inject_Z a) (inject_Z b)).

(** [(count / total * 100) if total > 0 else 0]. *)
Definition percent (count total : Z) : result Q :=
  if (0 <? total)%Z then
    match truediv count total with
    | Ok x => Ok (Float64.mul x 100)
    | Raise e => Raise e
    end
  else Ok 0%Q.

Definition overall_tone (positive_percent negative_percent : Q) : string :=
  if Float64.gtb positive_percent 60 then "Mostly Positive"
  else if Float64.gtb negative_percent 60 then "Mostly Negative"
  else if Float64.gtb positive_percent 40 && Float64.gtb negative_percent 40
       then "Mixed (Polarized)"
  else if Float64.gtb positive_percent 30 && Float64.ltb negative_percent 20
       then "Slightly Positive"
  else if Float64.gtb negative_percent 30 && Float64.ltb positive_percent 20
       then "Slightly Negative"
  else "Neutral/Mixed".

(* --------------------------------------------------------------------- *)
(** *** [search_posts] (lines 523 to 608) *)

(** Lines 589 to 595: the counting loop, as (positive, neutral, negative). *)
Fixpoint count_sentiments (l : list Post) (acc : Z * Z * Z) : Z * Z * Z :=
  match l with
  | [] => acc
  | p :: rest =>
      let '(positive, neutral, negative) := acc in
      count_sentiments rest
        (if sentiment_is "positive" p then (positive + 1, neutral, negative)%Z
         else if sentiment_is "negative" p then (positive, neutral, negative + 1)%Z
         else (positive, neutral + 1, negative)%Z)
  end.

Definition filter_sentiment (wanted : option string) (l : list Post) : list Post :=
  match wanted with
  | None => l
  | Some "" => l
  | Some label => filter (sentiment_is label) l
  end.

Definition search_posts (q : string) (subreddits : option string) (limit : Z)
    (wanted : option string) : M SearchResult :=
  rowids <- fts_query q ;;
  match rowids with
  | [] =>
      ret {| sr_query := q; sr_total_results := 0; sr_positive := 0;
             sr_neutral := 0; sr_negative := 0; sr_posts := [] |}
  | _ =>
      all_posts <- select_rows rowids ;;
      let all_posts := filter_subreddits subreddits all_posts in
      let all_posts := filter_sentiment wanted all_posts in
      let all_posts := sort_desc score all_posts in
      let all_posts := slice_to limit all_posts in
      let '(positive, neutral, negative) := count_sentiments all_posts (0, 0, 0)%Z in
      ret {| sr_query := q; sr_total_results := len all_posts; sr_positive := positive;
             sr_neutral := neutral; sr_negative := negative; sr_posts := all_posts |}
  end.

(* --------------------------------------------------------------------- *)
(** *** [generate_topic_summary] (lines 986 to 1037) *)

(** Names and f-strings.  A name is looked up among the locals of the
    running function, then among the names the module binds; an unbound
    name raises [NameError].  In every other function of the program each
    name an f-string reads is a parameter or a local assigned before, and
    the embedding writes the text directly. *)
Inductive pyval : Type :=
| VStr (s : string)
| VInt (n : Z)
| VObj.   (* a value whose text the program never reads *)

Definition str_of (v : pyval) : string :=
  match v with
  | VStr s => s
  | VInt n => PyStr.str_of_Z n
  | VObj => "<object>"
  end.

Inductive fpart : Type :=
| Lit (text : string)
| Ref (name : string).

(** The names bound at the top level of [api.py]. *)
Definition module_names : list string :=
  [ "asyncio"; "asynccontextmanager"; "FastAPI"; "HTTPException"; "Query";
    "BackgroundTasks"; "CORSMiddleware"; "StaticFiles"; "FileResponse";
    "StreamingResponse"; "BaseModel"; "List"; "Optional"; "Any"; "datetime";
    "timedelta"; "Path"; "sqlite3"; "json"; "urllib"; "aiohttp"; "re"; "date";
    "adapt_datetime"; "convert_datetime"; "AI_SUBREDDITS";
    "FETCH_INTERVAL_MINUTES"; "MAX_POSTS_PER_FETCH"; "KEEP_MONTHS"; "app";
    "BASE_DIR"; "JS_DIR"; "CSS_DIR"; "DB_PATH"; "LLAMA_SERVER_URL"; "Post";
    "Citation"; "SentimentSummary"; "SearchAnalysis"; "SentimentDistribution";
    "TimelineData"; "SearchResult"; "SubredditStats"; "init_db";
    "cleanup_old_posts"; "fetch_reddit_posts"; "analyze_sentiment"; "store_post";
    "fetch_and_analyze_subreddit"; "background_fetcher"; "lifespan"; "root";
    "get_subreddits"; "get_stats"; "search_posts"; "search_analysis";
    "search_analysis_stream"; "generate_topic_summary"; "get_posts";
    "get_distribution"; "get_timeline"; "trigger_analysis" ].

Fixpoint lookup (name : string) (names : list (string * pyval)) : option pyval :=
  match names with
  | [] => None
  | (n, v) :: rest => if String.eqb n name then Some v else lookup name rest
  end.

Definition load_name (locals : list (string * pyval)) (name : string) : result pyval :=
  match lookup name locals with
  | Some v => Ok v
  | None =>
      if existsb (String.eqb name) module_names then Ok VObj
      else Raise (NameError name)
  end.

(** An f-string: its parts are evaluated from left to right. *)
Fixpoint fstring (locals : list (string * pyval)) (parts : list fpart) : result string :=
  match parts with
  | [] => Ok ""
  | Lit text :: rest =>
      match fstring locals rest with
      | Ok s => Ok (text ++ s)
      | Raise e => Raise e
      end
  | Ref name :: rest =>
      match load_name locals name with
      | Ok v =>
          match fstring locals rest with
          | Ok s => Ok (str_of v ++ s)
          | Raise e => Raise e
          end
      | Raise e => Raise e
      end
  end.

(** Lines 997 and 909: one snippet. *)
Definition snippet (p : Post) : string :=
  "Title: " ++ title p ++ PyStr.newline ++ "Content: " ++
  (match selftext p with
   | "" => "N/A"
   | text => PyStr.take 200 text
   end).

Definition snippets_text (l : list Post) : string :=
  PyStr.join (PyStr.newline ++ "---" ++ PyStr.newline) (map snippet (firstn 10 l)).

(** Lines 1002 to 1009, with the names as the source writes them. *)
Definition topic_prompt : list fpart :=
  [ Lit ("Analyze Reddit discussions about " ++ PyStr.dquote); Ref "query";
    Lit (PyStr.dquote ++ "." ++ PyStr.newline ++ PyStr.newline ++ "Stats: ");
    Ref "positive_count"; Lit " positive, ";
    Ref "negative_count"; Lit " negative, ";
    Ref "neutral_count"; Lit " neutral posts. Overall tone: ";
    Ref "overall_tone";
    Lit ("." ++ PyStr.newline ++ PyStr.newline ++ "Recent posts:" ++ PyStr.newline);
    Ref "content_text";
    Lit (PyStr.newline ++ PyStr.newline ++
         "Write a 2-3 sentence summary of what people are discussing and their general sentiment. Be concise and factual.") ].

(** The chat wrapping of lines 925 and 1013. *)
Definition chat_prompt (prompt : string) : string :=
  "<|im_start|>user" ++ PyStr.newline ++ prompt ++ PyStr.newline ++ "<|im_end|>" ++
  PyStr.newline ++ "<|im_start|>assistant" ++ PyStr.newline.

Definition found_sentence (n : Z) (query tone : string) (positive negative neutral : Z) : string :=
  "Found " ++ PyStr.str_of_Z n ++ " discussions about '" ++ query ++
  "'. The community sentiment is " ++ PyStr.lower tone ++ " with " ++
  PyStr.str_of_Z positive ++ " positive, " ++ PyStr.str_of_Z negative ++
  " negative, and " ++ PyStr.str_of_Z neutral ++ " neutral reactions.".

Definition generate_topic_summary (query : string) (l : list Post)
    (positive negative neutral : Z) (tone : string) : M string :=
  match l with
  | [] => ret ("No discussions found about '" ++ query ++ "'.")
  | _ =>
      let content_text := snippets_text l in
      let locals :=
        [ ("query", VStr query); ("posts", VObj); ("positive", VInt positive);
          ("negative", VInt negative); ("neutral", VInt neutral); ("tone", VStr tone);
          ("snippets", VObj); ("post", VObj); ("content", VObj);
          ("content_text", VStr content_text) ] in
      prompt <- lift (fstring locals topic_prompt) ;;
      answer <-
        try_except
          (r <- post_completion (chat_prompt prompt) ;;
           match r with
           | ConnectionFails e => raise e
           | Response status body =>
               if (status =? 200)%Z then
                 match body with
                 | None => raise JSONDecodeError
                 | Some result =>
                     content <- lift (json_get result "content" (JString "")) ;;
                     match content with
                     | JString c =>
                         let content :=
                           PyStr.strip
                             (PyStr.replace "<|im_end|>" ""
                                (PyStr.replace "<|im_start|>" "" (PyStr.strip c))) in
                         match content with
                         | "" => ret None
                         | _ => ret (Some content)
                         end
                     | _ => raise AttributeError
                     end
                 end
               else ret None
           end)
          (fun e =>
             print ("Error generating summary: " ++ exn_text e) ;;
             ret None) ;;
      match answer with
      | Some content => ret content
      | None =>
          ret (found_sentence (len l) query tone positive negative neutral ++
               " People seem to be discussing " ++ query ++ " with varied opinions.")
      end
  end.

(* --------------------------------------------------------------------- *)
(** *** [search_analysis] (lines 611 to 753) *)

(** The payload of a search without matches (lines 628 to 643 and 779 to
    798). *)
Definition no_posts_payload (q : string) : SearchAnalysis :=
  {| sa_query := q;
     sa_summary := "No posts found about '" ++ q ++ "'";
     sa_sentiment_summary :=
       {| ss_positive := 0; ss_neutral := 0; ss_negative := 0; ss_total := 0;
          ss_positive_percent := 0; ss_negative_percent := 0;
          ss_overall_tone := "Unknown" |};
     sa_positive_examples := [];
     sa_negative_examples := [];
     sa_neutral_examples := [] |}.

Definition make_citation (p : Post) : Citation :=
  {| cite_title :=
       if (100 <? String.length (title p))%nat then PyStr.take 100 (title p) ++ "..."
       else title p;
     cite_subreddit := subreddit p;
     cite_author := author p;
     cite_sentiment :=
       match sentiment p with
       | None => "unknown"
       | Some "" => "unknown"
       | Some label => label
       end;
     cite_score := score p;
     cite_url := permalink p |}.

(** Lines 689 to 693 and 847 to 849: the three lists. *)
Definition positive_of (l : list Post) : list Post := filter (sentiment_is "positive") l.
Definition negative_of (l : list Post) : list Post := filter (sentiment_is "negative") l.
Definition neutral_of (l : list Post) : list Post :=
  filter (fun p => negb (sentiment_is "positive" p) && negb (sentiment_is "negative" p)) l.

(** Lines 696 to 716 and 851 to 870: counts, percentages and tone. *)
Definition summarize (all_posts : list Post) : result SentimentSummary :=
  let positive_count := len (positive_of all_posts) in
  let negative_count := len (negative_of all_posts) in
  let neutral_count := len (neutral_of all_posts) in
  let total := len all_posts in
  match percent positive_count total with
  | Raise e => Raise e
  | Ok positive_percent =>
      match percent negative_count total with
      | Raise e => Raise e
      | Ok negative_percent =>
          Ok {| ss_positive := positive_count; ss_neutral := neutral_count;
                ss_negative := negative_count; ss_total := total;
                ss_positive_percent := positive_percent;
                ss_negative_percent := negative_percent;
                ss_overall_tone := overall_tone positive_percent negative_percent |}
      end
  end.

(** The statistics as they are sent: percentages through [round(x, 1)]. *)
Definition rounded (s : SentimentSummary) : SentimentSummary :=
  {| ss_positive := ss_positive s; ss_neutral := ss_neutral s;
     ss_negative := ss_negative s; ss_total := ss_total s;
     ss_positive_percent := Float64.round1 (ss_positive_percent s);
     ss_negative_percent := Float64.round1 (ss_negative_percent s);
     ss_overall_tone := ss_overall_tone s |}.

Definition examples (l : list Post) : list Citation := map make_citation (firstn 3 l).

Definition search_analysis (q : string) (subreddits : option string) (limit : Z)
    : M SearchAnalysis :=
  rowids <- fts_query q ;;
  match rowids with
  | [] => ret (no_posts_payload q)
  | _ =>
      all_posts <- select_rows rowids ;;
      let all_posts := filter_subreddits subreddits all_posts in
      let all_posts := sort_desc engagement all_posts in
      let all_posts := slice_to limit all_posts in
      stats <- lift (summarize all_posts) ;;
      summary_text <-
        generate_topic_summary q all_posts (ss_positive stats) (ss_negative stats)
          (ss_neutral stats) (ss_overall_tone stats) ;;
      ret {| sa_query := q;
             sa_summary := summary_text;
             sa_sentiment_summary := rounded stats;
             sa_positive_examples := examples (positive_of all_posts);
             sa_negative_examples := examples (negative_of all_posts);
             sa_neutral_examples := examples (neutral_of all_posts) |}
  end.

(* --------------------------------------------------------------------- *)
(** *** [search_analysis_stream] (lines 756 to 983) *)

(** Lines 914 to 921: here every name is a local of [event_generator]. *)
Definition stream_prompt (q : string) (stats : SentimentSummary) (content_text : string)
    : string :=
  "Analyze Reddit discussions about " ++ PyStr.dquote ++ q ++ PyStr.dquote ++ "." ++
  PyStr.newline ++ PyStr.newline ++
  "Stats: " ++ PyStr.str_of_Z (ss_positive stats) ++ " positive, " ++
  PyStr.str_of_Z (ss_negative stats) ++ " negative, " ++
  PyStr.str_of_Z (ss_neutral stats) ++ " neutral posts. Overall tone: " ++
  ss_overall_tone stats ++ "." ++ PyStr.newline ++ PyStr.newline ++
  "Recent posts:" ++ PyStr.newline ++ content_text ++ PyStr.newline ++ PyStr.newline ++
  "Write a 2-3 sentence summary of what people are discussing and their general sentiment. Be concise and factual.".

(** [key in data] for the key ["content"], by the type of [data]. *)
Definition is_content (j : json) : bool :=
  match j with
  | JString s => String.eqb s "content"
  | _ => false
  end.

Definition has_content (data : json) : result bool :=
  match data with
  | JObject fields =>
      match assoc "content" fields with
      | Some _ => Ok true
      | None => Ok false
      end
  | JString s => Ok (PyStr.contains "content" s)
  | JArray items => Ok (existsb is_content items)
  | _ => Raise TypeError
  end.

(** [data["content"]] once the key is known to be in [data], and
    [accumulated += chunk]: only a dict can be indexed by a key, and only
    a [str] can be added to a [str]. *)
Definition content_chunk (data : json) : result string :=
  match data with
  | JObject fields =>
      match assoc "content" fields with
      | Some (JString chunk) => Ok chunk
      | Some _ => Raise TypeError
      | None => Raise (KeyError "content")
      end
  | _ => Raise TypeError
  end.

(** Lines 940 to 950: the loop over the lines of the response. *)
Fixpoint read_stream (lines : list sse_line) (accumulated : string) : M string :=
  match lines with
  | [] => ret accumulated
  | Undecodable :: _ => raise UnicodeDecodeError
  | Other _ :: rest => read_stream rest accumulated
  | Data None :: rest => read_stream rest accumulated
  | Data (Some data) :: rest =>
      present <- lift (has_content data) ;;
      if present : bool then
        chunk <- lift (content_chunk data) ;;
        let accumulated := accumulated ++ chunk in
        yield_event (EvSummaryChunk chunk accumulated) ;;
        read_stream rest accumulated
      else read_stream rest accumulated
  end.

(** Lines 923 to 953: the [try] around the streamed call, as the value
    it leaves in the local [accumulated]; [None] when it leaves the name
    unbound. *)
Definition stream_summary (prompt fallback : string) : M (option string) :=
  try_except
    (r <- post_completion_stream prompt ;;
     match r with
     | StreamFails e => raise e
     | StreamResponse status lines ending =>
         if (status =? 200)%Z then
           text <- read_stream lines "" ;;
           match ending with
           | Closed => ret (Some text)
           | Broken e => raise e
           end
         else ret None
     end)
    (fun e =>
       print ("Error streaming summary: " ++ exn_text e) ;;
       ret (Some fallback)).

(** The body of [event_generator]. *)
Definition search_analysis_stream (q : string) (subreddits : option string) (limit : Z)
    : M unit :=
  yield_event
    (EvStatus ("Searching for posts about " ++ PyStr.dquote ++ q ++ PyStr.dquote ++ "...")) ;;
  rowids <- fts_query q ;;
  match rowids with
  | [] => yield_event (EvComplete (no_posts_payload q))
  | _ =>
      yield_event
        (EvStatus ("Found " ++ PyStr.str_of_Z (len rowids) ++ " posts, fetching details...")) ;;
      all_posts <- select_rows rowids ;;
      let all_posts := filter_subreddits subreddits all_posts in
      let all_posts := sort_desc engagement all_posts in
      let all_posts := slice_to limit all_posts in
      stats <- lift (summarize all_posts) ;;
      yield_event (EvSentiment (rounded stats)) ;;
      yield_event (EvStatus "Generating AI summary...") ;;
      let prompt := stream_prompt q stats (snippets_text all_posts) in
      let fallback :=
        found_sentence (len all_posts) q (ss_overall_tone stats) (ss_positive stats)
          (ss_negative stats) (ss_neutral stats) in
      accumulated <- stream_summary (chat_prompt prompt) fallback ;;
      (* lines 956 and 957: [if "accumulated" not in dir()] *)
      let accumulated :=
        match accumulated with
        | Some text => text
        | None => fallback
        end in
      yield_event
        (EvComplete
           {| sa_query := q;
              sa_summary := accumulated;
              sa_sentiment_summary := rounded stats;
              sa_positive_examples := examples (positive_of all_posts);
              sa_negative_examples := examples (negative_of all_posts);
              sa_neutral_examples := examples (neutral_of all_posts) |})
  end.

(* --------------------------------------------------------------------- *)
(** *** [get_distribution] (lines 1097 to 1133) *)

(** [if subreddit and subreddit.lower() != "all"]. *)
Definition one_subreddit (subreddit0 : option string) : option string :=
  match subreddit0 with
  | None => None
  | Some "" => None
  | Some name => if String.eqb (PyStr.lower name) "all" then None else Some name
  end.

(** The [WHERE] clause of lines 1112, 1121, 1152 and 1163. *)
Definition in_window (subreddit0 : option string) (cutoff : Calendar.datetime) (p : Post)
    : bool :=
  match one_subreddit subreddit0 with
  | Some name => String.eqb (subreddit p) name
  | None => true
  end
  && (cutoff <? created_utc p)%Z
  && match sentiment p with Some _ => true | None => false end.

(** [GROUP BY key] with [COUNT( * )]: one row per key, here in the order
    in which the keys first occur. *)
Fixpoint count_key (A : Type) (same : A -> A -> bool) (k : A) (groups : list (A * Z))
    : list (A * Z) :=
  match groups with
  | [] => [(k, 1%Z)]
  | (k', n) :: rest =>
      if same k k' then (k', (n + 1)%Z) :: rest
      else (k', n) :: count_key same k rest
  end.

Definition group_count (A : Type) (same : A -> A -> bool) (keys : list A) : list (A * Z) :=
  fold_left (fun groups k => count_key same k groups) keys [].

Definition sentiment_text (p : Post) : string :=
  match sentiment p with
  | Some s => s
  | None => ""
  end.

(** The dict of three counters, and [d[key] = count] for a key in it. *)
Definition set_count (key : string) (count : Z) (d : SentimentDistribution)
    : SentimentDistribution :=
  if String.eqb key "positive"
  then {| sd_positive := count; sd_neutral := sd_neutral d; sd_negative := sd_negative d |}
  else if String.eqb key "neutral"
  then {| sd_positive := sd_positive d; sd_neutral := count; sd_negative := sd_negative d |}
  else if String.eqb key "negative"
  then {| sd_positive := sd_positive d; sd_neutral := sd_neutral d; sd_negative := count |}
  else d.

Definition zero_counts : SentimentDistribution :=
  {| sd_positive := 0; sd_neutral := 0; sd_negative := 0 |}.

(** Lines 1128 to 1130: a key outside the dict, or an empty one, is
    skipped; [set_count] leaves the dict as it is for such a key. *)
Definition record_count (d : SentimentDistribution) (r : string * Z) : SentimentDistribution :=
  match fst r with
  | "" => d
  | label => set_count (PyStr.lower label) (snd r) d
  end.

Definition distribution_rows (subreddit0 : option string) (cutoff : Calendar.datetime)
    (t : table) : list (string * Z) :=
  group_count String.eqb
    (map sentiment_text (filter (in_window subreddit0 cutoff) (map post t))).

Definition get_distribution (subreddit0 : option string) (days : Z)
    : M SentimentDistribution :=
  t <- datetime_now ;;
  let cutoff := (t - Calendar.timedelta_days days)%Z in
  rows <- sql SelectDistribution (fun tb => (distribution_rows subreddit0 cutoff tb, tb)) ;;
  ret (fold_left record_count rows zero_counts).

(* --------------------------------------------------------------------- *)
(** *** [get_timeline] (lines 1136 to 1192) *)

Definition same_day_key (a b : string * string) : bool :=
  String.eqb (fst a) (fst b) && String.eqb (snd a) (snd b).

(** [ORDER BY date DESC]: stable, latest date first. *)
Fixpoint insert_by_date (r : string * string * Z) (l : list (string * string * Z))
    : list (string * string * Z) :=
  match l with
  | [] => [r]
  | r' :: rest =>
      if String.leb (fst (fst r')) (fst (fst r)) then r :: r' :: rest
      else r' :: insert_by_date r rest
  end.

Definition timeline_rows (subreddit0 : option string) (cutoff : Calendar.datetime)
    (t : table) : list (string * string * Z) :=
  fold_right insert_by_date []
    (group_count same_day_key
       (map (fun p => (Calendar.strftime_ymd (created_utc p), sentiment_text p))
          (filter (in_window subreddit0 cutoff) (map post t)))).

(** The dict [date_data], as the list of its items. *)
Fixpoint date_get (date : string) (date_data : list (string * SentimentDistribution))
    : option SentimentDistribution :=
  match date_data with
  | [] => None
  | (d, counts) :: rest => if String.eqb d date then Some counts else date_get date rest
  end.

Fixpoint date_set (date : string) (counts : SentimentDistribution)
    (date_data : list (string * SentimentDistribution))
    : list (string * SentimentDistribution) :=
  match date_data with
  | [] => [(date, counts)]
  | (d, c) :: rest =>
      if String.eqb d date then (d, counts) :: rest
      else (d, c) :: date_set date counts rest
  end.

(** Lines 1171 to 1175. *)
Definition record_day (date_data : list (string * SentimentDistribution))
    (r : string * string * Z) : list (string * SentimentDistribution) :=
  let '(date, label, count) := r in
  let counts :=
    match date_get date date_data with
    | Some c => c
    | None => zero_counts
    end in
  date_set date (record_count counts (label, count)) date_data.

(** [range(days - 1, -1, -1)]. *)
Definition range_down (days : Z) : list Z :=
  map (fun k => (days - 1 - Z.of_nat k)%Z) (seq 0 (Z.to_nat days)).

Definition get_timeline (subreddit0 : option string) (days : Z) : M TimelineData :=
  t <- datetime_now ;;
  let cutoff := (t - Calendar.timedelta_days days)%Z in
  rows <- sql SelectTimeline (fun tb => (timeline_rows subreddit0 cutoff tb, tb)) ;;
  let date_data := fold_left record_day rows [] in
  let buckets :=
    map (fun i =>
           let date := Calendar.strftime_ymd (cutoff + Calendar.timedelta_days i)%Z in
           (date,
            match date_get date date_data with
            | Some c => c
            | None => zero_counts
            end))
        (range_down days) in
  ret {| tl_labels := map fst buckets;
         tl_positive := map (fun b => sd_positive (snd b)) buckets;
         tl_neutral := map (fun b => sd_neutral (snd b)) buckets;
         tl_negative := map (fun b => sd_negative (snd b)) buckets |}.

End Program.

(* ===================================================================== *)
(** ** The specification's own wording *)
(* ===================================================================== *)

Module Spec.

Local Open Scope string_scope.

(** Section 4.3: the category by the tokens the response contains,
    whatever their case. *)
Definition category (response : string) : string :=
  if PyStr.contains_nocase "POSITIVE" response then "positive"
  else if PyStr.contains_nocase "NEGATIVE" response then "negative"
  else "neutral".

Definition default_score (response : string) : Q :=
  if PyStr.contains_nocase "POSITIVE" response then Float64.round (7 # 10)
  else if PyStr.contains_nocase "NEGATIVE" response then Float64.round (- (7 # 10))
  else 0%Q.

(** A signed decimal number at the head of a text: an optional sign, then
    digits, then a dot with digits after it; the digits before the dot or
    the dot with its digits may be missing, not both. *)
Fixpoint span_digits (s : string) : string * string :=
  match s with
  | String c t =>
      if Regex.is_digit c
      then let '(d, rest) := span_digits t in (String c d, rest)
      else (EmptyString, s)
  | EmptyString => (EmptyString, EmptyString)
  end.

Definition some_digits (d : string) : option string :=
  match d with
  | EmptyString => None
  | _ => Some d
  end.

Definition unsigned_at (s : string) : option string :=
  let '(whole, rest) := span_digits s in
  match rest with
  | String c t =>
      if Regex.is_dot c then
        match span_digits t with
        | (EmptyString, _) => some_digits whole
        | (fraction, _) => Some (whole ++ String c fraction)
        end
      else some_digits whole
  | EmptyString => some_digits whole
  end.

Definition number_at (s : string) : option string :=
  match s with
  | String c t =>
      if Regex.is_sign c then option_map (String c) (unsigned_at t)
      else unsigned_at s
  | EmptyString => None
  end.

(** The first signed decimal number found anywhere in the text. *)
Fixpoint first_number (s : string) : option string :=
  match number_at s with
  | Some text => Some text
  | None =>
      match s with
      | EmptyString => None
      | String _ t => first_number t
      end
  end.

(** The score: the first number, if it parses and lies within [-1, 1],
    in place of the default. *)
Definition score (response : string) : Q :=
  match first_number response with
  | Some text =>
      match PyFloat.float text with
      | Some x => if Qle_bool (-1) x && Qle_bool x 1 then x else default_score response
      | None => default_score response
      end
  | None => default_score response
  end.

(** The completion text of a reply the classifier can use: status 200
    and a JSON object whose [content], when it has one, is a string. *)
Definition usable (r : http_reply) : option string :=
  match r with
  | Response status (Some (JObject fields)) =>
      if (status =? 200)%Z then
        match assoc "content" fields with
        | Some (JString c) => Some c
        | Some _ => None
        | None => Some ""
        end
      else None
  | _ => None
  end.

(** Section 4.3: [classify] gives the category and the score of a usable
    reply and the unset pair on a failure. *)
Definition classify (r : http_reply) : option string * option Q :=
  match usable r with
  | Some c => (Some (category c), Some (score c))
  | None => (None, None)
  end.

(** Section 4.5: the six tones. *)
Definition tones : list string :=
  [ "Mostly Positive"; "Mostly Negative"; "Mixed (Polarized)";
    "Slightly Positive"; "Slightly Negative"; "Neutral/Mixed" ].

(** Section 4.5: the rules in their priority order, as propositions. *)
Definition rules (p n : Q) : list (Prop * string) :=
  [ ((60 < p)%Q, "Mostly Positive");
    ((60 < n)%Q, "Mostly Negative");
    ((40 < p /\ 40 < n)%Q, "Mixed (Polarized)");
    ((30 < p /\ n < 20)%Q, "Slightly Positive");
    ((30 < n /\ p < 20)%Q, "Slightly Negative") ].

(** [tone] is the label of the first rule that holds, [otherwise] when
    none does. *)
Fixpoint first_match (rs : list (Prop * string)) (otherwise tone : string) : Prop :=
  match rs with
  | [] => tone = otherwise
  | (holds, label) :: rest =>
      (holds /\ tone = label) \/ (~ holds /\ first_match rest otherwise tone)
  end.

(** Section 4.6: the template of the fallback summary. *)
Definition fallback (n : Z) (query tone : string) (p ng nu : Z) : string :=
  "Found " ++ PyStr.str_of_Z n ++ " discussions about '" ++ query ++
  "'. The community sentiment is " ++ tone ++ " with " ++ PyStr.str_of_Z p ++
  " positive, " ++ PyStr.str_of_Z ng ++ " negative, and " ++ PyStr.str_of_Z nu ++
  " neutral reactions.".

End Spec.

(* ===================================================================== *)
(** ** Views of a world and of a run *)
(* ===================================================================== *)

(** The stored record of an id. *)
Definition stored (post_id : string) (t : table) : option row :=
  find (has_id post_id) t.

(** The statements that change the table. *)
Definition is_write (s : stmt) : bool :=
  match s with
  | InsertOrReplace _ | DeleteOlder _ => true
  | _ => false
  end.

Definition is_delete (s : stmt) : bool :=
  match s with
  | DeleteOlder _ => true
  | _ => false
  end.

Definition writes (w : world) : list stmt := filter is_write (sql_log w).

(** The cleanups a world has seen. *)
Definition deletes (w : world) : list stmt := filter is_delete (sql_log w).

(** What the classifier is asked for a post. *)
Definition classifier_prompt (p : Post) : string :=
  sentiment_prompt (String.append (title p) (String.append " " (PyStr.take 200 (selftext p)))).

(** The posts a fetch hands to the loop of [fetch_and_analyze_subreddit]. *)
Definition fetched_by (E : env) (subreddit0 : string) (w : world) : list Post :=
  match reddit E (tick w) subreddit0 with
  | Listing (Some children) => children
  | _ => []
  end.

(** The rows a full-text search matches. *)
Definition matches (test : string -> string -> bool) (t : table) : list row :=
  filter (fun r => test (title (post r)) (selftext (post r))) t.

(** The posts an analysis works on (lines 677 to 686 and 837 to 844)
    out of the rows the search matched. *)
Definition analysed_posts (test : string -> string -> bool) (subreddits : option string)
    (limit : Z) (t : table) : list Post :=
  slice_to limit
    (sort_desc engagement
       (filter_subreddits subreddits
          (map post
             (filter (fun r => existsb (Z.eqb (rowid r)) (map rowid (matches test t))) t)))).

Definition complete_events (evs : list sse_event) : list SearchAnalysis :=
  flat_map (fun ev => match ev with EvComplete p => [p] | _ => [] end) evs.

Definition is_stats_or_chunk (ev : sse_event) : bool :=
  match ev with
  | EvSentiment _ | EvSummaryChunk _ _ => true
  | _ => false
  end.

Definition is_chunk (ev : sse_event) : bool :=
  match ev with
  | EvSummaryChunk _ _ => true
  | _ => false
  end.

(** The replies after which the summarizer has failed: the request
    raised, the status is not 200, or the stream broke off. *)
Definition stream_failed (r : stream_reply) : Prop :=
  match r with
  | StreamFails _ => True
  | StreamResponse status _ ending =>
      status <> 200%Z \/ exists e, ending = Broken e
  end.



Definition is_label (k : string) : Prop :=
  k = "positive"%string \/ k = "neutral"%string \/ k = "negative"%string.

Definition neither (p : Post) : bool :=
  negb (sentiment_is "positive" p) && negb (sentiment_is "negative" p).



(** The labels the classifier can store. *)
Definition valid_label (p : Post) : Prop :=
  sentiment p = None \/ sentiment p = Some "positive"%string \/
  sentiment p = Some "neutral"%string \/ sentiment p = Some "negative"%string.

(** What a run of the ingestion loop over posts of [fetched] may have
    done to a world [w0]: it asked the classifier about posts of
    [fetched] that [w0] does not store, one question each, appended rows
    for such posts, each with a label the classifier can give or none,
    and wrote nothing else. *)
Definition fresh_in (fetched : list Post) (w0 : world) (p : Post) : Prop :=
  In p fetched /\ stored (id p) (posts w0) = None.

Definition grown_from (fetched : list Post) (w0 w : world) : Prop :=
  exists (fresh : list Post) (added : list row) (ws : list stmt),
    Forall (fresh_in fetched w0) fresh
    /\ llm_calls w = (llm_calls w0 ++ map classifier_prompt fresh)%list
    /\ posts w = (posts w0 ++ added)%list
    /\ Forall (fun r => exists p, In p fresh /\ id (post r) = id p) added
    /\ Forall (fun r => valid_label (post r)) added
    /\ writes w = (writes w0 ++ ws)%list
    /\ Forall (fun s => exists p, In p fresh /\ s = InsertOrReplace (id p)) ws.

(* ===================================================================== *)
(** ** Sample worlds *)
(* ===================================================================== *)

Module Sample.

Local Open Scope string_scope.
Local Open Scope Z_scope.

(** 2024-01-10T12:00:00. *)
Definition noon : Calendar.datetime := 19732 * Calendar.usec_per_day + 43200000000.

Definition substring_search (q : string) : option (string -> string -> bool) :=
  Some (fun title0 selftext0 => PyStr.contains q title0 || PyStr.contains q selftext0).

(** A service that is down, a database that works. *)
Definition quiet : env :=
  {| reddit := fun _ _ => Listing (Some []);
     completion := fun _ _ => ConnectionFails ClientError;
     completion_stream := fun _ _ => StreamFails ClientError;
     sql_fails := fun _ _ => false;
     now := fun _ => noon;
     fts5 := substring_search |}.


(** The database refuses every [DELETE] (it is locked, say). *)
Definition locked_delete : env :=
  {| reddit := fun _ _ => Listing (Some []);
     completion := fun _ _ => ConnectionFails ClientError;
     completion_stream := fun _ _ => StreamFails ClientError;
     sql_fails := fun _ s => is_delete s;
     now := fun _ => noon;
     fts5 := substring_search |}.

Definition a_post (post_id : string) (label : option string) (created : Calendar.datetime)
    : Post :=
  {| id := post_id; title := "rust " ++ post_id; selftext := ""; author := "someone";
     score := 1; ups := 1; downs := 0; num_comments := 2; created_utc := created;
     permalink := "https://reddit.com/r/OpenAI/" ++ post_id; url := "";
     subreddit := "OpenAI"; sentiment := label; sentiment_score := None;
     analyzed_at := None |}.

Definition world_of (t : table) : world :=
  {| posts := t; tick := O; sql_log := []; llm_calls := []; stdout := []; sent := [] |}.

Definition empty : world := world_of [].


(** One post, labelled positive an hour ago. *)
Definition one_positive : world :=
  world_of [ {| rowid := 1; post := a_post "p1" (Some "positive") (noon - 3600000000) |} ].

(** The source returns two posts, and the service answers every
    question of the classifier with a status and the completion [text];
    [answering] does so with status 200. *)
Definition replying (status : Z) (text : string) : env :=
  {| reddit := fun _ _ => Listing (Some [a_post "p1" None 0; a_post "p2" None 0]);
     completion := fun _ _ => Response status (Some (JObject [("content", JString text)]));
     completion_stream := fun _ _ => StreamFails ClientError;
     sql_fails := fun _ _ => false;
     now := fun _ => noon;
     fts5 := substring_search |}.

Definition answering (text : string) : env := replying 200 text.

End Sample.

(* ===================================================================== *)
(** ** Further endpoints and views *)
(* ===================================================================== *)

Section Endpoints.

Variable E : env.

Local Open Scope py_scope.
Local Open Scope string_scope.

(** [trigger_analysis] (lines 1195 to 1199): the message and the
    subreddit of the reply.  The body never reads [limit]. *)
Definition trigger_analysis (subreddit0 : string) (limit : Z) : M (string * string) :=
  analyzed <- fetch_and_analyze_subreddit E subreddit0 ;;
  ret ("Analyzed " ++ PyStr.str_of_Z analyzed ++ " posts", subreddit0).

End Endpoints.

(** The record [store_post] writes for a fetched post [p]: the twelve
    fields of [p], the label and the score it is given, and the time of
    the write. *)
Definition classified (p : Post) (label : option string) (score0 : option Q)
    (at_time : Calendar.datetime) : Post :=
  {| id := id p; title := title p; selftext := selftext p; author := author p;
     score := score p; ups := ups p; downs := downs p;
     num_comments := num_comments p; created_utc := created_utc p;
     permalink := permalink p; url := url p; subreddit := subreddit p;
     sentiment := label; sentiment_score := score0;
     analyzed_at := Some at_time |}.


Definition rowids (t : table) : list Z := map rowid t.


(** What the classification columns of a record can hold together:
    nothing, or one of the three labels with a score from -1 to 1. *)
Definition classification_ok (p : Post) : Prop :=
  (sentiment p = None /\ sentiment_score p = None)
  \/ (exists label s,
        sentiment p = Some label /\ is_label label
        /\ sentiment_score p = Some s /\ (-1 <= s <= 1)%Q).

(** The lines of a streamed response, as the loop of lines 940 to 950
    takes them.  A line adds text to the summary when it is a [data:]
    line whose JSON is an object with a text under [content]. *)
Definition line_text (line : sse_line) : option string :=
  match line with
  | Data (Some (JObject fields)) =>
      match assoc "content" fields with
      | Some (JString chunk) => Some chunk
      | _ => None
      end
  | _ => None
  end.

(** The lines the loop gets past: a line that is not a [data:] line, a
    [data:] line that is not JSON, and a [data:] line whose JSON is an
    object without [content] or with a text under it, or is a text or an
    array in which ["content"] does not occur. *)
Definition line_ok (line : sse_line) : bool :=
  match line with
  | Undecodable => false
  | Other _ => true
  | Data None => true
  | Data (Some (JObject fields)) =>
      match assoc "content" fields with
      | Some (JString _) | None => true
      | Some _ => false
      end
  | Data (Some (JString s)) => negb (PyStr.contains "content" s)
  | Data (Some (JArray items)) => negb (existsb is_content items)
  | Data (Some _) => false
  end.

(** The lines before the first one the loop does not get past. *)
Fixpoint readable (lines : list sse_line) : list sse_line :=
  match lines with
  | [] => []
  | line :: rest => if line_ok line then line :: readable rest else []
  end.

Definition line_texts (lines : list sse_line) : list string :=
  flat_map (fun line => match line_text line with Some chunk => [chunk] | None => [] end)
    lines.

(** The chunk events of a list of texts, after [accumulated]. *)
Fixpoint running (accumulated : string) (texts : list string) : list sse_event :=
  match texts with
  | [] => []
  | chunk :: rest =>
      EvSummaryChunk chunk (String.append accumulated chunk)
      :: running (String.append accumulated chunk) rest
  end.

Definition joined (texts : list string) : string :=
  fold_right String.append EmptyString texts.

(** The summary and the chunk events a reply of the generative service
    leads to. *)
Definition streamed_chunks (reply : stream_reply) : list sse_event :=
  match reply with
  | StreamResponse status lines _ =>
      if (status =? 200)%Z then running EmptyString (line_texts (readable lines)) else []
  | StreamFails _ => []
  end.

Definition streamed_summary (reply : stream_reply) (fallback : string) : string :=
  match reply with
  | StreamResponse status lines Closed =>
      if (status =? 200)%Z && forallb line_ok lines then joined (line_texts lines)
      else fallback
  | _ => fallback
  end.

(** A run from [w] to [w'] that leaves the table as it was and has
    executed no statement that writes. *)
Definition untouched (w w' : world) : Prop :=
  posts w' = posts w /\ writes w' = writes w.





(** The line [fetch_and_analyze_subreddit] prints when it starts on a
    source, and the lines of that kind. *)
Definition fetch_line (subreddit0 : string) : string :=
  String.append "Fetching r/" (String.append subreddit0 "...").

Definition is_fetch_line (line : string) : bool := PyStr.startswith "Fetching r/" line.

(** A run from [w] to [w'] that has printed, among other lines, the
    fetch lines [lines], in that order. *)
Definition fetch_lines (w w' : world) (lines : list string) : Prop :=
  exists printed,
    stdout w' = (stdout w ++ printed)%list /\ filter is_fetch_line printed = lines.

(* ===================================================================== *)
(** ** Further sample worlds *)
(* ===================================================================== *)

Module Cases.

Local Open Scope string_scope.



End Cases.

(* ===================================================================== *)
(** ** Reading a listing ([parse_posts] of [reddit_fetcher.py], and the
       same loop in [fetch_reddit_posts], lines 266 to 284 of [api.py]) *)
(* ===================================================================== *)

(** Sequencing of computations that return or raise. *)
Definition and_then {A B : Type} (r : result A) (k : A -> result B) : result B :=
  match r with
  | Ok a => k a
  | Raise e => Raise e
  end.

(** [v[key]] for a text [key]: only a dict can be indexed by a text. *)
Definition getitem (v : json) (key : string) : result json :=
  match v with
  | JObject fields =>
      match assoc key fields with
      | Some x => Ok x
      | None => Raise (KeyError key)
      end
  | _ => Raise TypeError
  end.

(** [for child in v]: the items of a list, the keys of a dict, the
    characters of a text; nothing else can be iterated. *)
Definition iterate (v : json) : result (list json) :=
  match v with
  | JArray items => Ok items
  | JObject fields => Ok (map (fun kv => JString (fst kv)) fields)
  | JString s => Ok (map (fun c => JString (String c EmptyString)) (list_ascii_of_string s))
  | _ => Raise TypeError
  end.

(** The dict the loop builds for one post: the values are kept as they
    were decoded, but for the time, which is converted, and the
    permalink, which is formatted. *)
Record fetched : Type := {
  f_id : json;
  f_title : json;
  f_selftext : json;
  f_author : json;
  f_score : json;
  f_ups : json;
  f_downs : json;
  f_num_comments : json;
  f_created_utc : Calendar.datetime;
  f_permalink : string;
  f_url : json;
  f_subreddit : json
}.

Section Listing.

(** Two library functions are taken as they are: [str(v)] of a decoded
    value, and [datetime.fromtimestamp], which turns a number of seconds
    into a local time or raises. *)
Variable py_str : json -> string.
Variable fromtimestamp : Q -> result Calendar.datetime.

Local Notation "x <~ r ;; k" := (and_then r (fun x => k))
  (at level 61, r at next level, right associativity).

(** [datetime.fromtimestamp(v)]: [v] must be a number; [True] and
    [False] are the numbers 1 and 0. *)
Definition timestamp_of (v : json) : result Calendar.datetime :=
  match v with
  | JNumber q => fromtimestamp q
  | JBool b => fromtimestamp (if b then 1 else 0)
  | _ => Raise TypeError
  end.

(** The body of the loop: the values of the dict are evaluated in the
    order of its keys. *)
Definition parse_child (child : json) : result fetched :=
  post_data <~ getitem child "data" ;;
  id0 <~ getitem post_data "id" ;;
  title0 <~ getitem post_data "title" ;;
  selftext0 <~ json_get post_data "selftext" (JString "") ;;
  author0 <~ getitem post_data "author" ;;
  score0 <~ getitem post_data "score" ;;
  ups0 <~ getitem post_data "ups" ;;
  downs0 <~ getitem post_data "downs" ;;
  num_comments0 <~ getitem post_data "num_comments" ;;
  seconds <~ getitem post_data "created_utc" ;;
  created <~ timestamp_of seconds ;;
  permalink0 <~ getitem post_data "permalink" ;;
  url0 <~ json_get post_data "url" (JString "") ;;
  subreddit0 <~ getitem post_data "subreddit" ;;
  Ok {| f_id := id0; f_title := title0; f_selftext := selftext0; f_author := author0;
        f_score := score0; f_ups := ups0; f_downs := downs0;
        f_num_comments := num_comments0; f_created_utc := created;
        f_permalink := String.append "https://reddit.com" (py_str permalink0);
        f_url := url0; f_subreddit := subreddit0 |}.

Fixpoint parse_children (children : list json) : result (list fetched) :=
  match children with
  | [] => Ok []
  | child :: rest =>
      p <~ parse_child child ;;
      ps <~ parse_children rest ;;
      Ok (p :: ps)
  end.

Definition parse_posts (data : json) : result (list fetched) :=
  listing <~ getitem data "data" ;;
  children <~ getitem listing "children" ;;
  items <~ iterate children ;;
  parse_children items.

End Listing.

(** The keys the loop reads with [post_data[key]], in the order in which
    it reads them. *)
Definition required_keys : list string :=
  [ "id"; "title"; "author"; "score"; "ups"; "downs"; "num_comments"; "created_utc";
    "permalink"; "subreddit" ]%string.

(** What the dict of a post holds of the child it is built from: the
    child has a dict under [data]; eight values are the child's own, two
    are the child's own or the empty text, the time is the conversion of
    [created_utc], and the permalink is the child's after the address of
    the site. *)
Definition built_from (py_str : json -> string)
    (fromtimestamp : Q -> result Calendar.datetime) (child : json) (p : fetched) : Prop :=
  exists fields seconds link,
    getitem child "data" = Ok (JObject fields)
    /\ assoc "id" fields = Some (f_id p)
    /\ assoc "title" fields = Some (f_title p)
    /\ f_selftext p = match assoc "selftext" fields with
                      | Some v => v
                      | None => JString ""
                      end
    /\ assoc "author" fields = Some (f_author p)
    /\ assoc "score" fields = Some (f_score p)
    /\ assoc "ups" fields = Some (f_ups p)
    /\ assoc "downs" fields = Some (f_downs p)
    /\ assoc "num_comments" fields = Some (f_num_comments p)
    /\ assoc "created_utc" fields = Some seconds
    /\ timestamp_of fromtimestamp seconds = Ok (f_created_utc p)
    /\ assoc "permalink" fields = Some link
    /\ f_permalink p = String.append "https://reddit.com" (py_str link)
    /\ f_url p = match assoc "url" fields with
                 | Some v => v
                 | None => JString ""
                 end
    /\ assoc "subreddit" fields = Some (f_subreddit p).

(** What [parse_posts] can raise: a [TypeError], a [KeyError] for one of
    the keys it indexes, or what [datetime.fromtimestamp] raises. *)
Definition listing_error (fromtimestamp : Q -> result Calendar.datetime) (e : exn) : Prop :=
  e = TypeError
  \/ (exists key, e = KeyError key
                  /\ In key ("data" :: "children" :: required_keys)%string)
  \/ (exists seconds, fromtimestamp seconds = Raise e).

Module Listings.

Local Open Scope string_scope.

(** A stand-in for [str(v)], which is right on texts, and a clock in
    UTC for whole numbers of seconds. *)
Definition text_of (v : json) : string :=
  match v with
  | JString s => s
  | _ => "<value>"
  end.

Definition utc (seconds : Q) : result Calendar.datetime :=
  Ok (Qfloor (seconds * 1000000)).

(** An item of a listing with all the keys but [selftext], and one that
    lacks [author] as well. *)
Definition item (fields : list (string * json)) : json := JObject [("data", JObject fields)].

Definition link_post : list (string * json) :=
  [ ("id", JString "p1"); ("title", JString "A link"); ("author", JString "someone");
    ("score", JNumber 5); ("ups", JNumber 5); ("downs", JNumber 0);
    ("num_comments", JNumber 2); ("created_utc", JNumber 1704888000);
    ("permalink", JString "/r/OpenAI/comments/p1/"); ("url", JString "https://example.org");
    ("subreddit", JString "OpenAI") ].

Definition no_author : list (string * json) :=
  [ ("id", JString "p2"); ("title", JString "Deleted"); ("selftext", JString "text") ].

Definition listing_of (items : list json) : json :=
  JObject [("kind", JString "Listing"); ("data", JObject [("children", JArray items)])].

End Listings.

(* ===================================================================== *)
(** ** [adapt_datetime] (lines 26 and 27): the text of a datetime *)
(* ===================================================================== *)

Module Iso.

Local Open Scope Z_scope.

(** The first and the last day of Python's datetimes, 0001-01-01 and
    9999-12-31, counted from 1970-01-01. *)
Definition first_day : Z := -719162.
Definition last_day : Z := 2932896.

Definition datetime_min : Calendar.datetime := first_day * Calendar.usec_per_day.
Definition datetime_max : Calendar.datetime := (last_day + 1) * Calendar.usec_per_day - 1.

Definition digit (n : Z) : ascii := ascii_of_nat (48 + Z.to_nat n).

(** [n] in decimal with [width] digits, as ["%02d"], ["%04d"] and
    ["%06d"] write a number from 0 that has no more digits than that. *)
Fixpoint field (width : nat) (n : Z) : string :=
  match width with
  | O => EmptyString
  | S k => String.append (field k (n / 10)) (String (digit (n mod 10)) EmptyString)
  end.

(** The three parts of the text: the day, the time of day to the
    second, and the microseconds, which are left out when they are
    zero. *)
Definition date_text (day : Z) : string :=
  let '(y, m, d) := Calendar.civil_from_days day in
  (field 4 y ++ "-" ++ field 2 m ++ "-" ++ field 2 d)%string.

Definition clock_text (second : Z) : string :=
  (field 2 (second / 3600) ++ ":" ++ field 2 (second / 60 mod 60) ++ ":" ++
   field 2 (second mod 60))%string.

Definition fraction_text (microsecond : Z) : string :=
  if microsecond =? 0 then EmptyString else ("." ++ field 6 microsecond)%string.

(** [dt.isoformat()] of a naive datetime. *)
Definition isoformat (t : Calendar.datetime) : string :=
  let rest := t mod Calendar.usec_per_day in
  (date_text (Calendar.day_of t) ++ "T" ++ clock_text (rest / 1000000) ++
   fraction_text (rest mod 1000000))%string.

Definition adapt_datetime (dt : Calendar.datetime) : string := isoformat dt.

(** The date of a day as one number, year, month and day in decimal
    side by side. *)
Definition date_number (day : Z) : Z :=
  let '(y, m, d) := Calendar.civil_from_days day in
  y * 10000 + m * 100 + d.

(** Whether [count] days in a row from [from] have months from 1 to 12
    and days from 1 to 31, each with a date number above [previous] and
    above the one of the day before. *)
Fixpoint dates_rise (previous from : Z) (count : nat) : bool :=
  match count with
  | O => true
  | S k =>
      let '(y, m, d) := Calendar.civil_from_days from in
      if (previous <? y * 10000 + m * 100 + d) && (1 <=? m) && (m <=? 12)
         && (1 <=? d) && (d <=? 31)
      then dates_rise (y * 10000 + m * 100 + d) (from + 1) k
      else false
  end.


(** The order of pairs, by the first components and then the second. *)
Definition lexi (c d : comparison) : comparison :=
  match c with
  | Eq => d
  | _ => c
  end.

End Iso.

(* ===================================================================== *)
(** * Proofs *)
(* ===================================================================== *)


(* --------------------------------------------------------------------- *)
(** ** Comparisons of floats *)

Lemma gtb_lt (a b : Q) : Float64.gtb a b = true <-> (b < a)%Q.
Proof.
  unfold Float64.gtb. rewrite negb_true_iff.
  split; intro H.
  - apply Qnot_le_lt. intro L. apply Qle_bool_iff in L. congruence.
  - destruct (Qle_bool a b) eqn:L; [|reflexivity].
    apply Qle_bool_iff in L. exfalso. exact (Qlt_not_le _ _ H L).
Qed.

Lemma ltb_lt (a b : Q) : Float64.ltb a b = true <-> (a < b)%Q.
Proof. unfold Float64.ltb. apply (gtb_lt b a). Qed.

Lemma gtb_compat (a a' b : Q) : (a == a')%Q -> Float64.gtb a b = Float64.gtb a' b.
Proof.
  intro H. apply eq_true_iff_eq. rewrite !gtb_lt. rewrite H. reflexivity.
Qed.

Lemma ltb_compat (a a' b : Q) : (a == a')%Q -> Float64.ltb a b = Float64.ltb a' b.
Proof.
  intro H. apply eq_true_iff_eq. rewrite !ltb_lt. rewrite H. reflexivity.
Qed.

Lemma summarize_tone (l : list Post) (s : SentimentSummary) :
  summarize l = Ok s ->
  ss_overall_tone s = overall_tone (ss_positive_percent s) (ss_negative_percent s).
Proof.
  unfold summarize.
  destruct (percent (len (positive_of l)) (len l)) as [pp|]; [|discriminate].
  destruct (percent (len (negative_of l)) (len l)) as [np|]; [|discriminate].
  intro H. injection H as <-. reflexivity.
Qed.

(** C3.  [overall_tone] is a function of the two percentages alone: its
    value is the label of the first rule of section 4.5 that holds, in
    the order of that section, and "Neutral/Mixed" when none holds; it is
    one of the six labels; equal percentages give equal tones; both
    analyses report this tone; and the four sample pairs get the tones
    the specification lists. *)
Theorem overall_tone_priority : forall p n : Q,
  Spec.first_match (Spec.rules p n) "Neutral/Mixed" (overall_tone p n)
  /\ In (overall_tone p n) Spec.tones
  /\ (forall p' n' : Q, (p == p')%Q -> (n == n')%Q -> overall_tone p n = overall_tone p' n')
  /\ (forall l s, summarize l = Ok s ->
        ss_overall_tone s = overall_tone (ss_positive_percent s) (ss_negative_percent s))
  /\ overall_tone 70 10 = "Mostly Positive"%string
  /\ overall_tone 45 45 = "Mixed (Polarized)"%string
  /\ overall_tone 35 10 = "Slightly Positive"%string
  /\ overall_tone 25 25 = "Neutral/Mixed"%string.
Proof.
  intros p n. split; [|split; [|split; [|split]]].
  - unfold overall_tone, Spec.rules, Spec.first_match.
    destruct (Float64.gtb p 60) eqn:A.
    { left. rewrite gtb_lt in A. auto. }
    right. split. { rewrite <- gtb_lt. congruence. }
    destruct (Float64.gtb n 60) eqn:B.
    { left. rewrite gtb_lt in B. auto. }
    right. split. { rewrite <- gtb_lt. congruence. }
    destruct (Float64.gtb p 40 && Float64.gtb n 40) eqn:C.
    { left. apply andb_true_iff in C. rewrite !gtb_lt in C. auto. }
    right. split.
    { rewrite <- !gtb_lt, <- andb_true_iff. congruence. }
    destruct (Float64.gtb p 30 && Float64.ltb n 20) eqn:D.
    { left. apply andb_true_iff in D. rewrite gtb_lt, ltb_lt in D. auto. }
    right. split.
    { rewrite <- gtb_lt, <- ltb_lt, <- andb_true_iff. congruence. }
    destruct (Float64.gtb n 30 && Float64.ltb p 20) eqn:F.
    { left. apply andb_true_iff in F. rewrite gtb_lt, ltb_lt in F. auto. }
    right. split.
    { rewrite <- gtb_lt, <- ltb_lt, <- andb_true_iff. congruence. }
    reflexivity.
  - unfold overall_tone, Spec.tones.
    destruct (Float64.gtb p 60); [simpl; auto|].
    destruct (Float64.gtb n 60); [simpl; auto|].
    destruct (Float64.gtb p 40 && Float64.gtb n 40); [simpl; auto|].
    destruct (Float64.gtb p 30 && Float64.ltb n 20); [simpl; auto|].
    destruct (Float64.gtb n 30 && Float64.ltb p 20); simpl; auto 7.
  - intros p' n' Hp Hn. unfold overall_tone.
    rewrite !(gtb_compat _ Hp), !(gtb_compat _ Hn), (ltb_compat _ Hp), (ltb_compat _ Hn).
    reflexivity.
  - exact summarize_tone.
  - repeat split; reflexivity.
Qed.

(* --------------------------------------------------------------------- *)
(** ** Percentages *)

Lemma percent_value (count total : Z) :
  percent count total =
  Ok (if (0 <? total)%Z
      then Float64.round (Float64.round (inject_Z count / inject_Z total) * 100)
      else 0%Q).
Proof.
  unfold percent, truediv.
  destruct (0 <? total)%Z eqn:H; [|reflexivity].
  apply Z.ltb_lt in H.
  destruct (total =? 0)%Z eqn:Z0; [apply Z.eqb_eq in Z0; lia|].
  reflexivity.
Qed.

(** C9.  The percentages are total.  Whatever the counts, [percent]
    returns and never raises [ZeroDivisionError]; for a positive total it
    is [count / total * 100] in float arithmetic (each operation rounded
    to binary64), and for a total of zero it is 0.  So the statistics of
    an analysis are always computed, with these two percentages. *)
Theorem percentages_total : forall count total : Z,
  (exists x, percent count total = Ok x)
  /\ ((0 < total)%Z ->
        percent count total =
        Ok (Float64.round (Float64.round (inject_Z count / inject_Z total) * 100)))
  /\ (total = 0%Z -> percent count total = Ok 0%Q)
  /\ (forall all_posts : list Post, exists stats,
        summarize all_posts = Ok stats
        /\ ss_total stats = len all_posts
        /\ percent (ss_positive stats) (ss_total stats) = Ok (ss_positive_percent stats)
        /\ percent (ss_negative stats) (ss_total stats) = Ok (ss_negative_percent stats)).
Proof.
  intros count total. split; [|split; [|split]].
  - rewrite percent_value. eauto.
  - intro H. rewrite percent_value. apply Z.ltb_lt in H. rewrite H. reflexivity.
  - intros ->. reflexivity.
  - intro l. unfold summarize. rewrite !percent_value.
    eexists. split; [reflexivity|]. simpl. rewrite !percent_value. auto.
Qed.

(* --------------------------------------------------------------------- *)
(** ** Strings: [upper] and case-insensitive search *)

Lemma upper_startswith (p s : string) :
  PyStr.upper p = p ->
  PyStr.startswith p (PyStr.upper s) = PyStr.startswith_nocase p s.
Proof.
  revert s. induction p as [|a p IH]; intros s Hp; [reflexivity|].
  simpl in Hp. injection Hp as Ha Hp.
  destruct s as [|b s]; [reflexivity|].
  simpl. unfold PyStr.eq_nocase. rewrite Ha, (IH s Hp). reflexivity.
Qed.

Lemma upper_contains (p s : string) :
  PyStr.upper p = p ->
  PyStr.contains p (PyStr.upper s) = PyStr.contains_nocase p s.
Proof.
  intro Hp. induction s as [|b s IH].
  - simpl. change EmptyString with (PyStr.upper EmptyString) at 1.
    rewrite (upper_startswith _ Hp). reflexivity.
  - cbn [PyStr.contains PyStr.contains_nocase]. rewrite <- IH.
    rewrite <- (upper_startswith (String b s) Hp). reflexivity.
Qed.

(* --------------------------------------------------------------------- *)
(** ** The number pattern finds the first signed decimal number *)

Lemma dot_not_digit (c : ascii) : Regex.is_dot c = true -> Regex.is_digit c = false.
Proof. unfold Regex.is_dot. intro H. apply Ascii.eqb_eq in H. subst c. reflexivity. Qed.

Lemma sign_not_digit (c : ascii) : Regex.is_sign c = true -> Regex.is_digit c = false.
Proof.
  unfold Regex.is_sign. intro H. apply orb_true_iff in H.
  destruct H as [H|H]; apply Ascii.eqb_eq in H; subst c; reflexivity.
Qed.

Lemma sign_not_dot (c : ascii) : Regex.is_sign c = true -> Regex.is_dot c = false.
Proof.
  unfold Regex.is_sign. intro H. apply orb_true_iff in H.
  destruct H as [H|H]; apply Ascii.eqb_eq in H; subst c; reflexivity.
Qed.

(** [\d*] before the end of the pattern takes every digit. *)
Lemma star_digits (s : string) :
  Regex.star Regex.is_digit (fun _ => Some EmptyString) s = Some (fst (Spec.span_digits s)).
Proof.
  induction s as [|c s IH]; [reflexivity|].
  cbn [Regex.star Spec.span_digits]. destruct (Regex.is_digit c); [|reflexivity].
  rewrite IH. destruct (Spec.span_digits s). reflexivity.
Qed.

(** [\d+]. *)
Lemma plus_digits (s : string) :
  Regex.match_here [(Regex.is_digit, Regex.Plus)] s
  = Spec.some_digits (fst (Spec.span_digits s)).
Proof.
  change (Regex.match_here [(Regex.is_digit, Regex.Plus)] s)
    with (Regex.one Regex.is_digit (Regex.star Regex.is_digit (fun _ => Some EmptyString)) s).
  destruct s as [|c s]; [reflexivity|].
  cbn [Regex.one Spec.span_digits].
  destruct (Regex.is_digit c); [|reflexivity].
  rewrite star_digits. destruct (Spec.span_digits s). reflexivity.
Qed.

(** [\.?\d+]. *)
Lemma dot_digits (s : string) :
  Regex.match_here [(Regex.is_dot, Regex.Opt); (Regex.is_digit, Regex.Plus)] s
  = match s with
    | String c t =>
        if Regex.is_dot c
        then option_map (String c) (Spec.some_digits (fst (Spec.span_digits t)))
        else Spec.some_digits (fst (Spec.span_digits s))
    | EmptyString => None
    end.
Proof.
  change (Regex.match_here [(Regex.is_dot, Regex.Opt); (Regex.is_digit, Regex.Plus)] s)
    with (match Regex.one Regex.is_dot (Regex.match_here [(Regex.is_digit, Regex.Plus)]) s with
          | Some m => Some m
          | None => Regex.match_here [(Regex.is_digit, Regex.Plus)] s
          end).
  destruct s as [|c t]; [reflexivity|].
  cbn [Regex.one]. destruct (Regex.is_dot c) eqn:D.
  - rewrite !plus_digits. cbn [Spec.span_digits]. rewrite (dot_not_digit _ D).
    destruct (Spec.some_digits (fst (Spec.span_digits t))); reflexivity.
  - rewrite plus_digits. reflexivity.
Qed.

(** [\d*\.?\d+]: the backtracking of [\d*] ends where the direct reading
    does. *)
Lemma star_unsigned (s : string) :
  Regex.star Regex.is_digit
    (Regex.match_here [(Regex.is_dot, Regex.Opt); (Regex.is_digit, Regex.Plus)]) s
  = Spec.unsigned_at s.
Proof.
  induction s as [|c s IH]; [reflexivity|].
  cbn [Regex.star]. rewrite IH, dot_digits.
  unfold Spec.unsigned_at. cbn [Spec.span_digits].
  destruct (Regex.is_digit c) eqn:Dg.
  - assert (Regex.is_dot c = false) as Dt.
    { destruct (Regex.is_dot c) eqn:Dt; [|reflexivity].
      apply dot_not_digit in Dt. congruence. }
    rewrite Dt.
    destruct (Spec.span_digits s) as [whole rest].
    cbn [fst].
    destruct rest as [|d rest'].
    + destruct whole; reflexivity.
    + destruct (Regex.is_dot d).
      * destruct (Spec.span_digits rest') as [[|f fs] r2]; [destruct whole|]; reflexivity.
      * destruct whole; reflexivity.
  - destruct (Regex.is_dot c).
    + destruct (Spec.span_digits s) as [[|f fs] r2]; reflexivity.
    + reflexivity.
Qed.

(** The pattern of [analyze_sentiment] at the head of a text. *)
Lemma number_re_at (s : string) :
  Regex.match_here Regex.number_re s = Spec.number_at s.
Proof.
  change (Regex.match_here Regex.number_re s)
    with (match Regex.one Regex.is_sign
                  (Regex.star Regex.is_digit
                     (Regex.match_here
                        [(Regex.is_dot, Regex.Opt); (Regex.is_digit, Regex.Plus)])) s with
          | Some m => Some m
          | None =>
              Regex.star Regex.is_digit
                (Regex.match_here [(Regex.is_dot, Regex.Opt); (Regex.is_digit, Regex.Plus)]) s
          end).
  destruct s as [|c t]; [reflexivity|].
  cbn [Regex.one Spec.number_at]. rewrite !star_unsigned.
  destruct (Regex.is_sign c) eqn:Sg; [|reflexivity].
  destruct (Spec.unsigned_at t); [reflexivity|].
  cbn [option_map]. unfold Spec.unsigned_at. cbn [Spec.span_digits].
  rewrite (sign_not_digit _ Sg), (sign_not_dot _ Sg). reflexivity.
Qed.

(** [re.search] with the pattern returns the first signed decimal number
    of the text. *)
Lemma search_first_number (s : string) :
  option_map snd (Regex.search Regex.number_re s) = Spec.first_number s.
Proof.
  induction s as [|c s IH].
  - reflexivity.
  - cbn [Regex.search Spec.first_number]. rewrite number_re_at.
    destruct (Spec.number_at (String c s)); [reflexivity|].
    rewrite <- IH.
    destruct (Regex.search Regex.number_re s) as [[i m]|]; reflexivity.
Qed.

(** Lines 321 to 342 carry out the parsing policy of section 4.3. *)
Lemma parse_completion_policy (c : string) :
  parse_completion c = (Spec.category c, Spec.score c).
Proof.
  unfold parse_completion, Spec.category, Spec.score, Spec.default_score.
  rewrite <- search_first_number.
  rewrite !upper_contains by reflexivity.
  unfold f_0_7, f_neg_0_7, Float64.leb.
  destruct (PyStr.contains_nocase "POSITIVE" c);
    [|destruct (PyStr.contains_nocase "NEGATIVE" c)];
    (destruct (Regex.search Regex.number_re c) as [[i text]|]; cbn [option_map snd];
     [destruct (PyFloat.float text) as [x|];
      [destruct (Qle_bool (-1) x && Qle_bool x 1)|]|]; reflexivity).
Qed.

(* --------------------------------------------------------------------- *)
(** ** Every number the pattern finds parses *)

Lemma read_digits_span (s : string) :
  forall (acc : Z) (count : nat),
  exists v,
    PyFloat.read_digits acc count s
    = (v, (count + String.length (fst (Spec.span_digits s)))%nat, snd (Spec.span_digits s)).
Proof.
  induction s as [|c s IH]; intros acc count.
  - exists acc. cbn. rewrite Nat.add_0_r. reflexivity.
  - cbn [PyFloat.read_digits Spec.span_digits]. destruct (Regex.is_digit c).
    + destruct (IH (10 * acc + PyFloat.digit_value c)%Z (S count)) as [v Hv].
      exists v. rewrite Hv. destruct (Spec.span_digits s) as [d rest].
      cbn [fst snd String.length]. rewrite Nat.add_succ_r. reflexivity.
    + exists acc. cbn. rewrite Nat.add_0_r. reflexivity.
Qed.

(** The digits at the head of a text are digits, and nothing else is. *)
Lemma span_digits_idem (s : string) :
  Spec.span_digits (fst (Spec.span_digits s)) = (fst (Spec.span_digits s), EmptyString).
Proof.
  induction s as [|c s IH]; [reflexivity|].
  cbn [Spec.span_digits]. destruct (Regex.is_digit c) eqn:D; [|reflexivity].
  destruct (Spec.span_digits s) as [d rest]. cbn [fst] in *.
  cbn [Spec.span_digits]. rewrite D, IH. reflexivity.
Qed.

Lemma span_digits_then (d : string) (c : ascii) (t : string) :
  Spec.span_digits d = (d, EmptyString) ->
  Regex.is_digit c = false ->
  Spec.span_digits (d ++ String c t) = (d, String c t).
Proof.
  intros Hd Hc. induction d as [|a d IH].
  - cbn. rewrite Hc. reflexivity.
  - cbn [Spec.span_digits String.append] in *. destruct (Regex.is_digit a); [|discriminate].
    destruct (Spec.span_digits d) as [d' rest] eqn:Sd.
    injection Hd as Hd' Hrest. subst d' rest.
    rewrite (IH eq_refl). reflexivity.
Qed.

(** The two shapes of an unsigned number: digits, or digits (maybe none),
    a dot, and digits. *)
Lemma unsigned_at_shape (s m : string) :
  Spec.unsigned_at s = Some m ->
  exists whole,
    Spec.span_digits whole = (whole, EmptyString)
    /\ ((m = whole /\ whole <> EmptyString)
        \/ exists c fraction,
             m = (whole ++ String c fraction)%string /\ Regex.is_dot c = true
             /\ Spec.span_digits fraction = (fraction, EmptyString)
             /\ fraction <> EmptyString).
Proof.
  unfold Spec.unsigned_at.
  pose proof (span_digits_idem s) as Hw.
  destruct (Spec.span_digits s) as [whole rest]. cbn [fst] in Hw.
  assert (forall m', Spec.some_digits whole = Some m' -> m' = whole /\ whole <> EmptyString)
    as Hsome.
  { intros m'. destruct whole; [discriminate|]. intro H. injection H as <-.
    split; [reflexivity|discriminate]. }
  intro H. exists whole. split; [exact Hw|].
  destruct rest as [|c t]; [left; auto|].
  destruct (Regex.is_dot c) eqn:Dc; [|left; auto].
  pose proof (span_digits_idem t) as Hf.
  destruct (Spec.span_digits t) as [[|f fs] r]; [left; auto|].
  cbn [fst] in Hf. injection H as <-. right.
  exists c, (String f fs). repeat split; [exact Dc|exact Hf|discriminate].
Qed.

Lemma append_empty (s : string) : (s ++ "")%string = s.
Proof. induction s as [|c s IH]; [reflexivity|]. cbn. rewrite IH. reflexivity. Qed.

(** What [float] makes of an unsigned number, whatever the sign read
    before it. *)
Lemma unsigned_parses (s m : string) (negative : bool) :
  Spec.unsigned_at s = Some m ->
  exists x,
    (let '(ip, ni, rest) := PyFloat.read_digits 0 O m in
     let '(fp, nf, rest') :=
       match rest with
       | String c t => if Regex.is_dot c then PyFloat.read_digits 0 O t else (0%Z, O, rest)
       | EmptyString => (0%Z, O, rest)
       end in
     match rest' with
     | EmptyString =>
         if (ni + nf =? 0)%nat then None
         else
           let den := (10 ^ Z.of_nat nf)%Z in
           let num := (ip * den + fp)%Z in
           Some (Qred (Qmake (if negative then (- num)%Z else num) (Z.to_pos den)))
     | String _ _ => None
     end) = Some x.
Proof.
  intro H. destruct (@unsigned_at_shape s m H) as (whole & Hw & Hshape).
  destruct Hshape as [[-> Hne]|(c & fraction & -> & Dc & Hf & Hne)].
  - destruct (read_digits_span whole 0%Z O) as [v Hv]. rewrite Hv, Hw.
    cbn [fst snd]. destruct whole as [|a whole]; [contradiction|].
    cbn. eauto.
  - destruct (read_digits_span (whole ++ String c fraction) 0%Z O) as [v Hv].
    rewrite Hv, (@span_digits_then whole c fraction Hw (@dot_not_digit c Dc)).
    cbn [fst snd]. rewrite Dc.
    destruct (read_digits_span fraction 0%Z O) as [v' Hv']. rewrite Hv', Hf.
    cbn [fst snd]. destruct fraction as [|a fraction]; [contradiction|].
    cbn [String.length Nat.add]. rewrite Nat.add_succ_r. cbn [Nat.eqb]. eauto.
Qed.

Lemma unsigned_head_not_sign (s m : string) :
  Spec.unsigned_at s = Some m ->
  match m with
  | String c _ => Regex.is_sign c = false
  | EmptyString => False
  end.
Proof.
  intro H. destruct (@unsigned_at_shape s m H) as (whole & Hw & Hshape).
  assert (forall c, Regex.is_digit c = true -> Regex.is_sign c = false) as Hds.
  { intros c D. destruct (Regex.is_sign c) eqn:Sg; [|reflexivity].
    apply sign_not_digit in Sg. congruence. }
  assert (forall c, Regex.is_dot c = true -> Regex.is_sign c = false) as Hdt.
  { intros c D. destruct (Regex.is_sign c) eqn:Sg; [|reflexivity].
    apply sign_not_dot in Sg. congruence. }
  assert (forall a w, Spec.span_digits (String a w) = (String a w, EmptyString) ->
                      Regex.is_digit a = true) as Hhead.
  { intros a w. cbn. destruct (Regex.is_digit a); [reflexivity|discriminate]. }
  destruct Hshape as [[-> Hne]|(c & fraction & -> & Dc & _)].
  - destruct whole as [|a w]; [contradiction|]. apply Hds. exact (Hhead a w Hw).
  - destruct whole as [|a w]; cbn.
    + apply Hdt. exact Dc.
    + apply Hds. exact (Hhead a w Hw).
Qed.

(** Whatever [re.search] finds with the number pattern, [float] reads:
    the [except] of lines 339 and 340 is never entered. *)
Lemma number_parses (s text : string) :
  Spec.first_number s = Some text -> exists x, PyFloat.float text = Some x.
Proof.
  assert (forall s', Spec.number_at s' = Some text -> exists x, PyFloat.float text = Some x)
    as Hat.
  { intros s' H. unfold PyFloat.float.
    assert (exists y, PyFloat.literal_value text = Some y) as [y ->]; [|cbn; eauto].
    unfold Spec.number_at in H. destruct s' as [|c t]; [discriminate|].
    unfold PyFloat.literal_value.
    destruct (Regex.is_sign c) eqn:Sg.
    - destruct (Spec.unsigned_at t) as [m|] eqn:Hm; [|discriminate].
      injection H as <-.
      unfold Regex.is_sign in Sg.
      destruct (Ascii.eqb c "-") eqn:Minus.
      + exact (@unsigned_parses t m true Hm).
      + cbn [orb] in Sg. rewrite Sg. exact (@unsigned_parses t m false Hm).
    - pose proof (@unsigned_head_not_sign _ _ H) as Hhead.
      destruct text as [|a text']; [contradiction|].
      unfold Regex.is_sign in Hhead. apply orb_false_iff in Hhead.
      destruct Hhead as [-> ->].
      exact (@unsigned_parses (String c t) _ false H). }
  induction s as [|c s IH]; cbn [Spec.first_number].
  - destruct (Spec.number_at "") eqn:N; [|discriminate].
    intro H. injection H as <-. exact (Hat _ N).
  - destruct (Spec.number_at (String c s)) eqn:N.
    + intro H. injection H as <-. exact (Hat _ N).
    + exact IH.
Qed.

(* --------------------------------------------------------------------- *)
(** ** The classifier client *)

(** One call of [analyze_sentiment]: it posts one prompt, always
    returns, and what it returns is the specification's [classify] of
    the reply; the table, the SQL log and the stream are left alone. *)
Lemma analyze_sentiment_run (E : env) (text : string) (w : world) :
  exists printed : list string,
    analyze_sentiment E text w =
    (Ok (Spec.classify (completion E (tick w) (sentiment_prompt text))),
     {| posts := posts w; tick := S (tick w); sql_log := sql_log w;
        llm_calls := llm_calls w ++ [sentiment_prompt text];
        stdout := stdout w ++ printed; sent := sent w |}).
Proof.
  unfold analyze_sentiment, try_except, bind, post_completion, http_log, Spec.classify,
    Spec.usable.
  cbn [fst snd].
  destruct (completion E (tick w) (sentiment_prompt text)) as [e|status body].
  - exists ["Sentiment analysis error: " ++ exn_text e]%string. reflexivity.
  - destruct (status =? 200)%Z eqn:St; cbn [negb].
    + destruct body as [j|].
      * destruct j as [ | b | q | s | items | fields ];
          try (eexists [_]; reflexivity).
        unfold lift, json_get. cbn.
        destruct (assoc "content" fields) as [v|].
        -- destruct v; try (eexists [_]; reflexivity).
           rewrite parse_completion_policy. exists []. rewrite app_nil_r. reflexivity.
        -- rewrite parse_completion_policy. exists []. rewrite app_nil_r. reflexivity.
      * eexists [_]. reflexivity.
    + exists []. rewrite app_nil_r.
      destruct body as [[ | | | | | ]|]; reflexivity.
Qed.

Lemma usable_not_200 (status : Z) (body : option json) :
  status <> 200%Z -> Spec.usable (Response status body) = None.
Proof.
  intro H. unfold Spec.usable.
  destruct body as [[ | | | | | fields]|]; try reflexivity.
  destruct (status =? 200)%Z eqn:St; [|reflexivity].
  apply Z.eqb_eq in St. contradiction.
Qed.

Lemma existsb_find_none (A : Type) (f : A -> bool) (l : list A) :
  existsb f l = false -> find f l = None.
Proof.
  induction l as [|x l IH]; [reflexivity|].
  simpl. destruct (f x); [discriminate|exact IH].
Qed.

Lemma find_none_existsb (A : Type) (f : A -> bool) (l : list A) :
  find f l = None -> existsb f l = false.
Proof.
  induction l as [|x l IH]; [reflexivity|].
  simpl. destruct (f x); [discriminate|exact IH].
Qed.

Lemma filter_none (A : Type) (f : A -> bool) (l : list A) :
  existsb f l = false -> filter (fun x => negb (f x)) l = l.
Proof.
  induction l as [|x l IH]; [reflexivity|].
  simpl. destruct (f x); [discriminate|]. intro H. simpl. rewrite (IH H). reflexivity.
Qed.

Lemma find_app_some (A : Type) (f : A -> bool) (l l' : list A) (x : A) :
  find f l = Some x -> find f (l ++ l') = Some x.
Proof.
  induction l as [|y l IH]; [discriminate|].
  simpl. destruct (f y); [auto|exact IH].
Qed.

Lemma find_app_last (A : Type) (f : A -> bool) (l : list A) (x : A) :
  find f l = None -> f x = true -> find f (l ++ [x]) = Some x.
Proof.
  induction l as [|y l IH]; simpl.
  - intros _ ->. reflexivity.
  - destruct (f y); [discriminate|exact IH].
Qed.

(** A post the store does not hold, whose classification fails, is
    stored with its sentiment and score unset. *)
Lemma analyze_post_unclassified (E : env) (p : Post) (w w' : world) (k : Z) :
  stored (id p) (posts w) = None ->
  Spec.usable (completion E (S (tick w)) (classifier_prompt p)) = None ->
  analyze_post E p w = (Ok k, w') ->
  exists r, stored (id p) (posts w') = Some r
            /\ sentiment (post r) = None /\ sentiment_score (post r) = None.
Proof.
  intros Hnone Hfail. unfold analyze_post, bind, sql, select_id.
  destruct (sql_fails E (tick w) (SelectId (id p))); [discriminate|].
  unfold stored in Hnone. rewrite (find_none_existsb _ _ Hnone).
  cbn [fst snd].
  match goal with
  | |- context [analyze_sentiment E ?t ?w1] =>
      destruct (analyze_sentiment_run E t w1) as [printed Hrun]; rewrite Hrun
  end.
  cbn [tick posts] in *.
  change (sentiment_prompt (title p ++ " " ++ PyStr.take 200 (selftext p))%string)
    with (classifier_prompt p) in *.
  unfold Spec.classify. rewrite Hfail.
  unfold store_post, bind, datetime_now, sql, insert_or_replace, sleep.
  cbn [tick posts advance fst snd].
  match goal with
  | |- context [sql_fails E ?n ?s] => destruct (sql_fails E n s)
  end; [discriminate|].
  intro H. injection H as _ <-. cbn [posts].
  eexists. split.
  - unfold stored. rewrite (filter_none _ _ (find_none_existsb _ _ Hnone)).
    apply find_app_last; [exact Hnone|].
    unfold has_id. cbn. apply String.eqb_refl.
  - split; reflexivity.
Qed.

(** C2, as amended.  [analyze_sentiment] carries out the parsing policy
    of section 4.3.  On a response with status 200 whose JSON has the
    completion text [c] under [content], it returns the category of [c]
    (positive if [c] contains POSITIVE in any case, else negative if it
    contains NEGATIVE, else neutral) and the score of [c]: the first
    signed decimal number of [c] when it lies within [-1, 1] (it always
    parses), else the default of the category (0.7, -0.7 or 0); the
    category is not derived again from the number, so the two may
    disagree.  A JSON object without [content] is read as the empty
    completion: neutral with score 0.  When the request raises (a
    network error, a timeout), the status is not 200, or the payload is
    not JSON, not an object, or has a [content] that is not text, it
    returns the unset pair; it never raises.  A new post whose
    classification fails is stored with its sentiment and score unset. *)
Theorem analyze_sentiment_policy : forall (E : env) (text : string) (w : world),
  let reply := completion E (tick w) (sentiment_prompt text) in
  let answer := fst (analyze_sentiment E text w) in
  (forall fields c,
      reply = Response 200 (Some (JObject fields)) ->
      assoc "content" fields = Some (JString c) ->
      answer = Ok (Some (Spec.category c), Some (Spec.score c)))
  /\ (forall c text0, Spec.first_number c = Some text0 ->
        exists x, PyFloat.float text0 = Some x)
  /\ (forall fields,
        reply = Response 200 (Some (JObject fields)) ->
        assoc "content" fields = None ->
        answer = Ok (Some "neutral"%string, Some 0%Q))
  /\ (forall e, reply = ConnectionFails e -> answer = Ok (None, None))
  /\ (forall status body,
        reply = Response status body -> status <> 200%Z ->
        answer = Ok (None, None))
  /\ (forall status, reply = Response status None -> answer = Ok (None, None))
  /\ (forall status j,
        reply = Response status (Some j) ->
        match j with
        | JObject fields =>
            match assoc "content" fields with
            | Some (JString _) | None => False
            | Some _ => True
            end
        | _ => True
        end ->
        answer = Ok (None, None))
  /\ parse_completion "POSITIVE -0.9" = ("positive"%string, Float64.round (- (9 # 10)))
  /\ (forall (p : Post) (w' : world) (k : Z),
        stored (id p) (posts w) = None ->
        Spec.usable (completion E (S (tick w)) (classifier_prompt p)) = None ->
        analyze_post E p w = (Ok k, w') ->
        exists r, stored (id p) (posts w') = Some r
                  /\ sentiment (post r) = None /\ sentiment_score (post r) = None).
Proof.
  intros E text w reply answer.
  destruct (analyze_sentiment_run E text w) as [printed Hrun].
  assert (answer = Ok (Spec.classify reply)) as Hans.
  { unfold answer, reply. rewrite Hrun. reflexivity. }
  rewrite Hans. unfold Spec.classify.
  split; [|split; [|split; [|split; [|split; [|split; [|split; [|split]]]]]]].
  - intros fields c -> Hc. unfold Spec.usable. rewrite Hc. reflexivity.
  - intros c text0. apply number_parses.
  - intros fields -> Hc. unfold Spec.usable. rewrite Hc. reflexivity.
  - intros e ->. reflexivity.
  - intros status body -> Hs. rewrite (usable_not_200 body Hs). reflexivity.
  - intros status ->. reflexivity.
  - intros status j -> Hj. unfold Spec.usable.
    destruct j as [ | | | | | fields]; try reflexivity.
    destruct (status =? 200)%Z; [|reflexivity].
    destruct (assoc "content" fields) as [[ | | | | | ]|]; try reflexivity; contradiction.
  - reflexivity.
  - intros p w' k. apply analyze_post_unclassified.
Qed.

(** C2 as stated fails: the service answers with status 201 and the
    completion "Sentiment: POSITIVE Score: 0.9".  The status is within
    200..299 and the payload is well formed, yet [analyze_sentiment]
    returns the unset pair and not the category and score of the text. *)
Lemma analyze_sentiment_status_201 :
  completion (Sample.replying 201 "Sentiment: POSITIVE Score: 0.9") O
    (sentiment_prompt "text")
  = Response 201 (Some (JObject [("content"%string,
                                  JString "Sentiment: POSITIVE Score: 0.9")]))
  /\ (200 <= 201 < 300)%Z
  /\ fst (analyze_sentiment (Sample.replying 201 "Sentiment: POSITIVE Score: 0.9") "text"
            Sample.empty)
     = Ok (None, None)
  /\ Spec.category "Sentiment: POSITIVE Score: 0.9" = "positive"%string
  /\ Spec.score "Sentiment: POSITIVE Score: 0.9" = Float64.round (9 # 10).
Proof.
  split; [reflexivity|]. split; [lia|]. vm_compute. repeat split; reflexivity.
Qed.

(** The reply the prompt asks for, a reply whose number is out of range,
    and a reply from a server in trouble. *)
Example analyze_sentiment_samples :
  fst (analyze_sentiment (Sample.answering "Sentiment: NEGATIVE Score: -0.6") "text"
         Sample.empty)
  = Ok (Some "negative"%string, Some (Float64.round (- (6 # 10))))
  /\ fst (analyze_sentiment (Sample.answering "Sentiment: neutral, 5 of 10") "text"
            Sample.empty)
     = Ok (Some "neutral"%string, Some 0%Q)
  /\ fst (analyze_sentiment Sample.quiet "text" Sample.empty) = Ok (None, None).
Proof.
  vm_compute. repeat split; reflexivity.
Qed.

(* --------------------------------------------------------------------- *)
(** ** Ingestion: what a run of the loop can do to the store *)

(** What [store_post] writes as the sentiment of a classified post is
    one of the three labels or unset. *)
Lemma classify_label (r : http_reply) :
  or_none (fst (Spec.classify r)) = None
  \/ or_none (fst (Spec.classify r)) = Some "positive"%string
  \/ or_none (fst (Spec.classify r)) = Some "neutral"%string
  \/ or_none (fst (Spec.classify r)) = Some "negative"%string.
Proof.
  unfold Spec.classify. destruct (Spec.usable r) as [c|]; [|left; reflexivity].
  cbn [fst]. unfold Spec.category.
  destruct (PyStr.contains_nocase "POSITIVE" c); [right; left; reflexivity|].
  destruct (PyStr.contains_nocase "NEGATIVE" c); [right; right; right; reflexivity|].
  right; right; left; reflexivity.
Qed.

Lemma grown_refl (fetched : list Post) (w : world) : grown_from fetched w w.
Proof.
  exists [], [], []. rewrite !app_nil_r. repeat split; constructor.
Qed.

Lemma grown_same (fetched : list Post) (w0 w w' : world) :
  grown_from fetched w0 w ->
  posts w' = posts w -> llm_calls w' = llm_calls w -> writes w' = writes w ->
  grown_from fetched w0 w'.
Proof.
  intros (fresh & added & ws & H) Hp Hc Hw.
  exists fresh, added, ws. rewrite Hp, Hc, Hw. exact H.
Qed.

Lemma grown_asked (fetched : list Post) (w0 w w' : world) (p : Post) :
  grown_from fetched w0 w ->
  fresh_in fetched w0 p ->
  llm_calls w' = llm_calls w ++ [classifier_prompt p] ->
  (posts w' = posts w /\ writes w' = writes w)
  \/ (exists r, posts w' = posts w ++ [r] /\ id (post r) = id p
                /\ valid_label (post r)
                /\ writes w' = writes w ++ [InsertOrReplace (id p)]) ->
  grown_from fetched w0 w'.
Proof.
  intros (fresh & added & ws & Hf & Hc & Hp & Ha & Hv & Hw & Hs) Hfresh Hc' Hcase.
  assert (forall A (P : Post -> A -> Prop) (l : list A),
             Forall (fun x => exists q, In q fresh /\ P q x) l ->
             Forall (fun x => exists q, In q (fresh ++ [p]) /\ P q x) l) as mono.
  { intros A P l HF. eapply Forall_impl; [|exact HF].
    intros x (q & Hq & HP). exists q. split; [apply in_or_app; left; exact Hq|exact HP]. }
  assert (In p (fresh ++ [p])) as Hin by (apply in_or_app; right; left; reflexivity).
  assert (Forall (fresh_in fetched w0) (fresh ++ [p])) as Hf'.
  { apply Forall_app. split; [exact Hf|constructor; [exact Hfresh|constructor]]. }
  assert (llm_calls w' = llm_calls w0 ++ map classifier_prompt (fresh ++ [p])) as Hc''.
  { rewrite Hc', Hc, map_app, app_assoc. reflexivity. }
  destruct Hcase as [[Hp' Hw']|(r & Hp' & Hid & Hval & Hw')].
  - exists (fresh ++ [p]), added, ws. rewrite Hp', Hw'.
    repeat split; try assumption.
    + apply (mono row (fun q x => id (post x) = id q)). exact Ha.
    + apply (mono stmt (fun q x => x = InsertOrReplace (id q))). exact Hs.
  - exists (fresh ++ [p]), (added ++ [r]), (ws ++ [InsertOrReplace (id p)]).
    rewrite Hp', Hw', Hp, Hw, <- !app_assoc.
    repeat split; try assumption.
    + apply Forall_app. split.
      * apply (mono row (fun q x => id (post x) = id q)). exact Ha.
      * constructor; [|constructor]. exists p. split; assumption.
    + apply Forall_app. split; [exact Hv|constructor; [exact Hval|constructor]].
    + apply Forall_app. split.
      * apply (mono stmt (fun q x => x = InsertOrReplace (id q))). exact Hs.
      * constructor; [|constructor]. exists p. split; [assumption|reflexivity].
Qed.

Lemma stored_grown (fetched : list Post) (w0 w : world) (post_id : string) :
  grown_from fetched w0 w ->
  stored post_id (posts w) = None -> stored post_id (posts w0) = None.
Proof.
  intros (fresh & added & ws & _ & _ & Hp & _) H.
  unfold stored in *. rewrite Hp in H.
  destruct (find (has_id post_id) (posts w0)) as [r|] eqn:F; [|reflexivity].
  rewrite (find_app_some _ _ added F) in H. discriminate.
Qed.

(** The body of the loop. *)
Lemma analyze_post_grows (E : env) (fetched : list Post) (w0 w : world) (p : Post) :
  In p fetched ->
  grown_from fetched w0 w ->
  grown_from fetched w0 (snd (analyze_post E p w)).
Proof.
  intros Hin G. unfold analyze_post, bind, sql, select_id, ret.
  destruct (sql_fails E (tick w) (SelectId (id p))).
  { eapply grown_same; [exact G|reflexivity..]. }
  cbn [fst snd].
  destruct (existsb (has_id (id p)) (posts w)) eqn:Found.
  { eapply grown_same; [exact G|try reflexivity..].
    unfold writes. cbn [snd sql_log]. rewrite filter_app. cbn. apply app_nil_r. }
  match goal with
  | |- context [analyze_sentiment E ?t ?w1] =>
      destruct (analyze_sentiment_run E t w1) as [printed Hrun]; rewrite Hrun
  end.
  cbn [tick posts sql_log llm_calls stdout sent].
  change (sentiment_prompt (title p ++ " " ++ PyStr.take 200 (selftext p))%string)
    with (classifier_prompt p).
  assert (fresh_in fetched w0 p) as Hfresh.
  { split; [exact Hin|]. eapply stored_grown; [exact G|].
    apply existsb_find_none. exact Found. }
  pose proof (classify_label (completion E (S (tick w)) (classifier_prompt p))) as Hlabel.
  destruct (Spec.classify (completion E (S (tick w)) (classifier_prompt p)))
    as [sentiment0 score0].
  cbn [fst] in Hlabel.
  unfold store_post, bind, datetime_now, sql, insert_or_replace, sleep, ret.
  cbn [tick posts advance fst snd sql_log llm_calls stdout sent].
  match goal with
  | |- context [sql_fails E ?n ?s] => destruct (sql_fails E n s)
  end; cbn [snd].
  - eapply grown_asked; [exact G|exact Hfresh|reflexivity|].
    left. split; [reflexivity|].
    unfold writes. cbn [sql_log advance]. rewrite filter_app. cbn. apply app_nil_r.
  - eapply grown_asked; [exact G|exact Hfresh|reflexivity|].
    right. eexists. cbn [posts id]. rewrite (filter_none _ _ Found).
    split; [reflexivity|]. split; [reflexivity|]. split; [exact Hlabel|].
    unfold writes. cbn [sql_log advance]. rewrite !filter_app. cbn. rewrite app_nil_r. reflexivity.
Qed.

Lemma analyze_posts_grows (E : env) (fetched : list Post) (w0 : world) :
  forall (l : list Post) (analyzed : Z) (w : world),
    incl l fetched ->
    grown_from fetched w0 w ->
    grown_from fetched w0 (snd (analyze_posts E l analyzed w)).
Proof.
  induction l as [|p l IH]; intros analyzed w Hincl G; [exact G|].
  cbn [analyze_posts]. unfold bind.
  assert (grown_from fetched w0 (snd (analyze_post E p w))) as G'.
  { apply analyze_post_grows; [apply Hincl; left; reflexivity|exact G]. }
  destruct (analyze_post E p w) as [[k|e] w1]; cbn [snd] in *.
  - apply IH; [|exact G']. intros x Hx. apply Hincl. right. exact Hx.
  - exact G'.
Qed.

Lemma fetch_and_analyze_grows (E : env) (subreddit0 : string) (w : world) :
  grown_from (fetched_by E subreddit0 w) w
    (snd (fetch_and_analyze_subreddit E subreddit0 w)).
Proof.
  unfold fetch_and_analyze_subreddit, fetch_reddit_posts, bind, print, urlopen, fetched_by,
    ret, raise.
  cbn [tick fst snd].
  destruct (reddit E (tick w) subreddit0) as [e|[children|]]; cbn [snd].
  - eapply grown_same; [apply grown_refl|reflexivity..].
  - match goal with
    | |- context [analyze_posts E children 0%Z ?x] => set (w1 := x)
    end.
    assert (grown_from children w w1) as G1.
    { eapply grown_same; [apply grown_refl|reflexivity..]. }
    pose proof (analyze_posts_grows E 0%Z (incl_refl children) G1) as G2.
    destruct (analyze_posts E children 0%Z w1) as [[analyzed|e] w2]; cbn [snd] in *.
    + eapply grown_same; [exact G2|reflexivity..].
    + exact G2.
  - eapply grown_same; [apply grown_refl|reflexivity..].
Qed.

(** One turn of the loop over the sources. *)
Lemma fetch_all_step (E : env) (s : string) (rest : list string) (total : Z) (w : world) :
  fetch_all E (s :: rest) total w =
  match fetch_and_analyze_subreddit E s w with
  | (Ok analyzed, w1) => fetch_all E rest (total + analyzed)%Z w1
  | (Raise e, w1) =>
      fetch_all E rest total
        {| posts := posts w1; tick := tick w1; sql_log := sql_log w1;
           llm_calls := llm_calls w1;
           stdout := stdout w1 ++ [("Error fetching r/" ++ s ++ ": " ++ exn_text e)%string];
           sent := sent w1 |}
  end.
Proof.
  cbn [fetch_all]. unfold bind, try_except, ret, print.
  destruct (fetch_and_analyze_subreddit E s w) as [[analyzed|e] w1]; reflexivity.
Qed.

(** A sweep over all the sources keeps every stored record. *)
Lemma fetch_all_keeps_records (E : env) (subreddits : list string) :
  forall (total : Z) (w : world) (post_id : string) (r : row),
    stored post_id (posts w) = Some r ->
    stored post_id (posts (snd (fetch_all E subreddits total w))) = Some r.
Proof.
  induction subreddits as [|s rest IH]; intros total w post_id r H; [exact H|].
  rewrite fetch_all_step.
  destruct (fetch_and_analyze_grows E s w) as (fresh & added & ws & _ & _ & Hp & _).
  assert (stored post_id (posts (snd (fetch_and_analyze_subreddit E s w))) = Some r) as H1.
  { rewrite Hp. apply find_app_some. exact H. }
  destruct (fetch_and_analyze_subreddit E s w) as [[analyzed|e] w1]; cbn [snd] in H1;
    apply IH; exact H1.
Qed.

(** C1.  Ingestion is idempotent and classification is write-once.
    After [fetch_and_analyze_subreddit], whatever the source, the
    classifier and the database do: every record the store held is still
    there unchanged, sentiment included; every question put to the
    classifier is about a fetched post whose id the store did not hold;
    and when every fetched post is already stored by id, no question is
    put to the classifier, the table is the same, and no statement that
    writes was executed.  A sweep over all the sources keeps every
    stored record as well. *)
Theorem ingestion_write_once : forall (E : env) (subreddit0 : string) (w : world),
  let w' := snd (fetch_and_analyze_subreddit E subreddit0 w) in
  let fetched := fetched_by E subreddit0 w in
  (forall post_id r, stored post_id (posts w) = Some r -> stored post_id (posts w') = Some r)
  /\ (exists fresh,
        llm_calls w' = llm_calls w ++ map classifier_prompt fresh
        /\ Forall (fun p => In p fetched /\ stored (id p) (posts w) = None) fresh)
  /\ (Forall (fun p => stored (id p) (posts w) <> None) fetched ->
        llm_calls w' = llm_calls w /\ posts w' = posts w /\ writes w' = writes w)
  /\ (forall subreddits total post_id r,
        stored post_id (posts w) = Some r ->
        stored post_id (posts (snd (fetch_all E subreddits total w))) = Some r).
Proof.
  intros E subreddit0 w w' fetched.
  destruct (fetch_and_analyze_grows E subreddit0 w)
    as (fresh & added & ws & Hf & Hc & Hp & Ha & _ & Hw & Hs).
  fold w' in Hc, Hp, Hw. fold fetched in Hf.
  split; [|split; [|split]].
  - intros post_id r H. rewrite Hp. apply find_app_some. exact H.
  - exists fresh. split; [exact Hc|exact Hf].
  - intro Hall.
    assert (fresh = []) as ->.
    { destruct fresh as [|p fresh]; [reflexivity|]. exfalso.
      inversion Hf as [|? ? [Hin Hnone] _]; subst.
      rewrite Forall_forall in Hall. exact (Hall p Hin Hnone). }
    assert (added = []) as ->.
    { destruct added as [|r added]; [reflexivity|].
      inversion Ha as [|? ? (q & [] & _) _]. }
    assert (ws = []) as ->.
    { destruct ws as [|s ws]; [reflexivity|].
      inversion Hs as [|? ? (q & [] & _) _]. }
    rewrite Hc, Hp, Hw. cbn [map]. rewrite !app_nil_r. auto.
  - intros subreddits total post_id r. apply fetch_all_keeps_records.
Qed.

(** A run over an empty store classifies and stores the two posts of the
    source; the same run again asks nothing and writes nothing. *)
Example ingestion_twice :
  let E := Sample.answering "Sentiment: POSITIVE Score: 0.8" in
  let w1 := snd (fetch_and_analyze_subreddit E "OpenAI" Sample.empty) in
  let w2 := snd (fetch_and_analyze_subreddit E "OpenAI" w1) in
  map (fun r => (id (post r), sentiment (post r), sentiment_score (post r))) (posts w1)
  = [ ("p1"%string, Some "positive"%string, Some (Float64.round (8 # 10)));
      ("p2"%string, Some "positive"%string, Some (Float64.round (8 # 10))) ]
  /\ List.length (llm_calls w1) = 2%nat
  /\ Forall (fun p => stored (id p) (posts w1) <> None) (fetched_by E "OpenAI" w1)
  /\ posts w2 = posts w1
  /\ llm_calls w2 = llm_calls w1
  /\ writes w2 = writes w1.
Proof.
  vm_compute. repeat split; try reflexivity.
  repeat constructor; discriminate.
Qed.

(* --------------------------------------------------------------------- *)
(** ** The streamed analysis without matches *)

Lemma fts_query_run (E : env) (q : string) (test : string -> string -> bool) (w : world) :
  fts5 E q = Some test ->
  sql_fails E (tick w) (FtsMatch q) = false ->
  fts_query E q w =
  (Ok (map rowid (matches test (posts w))),
   {| posts := posts w; tick := S (tick w); sql_log := sql_log w ++ [FtsMatch q];
      llm_calls := llm_calls w; stdout := stdout w; sent := sent w |}).
Proof.
  intros Hq Hs. unfold fts_query, sql. rewrite Hq, Hs. reflexivity.
Qed.

(** C5, as amended.  When the full-text search of a streamed analysis
    succeeds and matches no post, the generator returns after two
    events: the status event of the search, and one COMPLETE event with
    total, counts and percentages zero, tone "Unknown", the three
    example lists empty, and the summary "No posts found about
    '<query>'" (not the empty text).  No statistics event and no summary
    chunk is sent, and the generative service is not called. *)
Theorem stream_no_match : forall (E : env) (q : string) (subreddits : option string)
    (limit : Z) (w : world) (test : string -> string -> bool),
  fts5 E q = Some test ->
  sql_fails E (tick w) (FtsMatch q) = false ->
  matches test (posts w) = [] ->
  let run := search_analysis_stream E q subreddits limit w in
  fst run = Ok tt
  /\ sent (snd run) =
     sent w ++
     [ EvStatus ("Searching for posts about " ++ PyStr.dquote ++ q ++ PyStr.dquote ++ "...");
       EvComplete
         {| sa_query := q;
            sa_summary := "No posts found about '" ++ q ++ "'";
            sa_sentiment_summary :=
              {| ss_positive := 0; ss_neutral := 0; ss_negative := 0; ss_total := 0;
                 ss_positive_percent := 0; ss_negative_percent := 0;
                 ss_overall_tone := "Unknown" |};
            sa_positive_examples := [];
            sa_negative_examples := [];
            sa_neutral_examples := [] |} ]
  /\ llm_calls (snd run) = llm_calls w.
Proof.
  intros E q subreddits limit w test Hq Hs Hm run. subst run.
  unfold search_analysis_stream, bind, yield_event.
  match goal with
  | |- context [fts_query E q ?w1] =>
      rewrite (@fts_query_run E q test w1 Hq Hs)
  end.
  cbn [posts]. rewrite Hm. cbn. rewrite <- app_assoc. auto.
Qed.

(** [stream_no_match] at the search for "rust" in an empty store. *)
Lemma stream_no_match_witness :
  fst (search_analysis_stream Sample.quiet "rust" None 30 Sample.empty) = Ok tt
  /\ sent (snd (search_analysis_stream Sample.quiet "rust" None 30 Sample.empty)) =
     sent Sample.empty ++
     [ EvStatus ("Searching for posts about " ++ PyStr.dquote ++ "rust" ++ PyStr.dquote ++ "...");
       EvComplete
         {| sa_query := "rust";
            sa_summary := "No posts found about '" ++ "rust" ++ "'";
            sa_sentiment_summary :=
              {| ss_positive := 0; ss_neutral := 0; ss_negative := 0; ss_total := 0;
                 ss_positive_percent := 0; ss_negative_percent := 0;
                 ss_overall_tone := "Unknown" |};
            sa_positive_examples := [];
            sa_negative_examples := [];
            sa_neutral_examples := [] |} ]
  /\ llm_calls (snd (search_analysis_stream Sample.quiet "rust" None 30 Sample.empty)) =
     llm_calls Sample.empty.
Proof.
  apply (@stream_no_match Sample.quiet "rust" None 30 Sample.empty
           (fun title0 selftext0 =>
              PyStr.contains "rust" title0 || PyStr.contains "rust" selftext0));
    reflexivity.
Defined.

(** C5 as stated fails: the search for "rust" in an empty store matches
    nothing, and the one COMPLETE event of the stream carries the summary
    "No posts found about 'rust'", which is not the empty text. *)
Lemma stream_no_match_summary_not_empty :
  exists payload,
    complete_events
      (sent (snd (search_analysis_stream Sample.quiet "rust" None 30 Sample.empty)))
    = [payload]
    /\ ss_total (sa_sentiment_summary payload) = 0%Z
    /\ sa_summary payload = "No posts found about 'rust'"%string
    /\ sa_summary payload <> ""%string.
Proof.
  eexists. split; [reflexivity|]. cbn. repeat split. discriminate.
Qed.

(* --------------------------------------------------------------------- *)
(** ** The analysis that is not streamed *)

Lemma select_rows_run (E : env) (rowids : list Z) (w : world) :
  sql_fails E (tick w) (SelectRows rowids) = false ->
  select_rows E rowids w =
  (Ok (map post (filter (fun r => existsb (Z.eqb (rowid r)) rowids) (posts w))),
   {| posts := posts w; tick := S (tick w); sql_log := sql_log w ++ [SelectRows rowids];
      llm_calls := llm_calls w; stdout := stdout w; sent := sent w |}).
Proof.
  intro Hs. unfold select_rows, sql. rewrite Hs. reflexivity.
Qed.

Lemma summarize_ok (l : list Post) : exists stats, summarize l = Ok stats.
Proof.
  unfold summarize. rewrite !percent_value. eauto.
Qed.






(* --------------------------------------------------------------------- *)
(** ** The streamed analysis with matches *)

(** Reading the lines of a response sends summary chunks and changes
    nothing else. *)
Lemma read_stream_run (lines : list sse_line) :
  forall (accumulated : string) (w : world),
  exists r chunks,
    read_stream lines accumulated w =
    (r, {| posts := posts w; tick := tick w; sql_log := sql_log w;
           llm_calls := llm_calls w; stdout := stdout w; sent := sent w ++ chunks |})
    /\ Forall (fun ev => is_chunk ev = true) chunks.
Proof.
  assert (forall w : world,
             w = {| posts := posts w; tick := tick w; sql_log := sql_log w;
                    llm_calls := llm_calls w; stdout := stdout w; sent := sent w ++ [] |})
    as same.
  { intros [? ? ? ? ? ?]. cbn. rewrite app_nil_r. reflexivity. }
  induction lines as [|line lines IH]; intros accumulated w.
  - exists (Ok accumulated), []. split; [|constructor].
    unfold read_stream, ret. f_equal. apply same.
  - destruct line as [|text|[data|]]; cbn [read_stream].
    + exists (Raise UnicodeDecodeError), []. split; [|constructor].
      unfold raise. f_equal. apply same.
    + apply IH.
    + unfold bind, lift.
      destruct (has_content data) as [[|]|e].
      * destruct (content_chunk data) as [chunk|e].
        -- unfold yield_event.
           match goal with
           | |- context [read_stream lines ?a ?w1] =>
               destruct (IH a w1) as (r & chunks & Hr & Hc)
           end.
           exists r, (EvSummaryChunk chunk (accumulated ++ chunk) :: chunks).
           rewrite Hr. cbn [posts tick sql_log llm_calls stdout sent].
           rewrite <- app_assoc. split; [reflexivity|].
           constructor; [reflexivity|exact Hc].
        -- exists (Raise e), []. split; [|constructor]. f_equal. apply same.
      * apply IH.
      * exists (Raise e), []. split; [|constructor]. f_equal. apply same.
    + apply IH.
Qed.

(** The summarizing stage always returns a value for [accumulated]; it
    posts one prompt and sends chunks only.  After a failure, that value
    is the fallback, or the name is left unbound. *)
Lemma stream_summary_run (E : env) (prompt fallback : string) (w : world) :
  exists acc chunks printed,
    stream_summary E prompt fallback w =
    (Ok acc,
     {| posts := posts w; tick := S (tick w); sql_log := sql_log w;
        llm_calls := llm_calls w ++ [prompt]; stdout := stdout w ++ printed;
        sent := sent w ++ chunks |})
    /\ Forall (fun ev => is_chunk ev = true) chunks
    /\ (stream_failed (completion_stream E (tick w) prompt) ->
        acc = None \/ acc = Some fallback)
    /\ (completion_stream E (tick w) prompt = StreamResponse 200 [] Closed ->
        acc = Some ""%string /\ chunks = []).
Proof.
  unfold stream_summary, try_except, bind, post_completion_stream, http_log.
  cbn [fst snd].
  destruct (completion_stream E (tick w) prompt) as [e|status lines ending].
  - exists (Some fallback), [], [("Error streaming summary: " ++ exn_text e)%string].
    cbn. rewrite app_nil_r.
    split; [reflexivity|]. split; [constructor|]. split; [auto|discriminate].
  - destruct (status =? 200)%Z eqn:St.
    + match goal with
      | |- context [read_stream lines ?a ?w1] =>
          destruct (read_stream_run lines a w1) as (r & chunks & Hr & Hc)
      end.
      rewrite Hr. cbn [posts tick sql_log llm_calls stdout sent].
      apply Z.eqb_eq in St.
      assert (lines = [] -> r = Ok ""%string /\ chunks = []) as Hnil.
      { intros ->. cbn in Hr. unfold ret in Hr. injection Hr as Ht Hs.
        split; [congruence|].
        apply (f_equal (@List.length sse_event)) in Hs.
        rewrite length_app in Hs. destruct chunks; [reflexivity|cbn in Hs; lia]. }
      destruct r as [text|e].
      * destruct ending as [|e].
        -- exists (Some text), chunks, []. cbn. rewrite app_nil_r.
           split; [reflexivity|]. split; [exact Hc|]. split.
           ++ intros [Hs|[e He]]; [contradiction|discriminate].
           ++ intro H. injection H as _ Hl. destruct (Hnil Hl) as [Ht Hch].
              split; congruence.
        -- exists (Some fallback), chunks, [("Error streaming summary: " ++ exn_text e)%string].
           cbn. split; [reflexivity|]. split; [exact Hc|]. split; [auto|discriminate].
      * exists (Some fallback), chunks, [("Error streaming summary: " ++ exn_text e)%string].
        cbn. split; [reflexivity|]. split; [exact Hc|]. split; [auto|].
        intro H. injection H as _ Hl _. destruct (Hnil Hl) as [Ht _]. discriminate.
    + exists None, [], []. cbn. rewrite !app_nil_r.
      split; [reflexivity|]. split; [constructor|]. split; [auto|].
      intro H. injection H as Hs _ _. subst status. discriminate.
Qed.


Lemma found_sentence_template (n : Z) (query tone : string) (p ng nu : Z) :
  found_sentence n query tone p ng nu = Spec.fallback n query (PyStr.lower tone) p ng nu.
Proof. reflexivity. Qed.

Lemma match_nonempty (A B : Type) (l : list A) (x y : B) :
  l <> [] -> match l with [] => x | _ :: _ => y end = y.
Proof. destruct l; [contradiction|reflexivity]. Qed.

(** A streamed analysis with matches runs to its COMPLETE event
    whatever the generative service does.  After a failure of the
    service the summary is the fallback sentence of section 4.6, with
    the tone in lower case; after a response with status 200 and no line
    it is the empty text. *)
Lemma stream_summary_delivered (E : env) (q : string) (subreddits : option string)
    (limit : Z) (w : world) (test : string -> string -> bool) :
  fts5 E q = Some test ->
  sql_fails E (tick w) (FtsMatch q) = false ->
  sql_fails E (S (tick w)) (SelectRows (map rowid (matches test (posts w)))) = false ->
  matches test (posts w) <> [] ->
  let l := analysed_posts test subreddits limit (posts w) in
  let run := search_analysis_stream E q subreddits limit w in
  exists stats chunks summary,
    summarize l = Ok stats
    /\ fst run = Ok tt
    /\ sent (snd run) =
       sent w ++
       [ EvStatus ("Searching for posts about " ++ PyStr.dquote ++ q ++ PyStr.dquote ++ "...");
         EvStatus ("Found " ++ PyStr.str_of_Z (len (matches test (posts w))) ++
                   " posts, fetching details...");
         EvSentiment (rounded stats);
         EvStatus "Generating AI summary..." ] ++
       chunks ++
       [ EvComplete
           {| sa_query := q;
              sa_summary := summary;
              sa_sentiment_summary := rounded stats;
              sa_positive_examples := examples (positive_of l);
              sa_negative_examples := examples (negative_of l);
              sa_neutral_examples := examples (neutral_of l) |} ]
    /\ Forall (fun ev => is_chunk ev = true) chunks
    /\ let reply :=
         completion_stream E (S (S (tick w)))
           (chat_prompt (stream_prompt q stats (snippets_text l))) in
       (stream_failed reply ->
        summary = Spec.fallback (len l) q (PyStr.lower (ss_overall_tone stats))
                    (ss_positive stats) (ss_negative stats) (ss_neutral stats))
       /\ (reply = StreamResponse 200 [] Closed -> summary = ""%string /\ chunks = []).
Proof.
  intros Hq Hs1 Hs2 Hm l run.
  destruct (summarize_ok l) as [stats Hstats].
  set (fallback :=
         found_sentence (len l) q (ss_overall_tone stats) (ss_positive stats)
           (ss_negative stats) (ss_neutral stats)).
  set (w3 := {| posts := posts w; tick := S (S (tick w));
                sql_log := (sql_log w ++ [FtsMatch q]) ++
                           [SelectRows (map rowid (matches test (posts w)))];
                llm_calls := llm_calls w; stdout := stdout w;
                sent := (((sent w ++
                   [EvStatus ("Searching for posts about " ++ PyStr.dquote ++ q ++
                              PyStr.dquote ++ "...")]) ++
                   [EvStatus ("Found " ++
                              PyStr.str_of_Z (len (map rowid (matches test (posts w)))) ++
                              " posts, fetching details...")]) ++
                   [EvSentiment (rounded stats)]) ++
                   [EvStatus "Generating AI summary..."] |}).
  assert (run =
          match stream_summary E (chat_prompt (stream_prompt q stats (snippets_text l)))
                  fallback w3 with
          | (Ok acc, w4) =>
              yield_event
                (EvComplete
                   {| sa_query := q;
                      sa_summary := match acc with Some text => text | None => fallback end;
                      sa_sentiment_summary := rounded stats;
                      sa_positive_examples := examples (positive_of l);
                      sa_negative_examples := examples (negative_of l);
                      sa_neutral_examples := examples (neutral_of l) |}) w4
          | (Raise e, w4) => (Raise e, w4)
          end) as Hrun.
  { subst run. unfold search_analysis_stream, bind.
    unfold yield_event at 1.
    match goal with
    | |- context [fts_query E q ?w1] => rewrite (@fts_query_run E q test w1 Hq Hs1)
    end.
    cbn [posts tick sql_log llm_calls stdout sent].
    rewrite match_nonempty
      by (destruct (matches test (posts w)); [contradiction|discriminate]).
    unfold yield_event at 1.
    rewrite select_rows_run by (cbn [tick]; exact Hs2).
    cbn [posts tick sql_log llm_calls stdout sent].
    fold (analysed_posts test subreddits limit (posts w)). fold l.
    unfold lift. rewrite Hstats.
    unfold yield_event at 1. unfold yield_event at 1.
    cbn [posts tick sql_log llm_calls stdout sent].
    reflexivity. }
  destruct (stream_summary_run E (chat_prompt (stream_prompt q stats (snippets_text l)))
              fallback w3) as (acc & chunks & printed & Hsum & Hc & Hf & He).
  rewrite Hsum in Hrun. unfold yield_event in Hrun.
  cbn [posts tick sql_log llm_calls stdout sent] in Hrun.
  exists stats, chunks, (match acc with Some text => text | None => fallback end).
  split; [exact Hstats|]. rewrite Hrun. cbn [fst snd sent].
  split; [reflexivity|]. split.
  { subst w3. cbn [sent].
    assert (len (map rowid (matches test (posts w))) = len (matches test (posts w))) as ->.
    { unfold len. rewrite length_map. reflexivity. }
    rewrite <- !app_assoc. reflexivity. }
  split; [exact Hc|]. cbn zeta. cbn [tick] in Hf, He. split.
  - intro Hfail. rewrite <- found_sentence_template. fold fallback.
    destruct (Hf Hfail) as [-> | ->]; reflexivity.
  - intro Hrep. destruct (He Hrep) as [-> ->]. auto.
Qed.


(* --------------------------------------------------------------------- *)
(** ** Counting by sentiment *)

Lemma ingestion_keeps_labels (E : env) (subreddit0 : string) (w : world) :
  Forall (fun r => valid_label (post r)) (posts w) ->
  Forall (fun r => valid_label (post r))
    (posts (snd (fetch_and_analyze_subreddit E subreddit0 w))).
Proof.
  intro H.
  destruct (fetch_and_analyze_grows E subreddit0 w)
    as (fresh & added & ws & _ & _ & Hp & _ & Hv & _).
  rewrite Hp. apply Forall_app. split; assumption.
Qed.

















Lemma positive_not_negative (p : Post) :
  sentiment_is "positive" p = true -> sentiment_is "negative" p = false.
Proof.
  unfold sentiment_is. destruct (sentiment p) as [s|]; [|reflexivity].
  intro H. apply String.eqb_eq in H. subst s. reflexivity.
Qed.





(* --------------------------------------------------------------------- *)
(** ** The timeline *)

Lemma day_of_shift (t k : Z) :
  Calendar.day_of (t + Calendar.timedelta_days k)%Z = (Calendar.day_of t + k)%Z.
Proof.
  unfold Calendar.day_of, Calendar.timedelta_days.
  apply Z.div_add. unfold Calendar.usec_per_day. discriminate.
Qed.

(** The labels [get_timeline] returns: as many as [days], from
    yesterday back to the day of the cutoff, the latest first. *)
Lemma timeline_labels (E : env) (subreddit0 : option string) (days : Z) (w : world) :
  sql_fails E (S (tick w)) SelectTimeline = false ->
  exists tl,
    fst (get_timeline E subreddit0 days w) = Ok tl
    /\ tl_labels tl =
       map (fun k => Calendar.format_day (Calendar.day_of (now E (tick w)) - 1 - Z.of_nat k)%Z)
         (seq 0 (Z.to_nat days))
    /\ List.length (tl_labels tl) = Z.to_nat days
    /\ List.length (tl_positive tl) = Z.to_nat days
    /\ List.length (tl_neutral tl) = Z.to_nat days
    /\ List.length (tl_negative tl) = Z.to_nat days.
Proof.
  intro Hs. unfold get_timeline, bind, datetime_now, sql, ret.
  cbn [tick posts advance fst snd]. rewrite Hs. cbn [fst snd].
  eexists. split; [reflexivity|].
  cbn [tl_labels tl_positive tl_neutral tl_negative].
  unfold range_down. rewrite !map_map, !length_map, length_seq.
  split; [|auto].
  apply map_ext. intro k. cbn [fst]. unfold Calendar.strftime_ymd. f_equal.
  replace (now E (tick w) - Calendar.timedelta_days days
           + Calendar.timedelta_days (days - 1 - Z.of_nat k))%Z
    with (now E (tick w) + Calendar.timedelta_days (- 1 - Z.of_nat k))%Z
    by (unfold Calendar.timedelta_days; ring).
  rewrite day_of_shift. ring.
Qed.

(** C4 fails on the code.  It is noon of 2024-01-10 and the store holds
    one post, labelled positive at 11:00 of that day, which the window of
    seven days contains.  [get_timeline] returns seven buckets, but they
    run from 2024-01-09 back to 2024-01-03, the latest first: today has
    no bucket, and the post of today is counted nowhere. *)
Theorem timeline_misses_today :
  Calendar.strftime_ymd Sample.noon = "2024-01-10"%string
  /\ Forall (fun r => in_window None (Sample.noon - Calendar.timedelta_days 7)%Z (post r) = true
                      /\ Calendar.strftime_ymd (created_utc (post r)) = "2024-01-10"%string
                      /\ sentiment (post r) = Some "positive"%string)
       (posts Sample.one_positive)
  /\ fst (get_timeline Sample.quiet None 7 Sample.one_positive)
     = Ok {| tl_labels := [ "2024-01-09"; "2024-01-08"; "2024-01-07"; "2024-01-06";
                            "2024-01-05"; "2024-01-04"; "2024-01-03" ]%string;
             tl_positive := [0; 0; 0; 0; 0; 0; 0]%Z;
             tl_neutral := [0; 0; 0; 0; 0; 0; 0]%Z;
             tl_negative := [0; 0; 0; 0; 0; 0; 0]%Z |}.
Proof.
  split; [vm_compute; reflexivity|]. split.
  - repeat constructor.
  - vm_compute. reflexivity.
Qed.

(* --------------------------------------------------------------------- *)
(** ** The background loop *)

Lemma deletes_of_writes (w : world) : deletes w = filter is_delete (writes w).
Proof.
  unfold deletes, writes. induction (sql_log w) as [|s l IH]; [reflexivity|].
  cbn [filter]. destruct s; cbn [is_write is_delete filter]; rewrite ?IH; reflexivity.
Qed.

(** A fetch deletes nothing. *)
Lemma fetch_deletes_nothing (E : env) (subreddit0 : string) (w : world) :
  deletes (snd (fetch_and_analyze_subreddit E subreddit0 w)) = deletes w.
Proof.
  destruct (fetch_and_analyze_grows E subreddit0 w)
    as (fresh & added & ws & _ & _ & _ & _ & _ & Hw & Hs).
  rewrite !deletes_of_writes, Hw, filter_app. clear Hw.
  assert (filter is_delete ws = []) as ->; [|apply app_nil_r].
  induction ws as [|s ws IH]; [reflexivity|].
  inversion Hs as [|? ? (p & _ & ->) Hs']; subst. cbn. apply IH. exact Hs'.
Qed.

(** The loop over the sources always returns: what a source raises is
    caught and printed. *)
Lemma fetch_all_returns (E : env) (subreddits : list string) :
  forall (total : Z) (w : world),
  exists total',
    fst (fetch_all E subreddits total w) = Ok total'
    /\ deletes (snd (fetch_all E subreddits total w)) = deletes w.
Proof.
  induction subreddits as [|s rest IH]; intros total w.
  - exists total. split; reflexivity.
  - rewrite fetch_all_step.
    pose proof (fetch_deletes_nothing E s w) as Hd.
    destruct (fetch_and_analyze_subreddit E s w) as [[analyzed|e] w1]; cbn [snd] in Hd.
    + destruct (IH (total + analyzed)%Z w1) as (total' & Hr & Hdel).
      exists total'. rewrite Hr, Hdel. split; [reflexivity|exact Hd].
    + match goal with
      | |- context [fetch_all E rest total ?w2] =>
          destruct (IH total w2) as (total' & Hr & Hdel)
      end.
      exists total'. rewrite Hr, Hdel. split; [reflexivity|exact Hd].
Qed.

(** While the [DELETE] of the cleanup goes through, a sweep returns and
    has run the cleanup once. *)
Lemma sweep_returns (E : env) (w : world) :
  (forall n cutoff, sql_fails E n (DeleteOlder cutoff) = false) ->
  fst (sweep E w) = Ok tt
  /\ exists cutoff, deletes (snd (sweep E w)) = deletes w ++ [DeleteOlder cutoff].
Proof.
  intro Hok. unfold sweep, bind.
  destruct (fetch_all_returns E AI_SUBREDDITS 0%Z w) as (total & Hr & Hdel).
  destruct (fetch_all E AI_SUBREDDITS 0%Z w) as [r w1]. cbn [fst snd] in Hr, Hdel. subst r.
  unfold cleanup_old_posts, bind, datetime_now, sql, delete_older, sleep, print, ret.
  cbn [tick posts advance fst snd]. rewrite Hok. cbn [fst snd].
  destruct (0 <? Z.of_nat _)%Z; destruct (0 <? total)%Z; cbn [fst snd];
    (split; [reflexivity|]; eexists; unfold deletes in *; cbn [sql_log advance];
     rewrite filter_app, Hdel; reflexivity).
Qed.

(** While the [DELETE] goes through, the loop keeps running: after any
    number of turns it has not raised, and it has run the cleanup once
    per turn. *)
Lemma background_fetcher_runs (E : env) :
  (forall n cutoff, sql_fails E n (DeleteOlder cutoff) = false) ->
  forall (turns : nat) (w : world),
    fst (background_fetcher E turns w) = Ok tt
    /\ List.length (deletes (snd (background_fetcher E turns w)))
       = (List.length (deletes w) + turns)%nat.
Proof.
  intros Hok turns. induction turns as [|k IH]; intro w.
  - cbn. split; [reflexivity|lia].
  - cbn [background_fetcher]. unfold bind.
    destruct (@sweep_returns E w Hok) as [Hr (cutoff & Hd)].
    destruct (sweep E w) as [r w1]. cbn [fst snd] in Hr, Hd. subst r.
    destruct (IH w1) as [Hr' Hlen]. split; [exact Hr'|].
    rewrite Hlen, Hd, length_app. cbn. lia.
Qed.

(** When the [DELETE] of the cleanup raises, the exception leaves the
    loop in its first turn. *)
Lemma background_fetcher_stops (E : env) (turns : nat) (w : world) :
  (forall n cutoff, sql_fails E n (DeleteOlder cutoff) = true) ->
  fst (background_fetcher E (S turns) w) = Raise SqliteError
  /\ deletes (snd (background_fetcher E (S turns) w)) = deletes w.
Proof.
  intro Hfail. cbn [background_fetcher]. unfold sweep, bind.
  destruct (fetch_all_returns E AI_SUBREDDITS 0%Z w) as (total & Hr & Hdel).
  destruct (fetch_all E AI_SUBREDDITS 0%Z w) as [r w1]. cbn [fst snd] in Hr, Hdel. subst r.
  unfold cleanup_old_posts, bind, datetime_now, sql.
  cbn [tick posts advance fst snd]. rewrite Hfail. cbn [fst snd].
  split; [reflexivity|exact Hdel].
Qed.

(** C8 fails on the code.  The database refuses the [DELETE] of the
    cleanup; every source is reached and has no new post.  Asked for
    three turns, the loop raises [sqlite3.Error] in its first: it has
    printed the two lines of each of the fifteen sources and no line
    about an error, has run no statement, and makes no second sweep. *)
Theorem cleanup_failure_ends_loop :
  fst (background_fetcher Sample.locked_delete 3 Sample.empty) = Raise SqliteError
  /\ sql_log (snd (background_fetcher Sample.locked_delete 3 Sample.empty)) = []
  /\ List.length (stdout (snd (background_fetcher Sample.locked_delete 3 Sample.empty)))
     = (2 * List.length AI_SUBREDDITS)%nat
  /\ existsb (PyStr.contains "Error")
       (stdout (snd (background_fetcher Sample.locked_delete 3 Sample.empty))) = false
  /\ fst (background_fetcher Sample.quiet 3 Sample.empty) = Ok tt
  /\ List.length (deletes (snd (background_fetcher Sample.quiet 3 Sample.empty))) = 3%nat.
Proof.
  vm_compute. repeat split; reflexivity.
Qed.

(* ===================================================================== *)
(** * Further properties of the program *)
(* ===================================================================== *)

(* --------------------------------------------------------------------- *)
(** ** What ingestion and retention keep true of the table *)

(** A property of the table that every write of [store_post] and every
    [DELETE] of the cleanup keeps is kept by the whole ingestion,
    whatever the source, the classifier and the database do. *)
Section TableInvariant.

Variable E : env.
Variable Inv : table -> Prop.

Hypothesis Inv_store : forall (p : Post) (r : http_reply) (at_time : Calendar.datetime)
    (t : table),
  Inv t ->
  Inv (snd (insert_or_replace
              (classified p (or_none (fst (Spec.classify r))) (snd (Spec.classify r)) at_time)
              t)).

Hypothesis Inv_delete : forall (cutoff : Calendar.datetime) (t : table),
  Inv t -> Inv (snd (delete_older cutoff t)).

Lemma analyze_post_keeps (p : Post) (w : world) :
  Inv (posts w) -> Inv (posts (snd (analyze_post E p w))).
Proof.
  intro H. unfold analyze_post, bind, sql, select_id, ret.
  destruct (sql_fails E (tick w) (SelectId (id p))); [exact H|].
  cbn [fst snd].
  destruct (existsb (has_id (id p)) (posts w)); [exact H|].
  match goal with
  | |- context [analyze_sentiment E ?t ?w1] =>
      destruct (analyze_sentiment_run E t w1) as [printed Hrun]; rewrite Hrun
  end.
  cbn [tick posts sql_log llm_calls stdout sent].
  destruct (Spec.classify _) as [sentiment0 score0] eqn:C.
  unfold store_post, bind, datetime_now, sql, sleep, ret.
  cbn [tick posts advance fst snd sql_log llm_calls stdout sent].
  match goal with
  | |- context [sql_fails E ?n ?s] => destruct (sql_fails E n s)
  end; cbn [snd posts]; [exact H|].
  match goal with
  | |- context [insert_or_replace ?rec (posts w)] =>
      destruct (insert_or_replace rec (posts w)) as [u t'] eqn:Ins
  end.
  cbn [posts advance snd].
  match type of Ins with
  | insert_or_replace ?rec _ = _ =>
      match type of C with
      | Spec.classify ?r = _ =>
          pose proof (@Inv_store p r (now E (S (S (tick w)))) (posts w) H) as HI
      end
  end.
  rewrite C in HI. cbn [fst snd] in HI. unfold classified in HI.
  rewrite Ins in HI. exact HI.
Qed.

Lemma analyze_posts_keeps (l : list Post) :
  forall (analyzed : Z) (w : world),
    Inv (posts w) -> Inv (posts (snd (analyze_posts E l analyzed w))).
Proof.
  induction l as [|p l IH]; intros analyzed w H; [exact H|].
  cbn [analyze_posts]. unfold bind.
  pose proof (analyze_post_keeps p w H) as H1.
  destruct (analyze_post E p w) as [[k|e] w1]; cbn [snd] in *.
  - apply IH. exact H1.
  - exact H1.
Qed.

Lemma fetch_and_analyze_keeps (subreddit0 : string) (w : world) :
  Inv (posts w) -> Inv (posts (snd (fetch_and_analyze_subreddit E subreddit0 w))).
Proof.
  intro H.
  unfold fetch_and_analyze_subreddit, fetch_reddit_posts, bind, print, urlopen, ret, raise.
  cbn [tick fst snd].
  destruct (reddit E (tick w) subreddit0) as [e|[children|]]; cbn [snd posts]; try exact H.
  match goal with
  | |- context [analyze_posts E children 0%Z ?x] =>
      pose proof (analyze_posts_keeps children 0%Z x H) as H1;
      destruct (analyze_posts E children 0%Z x) as [[analyzed|e] w2]
  end; exact H1.
Qed.

Lemma fetch_all_keeps (subreddits : list string) :
  forall (total : Z) (w : world),
    Inv (posts w) -> Inv (posts (snd (fetch_all E subreddits total w))).
Proof.
  induction subreddits as [|s rest IH]; intros total w H; [exact H|].
  rewrite fetch_all_step.
  pose proof (fetch_and_analyze_keeps s w H) as H1.
  destruct (fetch_and_analyze_subreddit E s w) as [[analyzed|e] w1]; cbn [snd] in H1;
    apply IH; exact H1.
Qed.

Lemma cleanup_keeps (w : world) :
  Inv (posts w) -> Inv (posts (snd (cleanup_old_posts E w))).
Proof.
  intro H. unfold cleanup_old_posts, bind, datetime_now, sql, print, ret.
  cbn [tick posts advance fst snd].
  match goal with
  | |- context [sql_fails E ?n ?s] => destruct (sql_fails E n s)
  end; [exact H|].
  match goal with
  | |- context [delete_older ?c (posts w)] =>
      pose proof (Inv_delete c H) as H1;
      destruct (delete_older c (posts w)) as [deleted t']
  end.
  cbn [fst snd] in *. destruct (0 <? deleted)%Z; exact H1.
Qed.

Lemma sweep_keeps (w : world) : Inv (posts w) -> Inv (posts (snd (sweep E w))).
Proof.
  intro H. unfold sweep, bind.
  pose proof (fetch_all_keeps AI_SUBREDDITS 0%Z w H) as H1.
  destruct (fetch_all E AI_SUBREDDITS 0%Z w) as [[total|e] w1]; cbn [snd] in H1; [|exact H1].
  pose proof (cleanup_keeps w1 H1) as H2.
  destruct (cleanup_old_posts E w1) as [[u|e] w2]; cbn [snd] in H2; [|exact H2].
  unfold print, ret, sleep. destruct (0 <? total)%Z; exact H2.
Qed.

Lemma background_fetcher_keeps (turns : nat) :
  forall w : world, Inv (posts w) -> Inv (posts (snd (background_fetcher E turns w))).
Proof.
  induction turns as [|k IH]; intros w H; [exact H|].
  cbn [background_fetcher]. unfold bind.
  pose proof (sweep_keeps w H) as H1.
  destruct (sweep E w) as [[u|e] w1]; cbn [snd] in H1; [apply IH|]; exact H1.
Qed.

End TableInvariant.

(* --------------------------------------------------------------------- *)
(** ** The keys of the table *)







(* --------------------------------------------------------------------- *)
(** ** Writing a record and reading it back *)






(* --------------------------------------------------------------------- *)
(** ** The classification columns *)

Lemma default_score_range (c : string) : (-1 <= Spec.default_score c <= 1)%Q.
Proof.
  unfold Spec.default_score.
  destruct (PyStr.contains_nocase "POSITIVE" c); [split; apply Qle_bool_iff; reflexivity|].
  destruct (PyStr.contains_nocase "NEGATIVE" c); split; apply Qle_bool_iff; reflexivity.
Qed.

Lemma score_range (c : string) : (-1 <= Spec.score c <= 1)%Q.
Proof.
  unfold Spec.score.
  destruct (Spec.first_number c) as [text|]; [|apply default_score_range].
  destruct (PyFloat.float text) as [x|]; [|apply default_score_range].
  destruct (Qle_bool (-1) x && Qle_bool x 1) eqn:B; [|apply default_score_range].
  apply andb_true_iff in B. destruct B as [B1 B2].
  split; apply Qle_bool_iff; assumption.
Qed.

Lemma category_label (c : string) : is_label (Spec.category c).
Proof.
  unfold Spec.category, is_label.
  destruct (PyStr.contains_nocase "POSITIVE" c); [auto|].
  destruct (PyStr.contains_nocase "NEGATIVE" c); auto.
Qed.

Lemma classified_ok (p : Post) (r : http_reply) (at_time : Calendar.datetime) :
  classification_ok
    (classified p (or_none (fst (Spec.classify r))) (snd (Spec.classify r)) at_time).
Proof.
  unfold Spec.classify, classification_ok.
  destruct (Spec.usable r) as [c|]; cbn [fst snd classified sentiment sentiment_score].
  - right. exists (Spec.category c), (Spec.score c).
    split; [|split; [apply category_label|split; [reflexivity|apply score_range]]].
    destruct (category_label c) as [ -> | [ -> | -> ] ]; reflexivity.
  - left. split; reflexivity.
Qed.

(** X3.  What the classifier's answer can be, and what the table can
    hold of it.  [analyze_sentiment] returns either the unset pair or
    one of the labels positive, neutral, negative together with a score
    from -1 to 1; it never returns a label without a score or a score
    outside that range.  So when every record of the table has its
    classification columns in that shape, every record still has after
    [fetch_and_analyze_subreddit] and after any number of turns of
    [background_fetcher]. *)
Theorem classification_in_range : forall (E : env) (w : world),
  (forall text,
      fst (analyze_sentiment E text w) = Ok (None, None)
      \/ exists label s,
           fst (analyze_sentiment E text w) = Ok (Some label, Some s)
           /\ is_label label /\ (-1 <= s <= 1)%Q)
  /\ (Forall (fun r => classification_ok (post r)) (posts w) ->
      (forall subreddit0,
          Forall (fun r => classification_ok (post r))
            (posts (snd (fetch_and_analyze_subreddit E subreddit0 w))))
      /\ (forall turns,
            Forall (fun r => classification_ok (post r))
              (posts (snd (background_fetcher E turns w))))).
Proof.
  intros E w. split.
  - intro text. destruct (analyze_sentiment_run E text w) as [printed ->]. cbn [fst].
    unfold Spec.classify. destruct (Spec.usable _) as [c|]; [right|left; reflexivity].
    exists (Spec.category c), (Spec.score c).
    split; [reflexivity|]. split; [apply category_label|apply score_range].
  - intro H.
    assert (forall (p : Post) (r : http_reply) (at_time : Calendar.datetime) (t : table),
               Forall (fun r0 => classification_ok (post r0)) t ->
               Forall (fun r0 => classification_ok (post r0))
                 (snd (insert_or_replace
                         (classified p (or_none (fst (Spec.classify r)))
                            (snd (Spec.classify r)) at_time) t))) as Hs.
    { intros p r at_time t Ht. unfold insert_or_replace. cbn [snd].
      apply Forall_app. split.
      - apply Forall_forall. intros x Hx. apply filter_In in Hx.
        rewrite Forall_forall in Ht. apply Ht. exact (proj1 Hx).
      - constructor; [|constructor]. cbn [post]. apply classified_ok. }
    assert (forall (cutoff : Calendar.datetime) (t : table),
               Forall (fun r0 => classification_ok (post r0)) t ->
               Forall (fun r0 => classification_ok (post r0))
                 (snd (delete_older cutoff t))) as Hd.
    { intros cutoff t Ht. unfold delete_older. cbn [snd].
      apply Forall_forall. intros x Hx. apply filter_In in Hx.
      rewrite Forall_forall in Ht. apply Ht. exact (proj1 Hx). }
    split.
    + intro subreddit0. apply fetch_and_analyze_keeps; [exact Hs|exact H].
    + intro turns. apply background_fetcher_keeps; [exact Hs|exact Hd|exact H].
Qed.

(* --------------------------------------------------------------------- *)
(** ** The number a fetch reports *)

(** One turn of the loop of [fetch_and_analyze_subreddit] that does not
    raise: it skips the post, or it asks the classifier once and adds
    one row. *)
Lemma analyze_post_count (E : env) (p : Post) (w w' : world) (k : Z) :
  analyze_post E p w = (Ok k, w') ->
  (0 <= k <= 1)%Z
  /\ len (posts w') = (len (posts w) + k)%Z
  /\ len (llm_calls w') = (len (llm_calls w) + k)%Z.
Proof.
  unfold analyze_post, bind, sql, select_id, ret, len.
  destruct (sql_fails E (tick w) (SelectId (id p))); [discriminate|].
  cbn [fst snd].
  destruct (existsb (has_id (id p)) (posts w)) eqn:Found.
  { intro H. injection H as <- <-. cbn [posts llm_calls]. lia. }
  match goal with
  | |- context [analyze_sentiment E ?t ?w1] =>
      destruct (analyze_sentiment_run E t w1) as [printed Hrun]; rewrite Hrun
  end.
  cbn [tick posts sql_log llm_calls stdout sent].
  destruct (Spec.classify _) as [sentiment0 score0].
  unfold store_post, bind, datetime_now, sql, insert_or_replace, sleep, ret.
  cbn [tick posts advance fst snd sql_log llm_calls stdout sent].
  match goal with
  | |- context [sql_fails E ?n ?s] => destruct (sql_fails E n s)
  end; [discriminate|].
  intro H. injection H as <- <-. cbn [posts llm_calls advance id].
  rewrite (filter_none _ _ Found), !length_app. cbn [List.length]. lia.
Qed.

Lemma analyze_posts_count (E : env) (l : list Post) :
  forall (analyzed analyzed' : Z) (w w' : world),
    analyze_posts E l analyzed w = (Ok analyzed', w') ->
    (0 <= analyzed' - analyzed <= len l)%Z
    /\ len (posts w') = (len (posts w) + (analyzed' - analyzed))%Z
    /\ len (llm_calls w') = (len (llm_calls w) + (analyzed' - analyzed))%Z.
Proof.
  induction l as [|p l IH]; intros analyzed analyzed' w w'.
  - cbn. unfold ret. intro H. injection H as <- <-. unfold len. cbn. lia.
  - cbn [analyze_posts]. unfold bind.
    destruct (analyze_post E p w) as [[k|e] w1] eqn:Hp; [|discriminate].
    intro H. destruct (analyze_post_count _ _ _ Hp) as (Hk & Hposts & Hcalls).
    destruct (IH _ _ _ _ H) as (Hn & Hposts' & Hcalls').
    unfold len in *. cbn [List.length]. lia.
Qed.

(** What a fetch that returns has done, by the number it returns. *)
Lemma fetch_and_analyze_count (E : env) (subreddit0 : string) (w : world) (analyzed : Z) :
  fst (fetch_and_analyze_subreddit E subreddit0 w) = Ok analyzed ->
  let w' := snd (fetch_and_analyze_subreddit E subreddit0 w) in
  len (posts w') = (len (posts w) + analyzed)%Z
  /\ len (llm_calls w') = (len (llm_calls w) + analyzed)%Z
  /\ (0 <= analyzed <= len (fetched_by E subreddit0 w))%Z
  /\ last (stdout w') ""%string
     = ("  Analyzed " ++ PyStr.str_of_Z analyzed ++ " new posts from r/" ++ subreddit0)%string.
Proof.
  intros Hrun w'. subst w'. revert Hrun.
  unfold fetch_and_analyze_subreddit, fetch_reddit_posts, bind, print, urlopen, fetched_by,
    ret, raise.
  cbn [tick fst snd].
  destruct (reddit E (tick w) subreddit0) as [e|[children|]]; cbn [fst snd].
  - cbn [analyze_posts]. unfold ret. cbn [fst snd].
    intros H. injection H as <-. cbn [posts llm_calls stdout advance].
    rewrite last_last. unfold len. cbn [List.length].
    split; [lia|]. split; [lia|]. split; [lia|reflexivity].
  - match goal with
    | |- context [analyze_posts E children 0%Z ?x] =>
        destruct (analyze_posts E children 0%Z x) as [[n|e] w2] eqn:Hloop
    end; [|discriminate].
    cbn [fst snd]. intros H. injection H as ->.
    destruct (analyze_posts_count _ _ _ _ Hloop) as (Hn & Hposts & Hcalls).
    cbn [posts llm_calls stdout advance] in *. rewrite last_last.
    split; [lia|]. split; [lia|]. split; [lia|reflexivity].
  - discriminate.
Qed.

(** X4.  The number [fetch_and_analyze_subreddit] returns is the number
    of rows it has added to the table and the number of questions it has
    put to the classifier; it is at most the number of posts fetched,
    and it is the number of the last line printed.  [trigger_analysis]
    runs the same fetch, whatever its [limit], and reports that number
    in its message. *)
Theorem analyzed_counts_new_rows : forall (E : env) (subreddit0 : string) (w : world)
    (analyzed : Z),
  fst (fetch_and_analyze_subreddit E subreddit0 w) = Ok analyzed ->
  let w' := snd (fetch_and_analyze_subreddit E subreddit0 w) in
  len (posts w') = (len (posts w) + analyzed)%Z
  /\ len (llm_calls w') = (len (llm_calls w) + analyzed)%Z
  /\ (0 <= analyzed <= len (fetched_by E subreddit0 w))%Z
  /\ last (stdout w') ""%string
     = ("  Analyzed " ++ PyStr.str_of_Z analyzed ++ " new posts from r/" ++ subreddit0)%string
  /\ (forall limit,
        trigger_analysis E subreddit0 limit w
        = (Ok (("Analyzed " ++ PyStr.str_of_Z analyzed ++ " posts")%string, subreddit0), w')).
Proof.
  intros E subreddit0 w analyzed Hrun w'.
  destruct (@fetch_and_analyze_count E subreddit0 w analyzed Hrun) as (H1 & H2 & H3 & H4).
  fold w' in H1, H2, H4.
  split; [exact H1|]. split; [exact H2|]. split; [exact H3|]. split; [exact H4|].
  intro limit. unfold trigger_analysis, bind, ret. subst w'.
  destruct (fetch_and_analyze_subreddit E subreddit0 w) as [[n|e] w1];
    cbn [fst snd] in *; [|discriminate].
  injection Hrun as ->. reflexivity.
Qed.

(** [analyzed_counts_new_rows] at a fetch of two new posts into an empty
    store. *)
Lemma analyzed_counts_new_rows_witness :
  let E := Sample.answering "Sentiment: POSITIVE Score: 0.8" in
  let w' := snd (fetch_and_analyze_subreddit E "OpenAI" Sample.empty) in
  fst (fetch_and_analyze_subreddit E "OpenAI" Sample.empty) = Ok 2%Z
  /\ len (posts w') = (len (posts Sample.empty) + 2)%Z
  /\ len (llm_calls w') = (len (llm_calls Sample.empty) + 2)%Z.
Proof.
  intros E w'.
  assert (fst (fetch_and_analyze_subreddit E "OpenAI" Sample.empty) = Ok 2%Z) as H
      by (vm_compute; reflexivity).
  split; [exact H|].
  destruct (@analyzed_counts_new_rows E "OpenAI"%string Sample.empty 2%Z H)
    as (H1 & H2 & _).
  split; [exact H1|exact H2].
Defined.

(* --------------------------------------------------------------------- *)
(** ** Sorting and limiting *)

Lemma insert_desc_perm (A : Type) (key : A -> Z) (x : A) (l : list A) :
  Permutation (insert_desc key x l) (x :: l).
Proof.
  induction l as [|y l IH]; [apply Permutation_refl|].
  cbn [insert_desc]. destruct (key y <=? key x)%Z; [apply Permutation_refl|].
  eapply Permutation_trans; [apply perm_skip; exact IH|apply perm_swap].
Qed.

Lemma sort_desc_perm (A : Type) (key : A -> Z) (l : list A) :
  Permutation (sort_desc key l) l.
Proof.
  unfold sort_desc. induction l as [|x l IH]; [apply Permutation_refl|].
  cbn [fold_right].
  eapply Permutation_trans; [apply insert_desc_perm|apply perm_skip; exact IH].
Qed.

Lemma insert_desc_sorted (A : Type) (key : A -> Z) (x : A) (l : list A) :
  StronglySorted (fun a b => (key b <= key a)%Z) l ->
  StronglySorted (fun a b => (key b <= key a)%Z) (insert_desc key x l).
Proof.
  induction l as [|y l IH]; intro H.
  - repeat constructor.
  - cbn [insert_desc]. inversion H as [|? ? Hs Hall]; subst.
    destruct (key y <=? key x)%Z eqn:L.
    + apply Z.leb_le in L. constructor; [exact H|].
      constructor; [exact L|].
      eapply Forall_impl; [|exact Hall]. cbn. intros; lia.
    + apply Z.leb_gt in L. constructor; [apply IH; exact Hs|].
      eapply Permutation_Forall; [apply Permutation_sym, insert_desc_perm|].
      constructor; [lia|exact Hall].
Qed.

Lemma sort_desc_sorted (A : Type) (key : A -> Z) (l : list A) :
  StronglySorted (fun a b => (key b <= key a)%Z) (sort_desc key l).
Proof.
  unfold sort_desc. induction l as [|x l IH]; [constructor|].
  cbn [fold_right]. apply insert_desc_sorted. exact IH.
Qed.

Lemma insert_desc_stable (A : Type) (key : A -> Z) (k : Z) (x : A) (l : list A) :
  filter (fun a => (key a =? k)%Z) (insert_desc key x l)
  = filter (fun a => (key a =? k)%Z) (x :: l).
Proof.
  induction l as [|y l IH]; [reflexivity|].
  cbn [insert_desc]. destruct (key y <=? key x)%Z eqn:L; [reflexivity|].
  apply Z.leb_gt in L. cbn [filter] in *. rewrite IH.
  destruct (key x =? k)%Z eqn:X; [|reflexivity].
  destruct (key y =? k)%Z eqn:Y; [|reflexivity].
  apply Z.eqb_eq in X, Y. lia.
Qed.

(** X5.  The sort of the search endpoints, [l.sort(key=..., reverse=True)]
    as embedded in [sort_desc]: the result holds the same posts as the
    input, each as often; it runs from the largest key to the smallest;
    and posts with the same key stay in the order they had, which is the
    order of the rows in the table. *)
Theorem sort_desc_stable : forall (A : Type) (key : A -> Z) (l : list A),
  Permutation (sort_desc key l) l
  /\ StronglySorted (fun a b => (key b <= key a)%Z) (sort_desc key l)
  /\ (forall k, filter (fun a => (key a =? k)%Z) (sort_desc key l)
                = filter (fun a => (key a =? k)%Z) l).
Proof.
  intros A key l. split; [apply sort_desc_perm|]. split; [apply sort_desc_sorted|].
  intro k. unfold sort_desc. induction l as [|x l IH]; [reflexivity|].
  cbn [fold_right]. rewrite insert_desc_stable. cbn [filter]. rewrite IH. reflexivity.
Qed.





(* --------------------------------------------------------------------- *)
(** ** What a search returns *)



Lemma sentiment_partition (l : list Post) :
  (len (filter (sentiment_is "positive") l) + len (filter neither l)
   + len (filter (sentiment_is "negative") l) = len l)%Z.
Proof.
  unfold len. induction l as [|p l IH]; [reflexivity|].
  cbn [filter]. unfold neither at 1.
  destruct (sentiment_is "positive" p) eqn:P.
  - rewrite (positive_not_negative p P). cbn [negb andb List.length]. lia.
  - destruct (sentiment_is "negative" p); cbn [negb andb List.length]; lia.
Qed.




(* --------------------------------------------------------------------- *)
(** ** The subreddit filter *)

Lemma split_commas_plain (x : string) :
  PyStr.contains "," x = false -> split_commas x = [x].
Proof.
  induction x as [|c x IH]; [reflexivity|].
  cbn [PyStr.contains PyStr.startswith split_commas].
  rewrite Ascii.eqb_sym. destruct (Ascii.eqb c ","); cbn [andb orb].
  - destruct x; discriminate.
  - intro H. rewrite (IH H). reflexivity.
Qed.

Lemma split_commas_app (x rest : string) :
  PyStr.contains "," x = false ->
  split_commas (x ++ String "," rest) = x :: split_commas rest.
Proof.
  induction x as [|c x IH].
  - intros _. cbn. reflexivity.
  - cbn [PyStr.contains PyStr.startswith String.append split_commas].
    rewrite Ascii.eqb_sym. destruct (Ascii.eqb c ","); cbn [andb orb].
    + destruct x; discriminate.
    + intro H. rewrite (IH H). reflexivity.
Qed.

(** Splitting at the commas undoes joining with commas. *)
Lemma split_commas_join (names : list string) :
  names <> [] ->
  Forall (fun name => PyStr.contains "," name = false) names ->
  split_commas (PyStr.join "," names) = names.
Proof.
  induction names as [|x names IH]; [contradiction|].
  intros _ H. inversion H as [|? ? Hx Hrest]; subst.
  destruct names as [|y names].
  - cbn [PyStr.join]. apply split_commas_plain. exact Hx.
  - change (PyStr.join "," (x :: y :: names))
      with (x ++ String "," (PyStr.join "," (y :: names)))%string.
    rewrite (@split_commas_app x _ Hx). f_equal. apply IH; [discriminate|exact Hrest].
Qed.

(** X7.  The [subreddits] parameter of the search endpoints.  No
    parameter and the empty text filter nothing.  A text made of names
    joined by commas keeps exactly the posts whose subreddit is one of
    the names, each name taken without the white space around it; the
    comparison is exact, letter case included, and no post is added or
    reordered. *)
Theorem filter_subreddits_names : forall (names : list string) (l : list Post),
  names <> [] ->
  Forall (fun name => PyStr.contains "," name = false) names ->
  PyStr.join "," names <> ""%string ->
  filter_subreddits (Some (PyStr.join "," names)) l
  = filter (fun p => existsb (String.eqb (subreddit p)) (map PyStr.strip names)) l
  /\ filter_subreddits None l = l
  /\ filter_subreddits (Some ""%string) l = l.
Proof.
  intros names l Hne Hnames Htext.
  split; [|split; reflexivity].
  unfold filter_subreddits.
  rewrite (@split_commas_join names Hne Hnames).
  destruct (PyStr.join "," names); [contradiction|reflexivity].
Qed.

(** [filter_subreddits_names] at the text "OpenAI, ClaudeAI". *)
Lemma filter_subreddits_names_witness :
  filter_subreddits (Some "OpenAI, ClaudeAI"%string)
    [Sample.a_post "p1" None 0%Z; Sample.a_post "p2" None 0%Z]
  = filter (fun p => existsb (String.eqb (subreddit p)) ["OpenAI"; "ClaudeAI"]%string)
      [Sample.a_post "p1" None 0%Z; Sample.a_post "p2" None 0%Z].
Proof.
  refine (proj1 (@filter_subreddits_names ["OpenAI"; " ClaudeAI"]%string
                   [Sample.a_post "p1" None 0%Z; Sample.a_post "p2" None 0%Z] _ _ _)).
  - discriminate.
  - repeat constructor.
  - discriminate.
Defined.

(* --------------------------------------------------------------------- *)
(** ** Citations *)

Lemma length_take (n : nat) (s : string) :
  String.length (PyStr.take n s) = Nat.min n (String.length s).
Proof.
  revert s. induction n as [|n IH]; intro s; [reflexivity|].
  destruct s as [|c s]; [reflexivity|]. cbn [PyStr.take String.length]. rewrite IH.
  reflexivity.
Qed.

Lemma length_append (a b : string) :
  String.length (a ++ b) = (String.length a + String.length b)%nat.
Proof.
  induction a as [|c a IH]; [reflexivity|]. cbn [String.append String.length].
  rewrite IH. reflexivity.
Qed.

Lemma in_firstn (A : Type) (n : nat) (l : list A) (x : A) :
  In x (firstn n l) -> In x l.
Proof.
  intro H. rewrite <- (firstn_skipn n l). apply in_or_app. left. exact H.
Qed.

Lemma citation_title (p : Post) :
  (String.length (cite_title (make_citation p)) <= 103)%nat
  /\ PyStr.take 100 (cite_title (make_citation p)) = PyStr.take 100 (title p)
  /\ ((String.length (title p) <= 100)%nat -> cite_title (make_citation p) = title p).
Proof.
  unfold make_citation. cbn [cite_title].
  destruct (100 <? String.length (title p))%nat eqn:L.
  - apply Nat.ltb_lt in L. split; [|split].
    + rewrite length_append, length_take. cbn [String.length]. lia.
    + assert (forall n a b, String.length a = n -> PyStr.take n (a ++ b) = a) as Htake.
      { intros n a. revert n. induction a as [|c a IH]; intros n b Hlen.
        - cbn in Hlen. subst n. reflexivity.
        - cbn [String.length] in Hlen. subst n. cbn [String.append PyStr.take].
          rewrite IH by reflexivity. reflexivity. }
      apply Htake. rewrite length_take. lia.
    + intro H. lia.
  - apply Nat.ltb_ge in L. split; [lia|]. split; [reflexivity|]. intros _. reflexivity.
Qed.

Lemma citation_sentiment (p : Post) (label : string) :
  label <> ""%string ->
  sentiment_is label p = true -> cite_sentiment (make_citation p) = label.
Proof.
  intros Hne H. unfold sentiment_is in H. unfold make_citation. cbn [cite_sentiment].
  destruct (sentiment p) as [s|]; [|discriminate].
  apply String.eqb_eq in H. subst s. destruct label; [contradiction|reflexivity].
Qed.

Lemma citation_other (p : Post) :
  neither p = true ->
  cite_sentiment (make_citation p) <> "positive"%string
  /\ cite_sentiment (make_citation p) <> "negative"%string
  /\ cite_sentiment (make_citation p) <> ""%string.
Proof.
  unfold neither, sentiment_is, make_citation. cbn [cite_sentiment].
  destruct (sentiment p) as [s|].
  - intro H. apply andb_true_iff in H. destruct H as [H1 H2].
    apply negb_true_iff in H1, H2. apply String.eqb_neq in H1, H2.
    destruct s as [|c s]; [repeat split; discriminate|].
    repeat split; try assumption. discriminate.
  - intros _. repeat split; discriminate.
Qed.

(** X8.  The examples of an analysis.  Each of the three lists holds at
    most three citations, made from the first posts of its kind in the
    order of the analysed posts.  A citation's title is the post's title
    when that has at most 100 characters, and otherwise its first 100
    characters followed by three dots, so it never has more than 103; a
    citation's sentiment is never empty: every positive example says
    positive, every negative example says negative, and every other
    example says what the post says or, for a post without sentiment,
    unknown. *)
Theorem examples_shape : forall l : list Post,
  let cited kind := examples (filter kind l) in
  (forall kind,
      cited kind = map make_citation (firstn 3 (filter kind l))
      /\ (List.length (cited kind) <= 3)%nat
      /\ Forall (fun c => (String.length (cite_title c) <= 103)%nat) (cited kind))
  /\ examples (positive_of l) = cited (sentiment_is "positive")
  /\ examples (negative_of l) = cited (sentiment_is "negative")
  /\ examples (neutral_of l) = cited neither
  /\ Forall (fun c => cite_sentiment c = "positive"%string) (examples (positive_of l))
  /\ Forall (fun c => cite_sentiment c = "negative"%string) (examples (negative_of l))
  /\ Forall (fun c => cite_sentiment c <> "positive"%string
                      /\ cite_sentiment c <> "negative"%string
                      /\ cite_sentiment c <> ""%string)
       (examples (neutral_of l))
  /\ (forall p,
        cite_title (make_citation p)
        = if (100 <? String.length (title p))%nat
          then (PyStr.take 100 (title p) ++ "...")%string else title p)
  /\ (forall p, sentiment p = None -> cite_sentiment (make_citation p) = "unknown"%string).
Proof.
  intros l cited.
  assert (forall (P : Citation -> Prop) (kind : Post -> bool),
             (forall p, kind p = true -> P (make_citation p)) ->
             Forall P (cited kind)) as Hall.
  { intros P kind HP. unfold cited, examples. apply Forall_forall. intros c Hc.
    apply in_map_iff in Hc. destruct Hc as (p & <- & Hp).
    apply HP. apply in_firstn in Hp.
    apply filter_In in Hp. exact (proj2 Hp). }
  split; [|split; [|split; [|split; [|split; [|split; [|split; [|split]]]]]]].
  - intro kind. split; [reflexivity|]. split.
    + unfold cited, examples. rewrite length_map, length_firstn. lia.
    + apply Hall. intros p _. exact (proj1 (citation_title p)).
  - reflexivity.
  - reflexivity.
  - reflexivity.
  - apply (Hall (fun c => cite_sentiment c = "positive"%string)).
    intros p Hp. apply citation_sentiment; [discriminate|exact Hp].
  - apply (Hall (fun c => cite_sentiment c = "negative"%string)).
    intros p Hp. apply citation_sentiment; [discriminate|exact Hp].
  - apply (Hall (fun c => cite_sentiment c <> "positive"%string
                          /\ cite_sentiment c <> "negative"%string
                          /\ cite_sentiment c <> ""%string)).
    intros p Hp. apply citation_other. exact Hp.
  - intro p. reflexivity.
  - intros p Hp. unfold make_citation. cbn [cite_sentiment]. rewrite Hp. reflexivity.
Qed.

(* --------------------------------------------------------------------- *)
(** ** The summary a stream delivers *)

Lemma append_assoc (a b c : string) : ((a ++ b) ++ c = a ++ (b ++ c))%string.
Proof.
  induction a as [|x a IH]; [reflexivity|]. cbn [String.append]. rewrite IH. reflexivity.
Qed.

Lemma world_sent_nil (w : world) :
  w = {| posts := posts w; tick := tick w; sql_log := sql_log w;
         llm_calls := llm_calls w; stdout := stdout w; sent := sent w ++ [] |}.
Proof. destruct w. cbn. rewrite app_nil_r. reflexivity. Qed.

(** The loop over the lines: it sends one chunk event for every text of
    the lines it gets past, each with the texts so far put together; it
    returns those of all the lines when it gets past all of them, and
    raises at the first line it does not get past. *)
Lemma read_stream_exact (lines : list sse_line) :
  forall (accumulated : string) (w : world),
  exists r,
    read_stream lines accumulated w =
    (r, {| posts := posts w; tick := tick w; sql_log := sql_log w;
           llm_calls := llm_calls w; stdout := stdout w;
           sent := sent w ++ running accumulated (line_texts (readable lines)) |})
    /\ (forallb line_ok lines = true ->
        r = Ok (accumulated ++ joined (line_texts lines))%string)
    /\ (forallb line_ok lines = false -> exists e, r = Raise e).
Proof.
  assert (forall (w : world) (e : exn) (P : result string -> Prop),
             exists r,
               (@Raise string e, w) =
               (r, {| posts := posts w; tick := tick w; sql_log := sql_log w;
                      llm_calls := llm_calls w; stdout := stdout w;
                      sent := sent w ++ [] |})
               /\ (false = true -> P r)
               /\ (false = false -> exists e0, r = Raise e0)) as stop.
  { intros w e P. exists (Raise e). split; [f_equal; apply world_sent_nil|].
    split; [discriminate|]. intros _. exists e. reflexivity. }
  induction lines as [|line lines IH]; intros accumulated w.
  - exists (Ok accumulated). cbn [read_stream readable line_texts flat_map running forallb joined
                                     fold_right].
    unfold ret. split; [f_equal; apply world_sent_nil|].
    split; [|discriminate]. intros _.
    assert (forall s, (s ++ "")%string = s) as right_empty.
    { induction s as [|c s IHs]; [reflexivity|]. cbn. rewrite IHs. reflexivity. }
    rewrite right_empty. reflexivity.
  - destruct line as [|text|[data|]]; cbn [read_stream].
    + apply (stop w UnicodeDecodeError
               (fun r => r = Ok (accumulated ++ joined (line_texts (Undecodable :: lines)))%string)).
    + apply IH.
    + destruct data as [ | b | n | s | items | fields ];
        cbn [readable line_ok forallb andb line_texts flat_map line_text app];
        unfold bind, lift; cbn [has_content].
      * apply stop.
      * apply stop.
      * apply stop.
      * destruct (PyStr.contains "content" s); cbn [negb content_chunk andb].
        -- apply stop.
        -- fold (line_texts (readable lines)). fold (line_texts lines). apply IH.
      * destruct (existsb is_content items); cbn [negb content_chunk andb].
        -- apply stop.
        -- fold (line_texts (readable lines)). fold (line_texts lines). apply IH.
      * cbn [content_chunk].
        destruct (assoc "content" fields) as [[ | b | n | chunk | items | fields' ]|]
          eqn:Hassoc;
          cbn [andb line_texts flat_map line_text app]; rewrite ?Hassoc;
          cbn [andb line_texts flat_map line_text app]; try apply stop.
        -- unfold yield_event.
           match goal with
           | |- context [read_stream lines ?a ?w1] =>
               destruct (IH a w1) as (r & Hr & Hok & Hbad)
           end.
           exists r. rewrite Hr. cbn [posts tick sql_log llm_calls stdout sent].
           fold (line_texts (readable lines)). fold (line_texts lines).
           cbn [running joined fold_right]. rewrite <- app_assoc. cbn [app].
           split; [reflexivity|]. split; [|exact Hbad].
           intro H. rewrite (Hok H). unfold joined. rewrite append_assoc. reflexivity.
        -- cbn [readable line_ok]. rewrite ?Bool.andb_true_l.
           fold (line_texts (readable lines)). fold (line_texts lines). apply IH.
    + apply IH.
Qed.

(** The summarizing stage, by the reply of the generative service. *)
Lemma stream_summary_exact (E : env) (prompt fallback : string) (w : world) :
  exists acc printed,
    stream_summary E prompt fallback w =
    (Ok acc,
     {| posts := posts w; tick := S (tick w); sql_log := sql_log w;
        llm_calls := llm_calls w ++ [prompt]; stdout := stdout w ++ printed;
        sent := sent w ++ streamed_chunks (completion_stream E (tick w) prompt) |})
    /\ match acc with Some text => text | None => fallback end
       = streamed_summary (completion_stream E (tick w) prompt) fallback.
Proof.
  unfold stream_summary, try_except, bind, post_completion_stream, http_log.
  cbn [fst snd].
  destruct (completion_stream E (tick w) prompt) as [e|status lines ending].
  - exists (Some fallback), [("Error streaming summary: " ++ exn_text e)%string].
    cbn. rewrite app_nil_r. split; reflexivity.
  - cbn [streamed_chunks streamed_summary].
    destruct (status =? 200)%Z eqn:St; cbn [andb].
    + match goal with
      | |- context [read_stream lines ?a ?w1] =>
          destruct (read_stream_exact lines a w1) as (r & Hr & Hok & Hbad)
      end.
      rewrite Hr. cbn [posts tick sql_log llm_calls stdout sent].
      destruct (forallb line_ok lines).
      * rewrite (Hok eq_refl). cbn [String.append].
        destruct ending as [|e].
        -- exists (Some (joined (line_texts lines))), []. cbn. rewrite app_nil_r.
           split; reflexivity.
        -- exists (Some fallback), [("Error streaming summary: " ++ exn_text e)%string].
           cbn. split; reflexivity.
      * destruct (Hbad eq_refl) as [e ->].
        exists (Some fallback), [("Error streaming summary: " ++ exn_text e)%string].
        cbn. destruct ending; split; reflexivity.
    + exists None, []. cbn. rewrite !app_nil_r. destruct ending; split; reflexivity.
Qed.




(* --------------------------------------------------------------------- *)
(** ** The endpoints that only read *)

Lemma untouched_refl (w : world) : untouched w w.
Proof. split; reflexivity. Qed.

Lemma untouched_trans (w1 w2 w3 : world) :
  untouched w1 w2 -> untouched w2 w3 -> untouched w1 w3.
Proof. intros [H1 H2] [H3 H4]. split; congruence. Qed.

Lemma untouched_same (w w' : world) :
  posts w' = posts w -> sql_log w' = sql_log w -> untouched w w'.
Proof. intros H1 H2. split; [exact H1|]. unfold writes. rewrite H2. reflexivity. Qed.

(** A statement that reads. *)
Lemma sql_reads (E : env) (A : Type) (s : stmt) (query : table -> A) (w : world) :
  is_write s = false ->
  untouched w (snd (sql E s (fun t => (query t, t)) w)).
Proof.
  intro Hs. unfold sql. destruct (sql_fails E (tick w) s); cbn [snd].
  - apply untouched_same; reflexivity.
  - split; [reflexivity|]. unfold writes. cbn [sql_log].
    rewrite filter_app. cbn [filter]. rewrite Hs. apply app_nil_r.
Qed.

Lemma fts_query_reads (E : env) (q : string) (w : world) :
  untouched w (snd (fts_query E q w)).
Proof.
  unfold fts_query. destruct (fts5 E q) as [test|].
  - apply (@sql_reads E _ (FtsMatch q)
             (fun t => map rowid (filter (fun r => test (title (post r)) (selftext (post r))) t))).
    reflexivity.
  - apply untouched_same; reflexivity.
Qed.

Lemma select_rows_reads (E : env) (rowids0 : list Z) (w : world) :
  untouched w (snd (select_rows E rowids0 w)).
Proof.
  unfold select_rows.
  apply (@sql_reads E _ (SelectRows rowids0)
           (fun t => map post (filter (fun r => existsb (Z.eqb (rowid r)) rowids0) t))).
  reflexivity.
Qed.

Lemma topic_summary_reads (E : env) (query : string) (l : list Post)
    (positive negative neutral : Z) (tone : string) (w : world) :
  untouched w (snd (generate_topic_summary E query l positive negative neutral tone w)).
Proof.
  destruct l as [|p l]; apply untouched_refl.
Qed.

Lemma stream_summary_reads (E : env) (prompt fallback : string) (w : world) :
  untouched w (snd (stream_summary E prompt fallback w)).
Proof.
  destruct (stream_summary_exact E prompt fallback w) as (acc & printed & -> & _).
  apply untouched_same; reflexivity.
Qed.

(** Sequencing keeps [untouched]. *)
Lemma bind_reads (A B : Type) (m : M A) (k : A -> M B) (w : world) :
  untouched w (snd (m w)) ->
  (forall a w1, untouched w1 (snd (k a w1))) ->
  untouched w (snd (bind m k w)).
Proof.
  intros Hm Hk. unfold bind. destruct (m w) as [[a|e] w1]; cbn [snd] in *.
  - eapply untouched_trans; [exact Hm|apply Hk].
  - exact Hm.
Qed.

Lemma yield_reads (ev : sse_event) (w : world) : untouched w (snd (yield_event ev w)).
Proof. apply untouched_same; reflexivity. Qed.

Lemma now_reads (E : env) (w : world) : untouched w (snd (datetime_now E w)).
Proof. apply untouched_same; reflexivity. Qed.

(** X10.  The endpoints that answer questions only read.  Whatever the
    database and the generative service do, and whether the endpoint
    returns or raises, [search_posts], [search_analysis],
    [search_analysis_stream], [get_distribution] and [get_timeline]
    leave the table exactly as it was and execute no [INSERT] and no
    [DELETE]. *)
Theorem queries_only_read : forall (E : env) (w : world),
  (forall q subreddits limit wanted,
      untouched w (snd (search_posts E q subreddits limit wanted w)))
  /\ (forall q subreddits limit, untouched w (snd (search_analysis E q subreddits limit w)))
  /\ (forall q subreddits limit,
        untouched w (snd (search_analysis_stream E q subreddits limit w)))
  /\ (forall subreddit0 days, untouched w (snd (get_distribution E subreddit0 days w)))
  /\ (forall subreddit0 days, untouched w (snd (get_timeline E subreddit0 days w))).
Proof.
  intros E w. split; [|split; [|split; [|split]]].
  - intros q subreddits limit wanted. unfold search_posts.
    apply bind_reads; [apply fts_query_reads|].
    intros [|i rowids0] w1; [apply untouched_refl|].
    apply bind_reads; [apply select_rows_reads|].
    intros all_posts w2.
    destruct (count_sentiments _ _) as [[positive neutral] negative].
    apply untouched_refl.
  - intros q subreddits limit. unfold search_analysis.
    apply bind_reads; [apply fts_query_reads|].
    intros [|i rowids0] w1; [apply untouched_refl|].
    apply bind_reads; [apply select_rows_reads|].
    intros all_posts w2.
    apply bind_reads; [apply untouched_refl|].
    intros stats w3.
    apply bind_reads; [apply topic_summary_reads|].
    intros summary_text w4. apply untouched_refl.
  - intros q subreddits limit. unfold search_analysis_stream.
    apply bind_reads; [apply yield_reads|]. intros _ w0.
    apply bind_reads; [apply fts_query_reads|].
    intros [|i rowids0] w1; [apply yield_reads|].
    apply bind_reads; [apply yield_reads|]. intros _ w2.
    apply bind_reads; [apply select_rows_reads|].
    intros all_posts w3.
    apply bind_reads; [apply untouched_refl|].
    intros stats w4.
    apply bind_reads; [apply yield_reads|]. intros _ w5.
    apply bind_reads; [apply yield_reads|]. intros _ w6.
    apply bind_reads; [apply stream_summary_reads|].
    intros accumulated w7. apply yield_reads.
  - intros subreddit0 days. unfold get_distribution.
    apply bind_reads; [apply now_reads|]. intros t w1.
    apply bind_reads; [|intros; apply untouched_refl].
    apply (@sql_reads E _ SelectDistribution
             (fun tb => distribution_rows subreddit0 (t - Calendar.timedelta_days days)%Z tb)).
    reflexivity.
  - intros subreddit0 days. unfold get_timeline.
    apply bind_reads; [apply now_reads|]. intros t w1.
    apply bind_reads; [|intros; apply untouched_refl].
    apply (@sql_reads E _ SelectTimeline
             (fun tb => timeline_rows subreddit0 (t - Calendar.timedelta_days days)%Z tb)).
    reflexivity.
Qed.

(* --------------------------------------------------------------------- *)
(** ** The buckets of the timeline *)

Section GroupBy.

Variable A : Type.
Variable same : A -> A -> bool.
Hypothesis same_eq : forall a b, same a b = true <-> a = b.










End GroupBy.









(* --------------------------------------------------------------------- *)
(** ** A fetch that returns has stored what it fetched *)

(** One turn of the loop that does not raise leaves the post stored, and
    the table it had is the head of the table it leaves. *)
Lemma analyze_post_stores (E : env) (p : Post) (w w' : world) (k : Z) :
  analyze_post E p w = (Ok k, w') ->
  stored (id p) (posts w') <> None
  /\ exists added, posts w' = posts w ++ added.
Proof.
  unfold analyze_post, bind, sql, select_id, ret.
  destruct (sql_fails E (tick w) (SelectId (id p))); [discriminate|].
  cbn [fst snd].
  destruct (existsb (has_id (id p)) (posts w)) eqn:Found.
  { intro H. injection H as _ <-. cbn [posts]. split.
    - unfold stored. intro Hnone. apply find_none_existsb in Hnone. congruence.
    - exists []. rewrite app_nil_r. reflexivity. }
  match goal with
  | |- context [analyze_sentiment E ?t ?w1] =>
      destruct (analyze_sentiment_run E t w1) as [printed Hrun]; rewrite Hrun
  end.
  cbn [tick posts sql_log llm_calls stdout sent].
  destruct (Spec.classify _) as [sentiment0 score0].
  unfold store_post, bind, datetime_now, sql, insert_or_replace, sleep, ret.
  cbn [tick posts advance fst snd sql_log llm_calls stdout sent].
  match goal with
  | |- context [sql_fails E ?n ?s] => destruct (sql_fails E n s)
  end; [discriminate|].
  intro H. injection H as _ <-. cbn [posts advance id].
  rewrite (filter_none _ _ Found). split.
  - unfold stored.
    rewrite (@find_app_last _ (has_id (id p)) (posts w) _ (existsb_find_none _ _ Found));
      [discriminate|].
    unfold has_id. cbn [post id]. apply String.eqb_refl.
  - eexists. reflexivity.
Qed.

Lemma stored_app (post_id : string) (t added : table) :
  stored post_id t <> None -> stored post_id (t ++ added) <> None.
Proof.
  unfold stored. destruct (find (has_id post_id) t) as [r|] eqn:F; [|contradiction].
  intros _. rewrite (find_app_some _ _ added F). discriminate.
Qed.

Lemma analyze_posts_stores (E : env) (l : list Post) :
  forall (analyzed analyzed' : Z) (w w' : world),
    analyze_posts E l analyzed w = (Ok analyzed', w') ->
    Forall (fun p => stored (id p) (posts w') <> None) l
    /\ exists added, posts w' = posts w ++ added.
Proof.
  induction l as [|p l IH]; intros analyzed analyzed' w w'.
  - cbn. unfold ret. intro H. injection H as _ <-. split; [constructor|].
    exists []. rewrite app_nil_r. reflexivity.
  - cbn [analyze_posts]. unfold bind.
    destruct (analyze_post E p w) as [[k|e] w1] eqn:Hp; [|discriminate].
    intro H. destruct (analyze_post_stores _ _ _ Hp) as (Hstored & added1 & Hposts1).
    destruct (IH _ _ _ _ H) as (Hall & added2 & Hposts2).
    split.
    + constructor; [|exact Hall]. rewrite Hposts2. apply stored_app. exact Hstored.
    + exists (added1 ++ added2). rewrite Hposts2, Hposts1, app_assoc. reflexivity.
Qed.

(** X12.  When [fetch_and_analyze_subreddit] returns, every post the
    source gave is in the table under its [id]: it was there before, or
    the run has stored it, with a label or without.  So a second fetch
    of the same posts finds them all and, by the write-once rule, asks
    the classifier nothing. *)
Theorem fetch_stores_all : forall (E : env) (subreddit0 : string) (w : world) (analyzed : Z),
  fst (fetch_and_analyze_subreddit E subreddit0 w) = Ok analyzed ->
  Forall
    (fun p => stored (id p) (posts (snd (fetch_and_analyze_subreddit E subreddit0 w))) <> None)
    (fetched_by E subreddit0 w).
Proof.
  intros E subreddit0 w analyzed.
  unfold fetch_and_analyze_subreddit, fetch_reddit_posts, bind, print, urlopen, fetched_by,
    ret, raise.
  cbn [tick fst snd].
  destruct (reddit E (tick w) subreddit0) as [e|[children|]]; cbn [fst snd].
  - intros _. constructor.
  - match goal with
    | |- context [analyze_posts E children 0%Z ?x] =>
        destruct (analyze_posts E children 0%Z x) as [[n|e] w2] eqn:Hloop
    end; [|discriminate].
    cbn [fst snd posts]. intros _.
    exact (proj1 (analyze_posts_stores _ _ _ _ Hloop)).
  - discriminate.
Qed.

(** [fetch_stores_all] at a fetch of two new posts into an empty store. *)
Lemma fetch_stores_all_witness :
  let E := Sample.answering "Sentiment: POSITIVE Score: 0.8" in
  Forall
    (fun p => stored (id p) (posts (snd (fetch_and_analyze_subreddit E "OpenAI" Sample.empty)))
              <> None)
    (fetched_by E "OpenAI" Sample.empty).
Proof.
  intro E.
  apply (@fetch_stores_all E "OpenAI"%string Sample.empty 2%Z).
  vm_compute. reflexivity.
Defined.

(* --------------------------------------------------------------------- *)
(** ** Every source is tried *)

Lemma fetch_lines_same (w w' : world) : stdout w' = stdout w -> fetch_lines w w' [].
Proof. intro H. exists []. rewrite app_nil_r. split; [exact H|reflexivity]. Qed.

Lemma fetch_lines_trans (w1 w2 w3 : world) (l1 l2 : list string) :
  fetch_lines w1 w2 l1 -> fetch_lines w2 w3 l2 -> fetch_lines w1 w3 (l1 ++ l2).
Proof.
  intros (p1 & H1 & F1) (p2 & H2 & F2). exists (p1 ++ p2).
  rewrite H2, H1, app_assoc, filter_app, F1, F2. split; reflexivity.
Qed.

Lemma fetch_lines_print (line : string) (w : world) :
  fetch_lines w (snd (print line w)) (if is_fetch_line line then [line] else []).
Proof.
  exists [line]. split; [reflexivity|]. cbn [filter]. destruct (is_fetch_line line); reflexivity.
Qed.

(** Sequencing of runs that print no fetch line. *)
Lemma bind_quiet (A B : Type) (m : M A) (k : A -> M B) (w : world) :
  fetch_lines w (snd (m w)) [] ->
  (forall a w1, fetch_lines w1 (snd (k a w1)) []) ->
  fetch_lines w (snd (bind m k w)) [].
Proof.
  intros Hm Hk. unfold bind. destruct (m w) as [[a|e] w1]; cbn [snd] in *.
  - exact (fetch_lines_trans Hm (Hk a w1)).
  - exact Hm.
Qed.

Lemma try_quiet (A : Type) (m : M A) (h : exn -> M A) (w : world) :
  fetch_lines w (snd (m w)) [] ->
  (forall e w1, fetch_lines w1 (snd (h e w1)) []) ->
  fetch_lines w (snd (try_except m h w)) [].
Proof.
  intros Hm Hh. unfold try_except. destruct (m w) as [[a|e] w1]; cbn [snd] in *.
  - exact Hm.
  - exact (fetch_lines_trans Hm (Hh e w1)).
Qed.

Lemma sql_quiet (E : env) (A : Type) (s : stmt) (run : table -> A * table) (w : world) :
  fetch_lines w (snd (sql E s run w)) [].
Proof.
  unfold sql. destruct (sql_fails E (tick w) s); [apply fetch_lines_same; reflexivity|].
  destruct (run (posts w)). apply fetch_lines_same. reflexivity.
Qed.

Lemma analyze_sentiment_quiet (E : env) (text : string) (w : world) :
  fetch_lines w (snd (analyze_sentiment E text w)) [].
Proof.
  destruct (analyze_sentiment_run E text w) as [printed Hrun].
  unfold analyze_sentiment in *. apply try_quiet.
  - apply bind_quiet; [apply fetch_lines_same; reflexivity|].
    intros [e|status body] w1; [apply fetch_lines_same; reflexivity|].
    destruct (negb (status =? 200)%Z); [apply fetch_lines_same; reflexivity|].
    destruct body as [result|]; [|apply fetch_lines_same; reflexivity].
    apply bind_quiet; [apply fetch_lines_same; reflexivity|].
    intros completion0 w2.
    destruct completion0; try (apply fetch_lines_same; reflexivity).
    destruct (parse_completion s). apply fetch_lines_same. reflexivity.
  - intros e w1. apply bind_quiet; [|intros; apply fetch_lines_same; reflexivity].
    apply (fetch_lines_print ("Sentiment analysis error: " ++ exn_text e) w1).
Qed.

Lemma analyze_post_quiet (E : env) (p : Post) (w : world) :
  fetch_lines w (snd (analyze_post E p w)) [].
Proof.
  unfold analyze_post. apply bind_quiet; [apply sql_quiet|].
  intros [|] w1; [apply fetch_lines_same; reflexivity|].
  apply bind_quiet; [apply analyze_sentiment_quiet|].
  intros [sentiment0 score0] w2.
  apply bind_quiet.
  - unfold store_post. apply bind_quiet; [apply fetch_lines_same; reflexivity|].
    intros t w3. apply sql_quiet.
  - intros _ w3. apply bind_quiet; intros; apply fetch_lines_same; reflexivity.
Qed.

Lemma analyze_posts_quiet (E : env) (l : list Post) :
  forall (analyzed : Z) (w : world), fetch_lines w (snd (analyze_posts E l analyzed w)) [].
Proof.
  induction l as [|p l IH]; intros analyzed w; [apply fetch_lines_same; reflexivity|].
  cbn [analyze_posts]. apply bind_quiet; [apply analyze_post_quiet|].
  intros k w1. apply IH.
Qed.

(** A fetch prints its fetch line, and no other line of that kind. *)
Lemma fetch_and_analyze_line (E : env) (subreddit0 : string) (w : world) :
  fetch_lines w (snd (fetch_and_analyze_subreddit E subreddit0 w)) [fetch_line subreddit0].
Proof.
  unfold fetch_and_analyze_subreddit. unfold bind at 1.
  change [fetch_line subreddit0] with ([fetch_line subreddit0] ++ []).
  eapply fetch_lines_trans.
  - apply (fetch_lines_print ("Fetching r/" ++ subreddit0 ++ "...") w).
  - cbn [fst snd].
    apply bind_quiet.
    + unfold fetch_reddit_posts. apply bind_quiet; [apply fetch_lines_same; reflexivity|].
      intros [e|[children|]] w1; try (apply fetch_lines_same; reflexivity).
      apply bind_quiet; [|intros; apply fetch_lines_same; reflexivity].
      apply (fetch_lines_print ("Error fetching r/" ++ subreddit0 ++ ": " ++ exn_text e) w1).
    + intros fetched w1. apply bind_quiet; [apply analyze_posts_quiet|].
      intros analyzed w2. apply bind_quiet; [|intros; apply fetch_lines_same; reflexivity].
      apply (fetch_lines_print
               ("  Analyzed " ++ PyStr.str_of_Z analyzed ++ " new posts from r/" ++ subreddit0)
               w2).
Qed.

Lemma fetch_and_analyze_nonneg (E : env) (subreddit0 : string) (w : world) (analyzed : Z) :
  fst (fetch_and_analyze_subreddit E subreddit0 w) = Ok analyzed -> (0 <= analyzed)%Z.
Proof.
  intro H. destruct (@fetch_and_analyze_count E subreddit0 w analyzed H) as (_ & _ & Hn & _).
  lia.
Qed.

(** X13.  A failure at one source does not keep the loop from the
    others.  The loop of [background_fetcher] over the sources always
    returns, whatever each source, the classifier and the database do;
    it starts on every source of its list, once, in the order of the
    list, as its fetch lines show; and the total it returns is at least
    the total it was given.  One sweep does so for the fifteen
    configured sources, whether or not its cleanup raises afterwards. *)
Theorem every_source_is_tried : forall (E : env) (w : world),
  (forall subreddits total,
      exists total',
        fst (fetch_all E subreddits total w) = Ok total'
        /\ (total <= total')%Z
        /\ fetch_lines w (snd (fetch_all E subreddits total w)) (map fetch_line subreddits))
  /\ fetch_lines w (snd (sweep E w)) (map fetch_line AI_SUBREDDITS).
Proof.
  intro E.
  assert (forall subreddits total w,
             exists total',
               fst (fetch_all E subreddits total w) = Ok total'
               /\ (total <= total')%Z
               /\ fetch_lines w (snd (fetch_all E subreddits total w))
                    (map fetch_line subreddits)) as Hall.
  { induction subreddits as [|s rest IH]; intros total w.
    - exists total. split; [reflexivity|]. split; [lia|].
      apply fetch_lines_same. reflexivity.
    - rewrite fetch_all_step.
      pose proof (fetch_and_analyze_line E s w) as Hline.
      pose proof (@fetch_and_analyze_nonneg E s w) as Hpos.
      destruct (fetch_and_analyze_subreddit E s w) as [[analyzed|e] w1];
        cbn [fst snd] in Hline, Hpos.
      + destruct (IH (total + analyzed)%Z w1) as (total' & Hr & Hle & Hrest).
        exists total'. split; [exact Hr|]. specialize (Hpos analyzed eq_refl).
        split; [lia|].
        exact (fetch_lines_trans Hline Hrest).
      + match goal with
        | |- context [fetch_all E rest total ?w2] =>
            destruct (IH total w2) as (total' & Hr & Hle & Hrest);
            assert (fetch_lines w1 w2 []) as Hprint
        end.
        { apply (fetch_lines_print ("Error fetching r/" ++ s ++ ": " ++ exn_text e) w1). }
        exists total'. split; [exact Hr|]. split; [exact Hle|].
        cbn [map].
        change (fetch_line s :: map fetch_line rest)
          with (([fetch_line s] ++ []) ++ map fetch_line rest).
        exact (fetch_lines_trans (fetch_lines_trans Hline Hprint) Hrest). }
  intro w. split; [intros subreddits total; apply Hall|].
  unfold sweep. unfold bind at 1.
  destruct (Hall AI_SUBREDDITS 0%Z w) as (total & Hr & _ & Hlines).
  destruct (fetch_all E AI_SUBREDDITS 0%Z w) as [r w1]. cbn [fst snd] in Hr, Hlines. subst r.
  rewrite <- (app_nil_r (map fetch_line AI_SUBREDDITS)).
  eapply fetch_lines_trans; [exact Hlines|].
  apply bind_quiet.
  - unfold cleanup_old_posts. apply bind_quiet; [apply fetch_lines_same; reflexivity|].
    intros t w2. apply bind_quiet; [apply sql_quiet|].
    intros deleted w3. destruct (0 <? deleted)%Z; [|apply fetch_lines_same; reflexivity].
    apply (fetch_lines_print ("Cleaned up " ++ PyStr.str_of_Z deleted ++ " old posts") w3).
  - intros _ w2. apply bind_quiet; [|intros; apply fetch_lines_same; reflexivity].
    destruct (0 <? total)%Z; [|apply fetch_lines_same; reflexivity].
    apply (fetch_lines_print
             ("Background fetch complete: " ++ PyStr.str_of_Z total ++ " new posts") w2).
Qed.

(* --------------------------------------------------------------------- *)
(** ** Retention *)

Lemma filter_length_split (A : Type) (f : A -> bool) (l : list A) :
  (List.length (filter f l) + List.length (filter (fun x => negb (f x)) l))%nat
  = List.length l.
Proof.
  induction l as [|x l IH]; [reflexivity|].
  cbn [filter]. destruct (f x); cbn [negb List.length]; lia.
Qed.

(** A window that starts at the cutoff of the cleanup or later holds the
    same posts before and after the cleanup. *)
Lemma window_after_cleanup (subreddit0 : option string) (cutoff cutoff' : Calendar.datetime)
    (t : table) :
  (cutoff <= cutoff')%Z ->
  filter (in_window subreddit0 cutoff')
    (map post (filter (fun r => negb (older_than cutoff r)) t))
  = filter (in_window subreddit0 cutoff') (map post t).
Proof.
  intro Hle. induction t as [|r t IH]; [reflexivity|].
  cbn [filter map]. destruct (older_than cutoff r) eqn:Old; cbn [negb].
  - rewrite IH. destruct (in_window subreddit0 cutoff' (post r)) eqn:W; [|reflexivity].
    unfold in_window in W. apply andb_true_iff in W. destruct W as [W _].
    apply andb_true_iff in W. destruct W as [_ W].
    unfold older_than in Old. apply Z.ltb_lt in W, Old. lia.
  - cbn [filter map]. rewrite IH. reflexivity.
Qed.

(** X14.  What [cleanup_old_posts] removes.  Its cutoff is 180 days
    before the time of the call.  When the [DELETE] goes through, it
    returns; the table then holds exactly the rows that were created at
    the cutoff or later, in their order, and no other row has changed;
    it prints its line when, and only when, it has removed a row, with
    the number of rows removed; and every window of [get_distribution]
    and [get_timeline] that starts at that cutoff or later selects the
    same rows as before the cleanup.  When the [DELETE] raises, the
    cleanup raises, and the table and the output are as they were. *)
Theorem cleanup_retention : forall (E : env) (w : world),
  let cutoff := (now E (tick w) - Calendar.timedelta_days 180)%Z in
  let run := cleanup_old_posts E w in
  if sql_fails E (S (tick w)) (DeleteOlder cutoff)
  then fst run = Raise SqliteError
       /\ posts (snd run) = posts w /\ stdout (snd run) = stdout w
  else
    let deleted := (len (posts w) - len (posts (snd run)))%Z in
    fst run = Ok tt
    /\ posts (snd run) = filter (fun r => (cutoff <=? created_utc (post r))%Z) (posts w)
    /\ Forall (fun r => (cutoff <= created_utc (post r))%Z) (posts (snd run))
    /\ (0 <= deleted)%Z
    /\ stdout (snd run)
       = stdout w ++
         (if (0 <? deleted)%Z
          then [("Cleaned up " ++ PyStr.str_of_Z deleted ++ " old posts")%string]
          else [])
    /\ (forall subreddit0 cutoff',
          (cutoff <= cutoff')%Z ->
          distribution_rows subreddit0 cutoff' (posts (snd run))
          = distribution_rows subreddit0 cutoff' (posts w)
          /\ timeline_rows subreddit0 cutoff' (posts (snd run))
             = timeline_rows subreddit0 cutoff' (posts w)).
Proof.
  intros E w cutoff run. subst run.
  unfold cleanup_old_posts, bind, datetime_now, sql, delete_older.
  cbn [tick posts advance fst snd].
  change (now E (tick w) - Calendar.timedelta_days (KEEP_MONTHS * 30))%Z with cutoff.
  destruct (sql_fails E (S (tick w)) (DeleteOlder cutoff)); cbn [fst snd posts stdout].
  - repeat split.
  - assert (filter (fun r => negb (older_than cutoff r)) (posts w)
            = filter (fun r => (cutoff <=? created_utc (post r))%Z) (posts w)) as Hkeep.
    { apply filter_ext. intro r. unfold older_than.
      rewrite Z.leb_antisym. reflexivity. }
    assert (Z.of_nat (List.length (filter (older_than cutoff) (posts w)))
            = (len (posts w)
               - len (filter (fun r => negb (older_than cutoff r)) (posts w)))%Z) as Hdel.
    { unfold len. pose proof (filter_length_split (older_than cutoff) (posts w)). lia. }
    rewrite Hdel.
    set (deleted := (len (posts w)
                     - len (filter (fun r => negb (older_than cutoff r)) (posts w)))%Z).
    assert (0 <= deleted)%Z as Hpos.
    { unfold deleted. rewrite <- Hdel. lia. }
    assert (forall subreddit0 cutoff',
               (cutoff <= cutoff')%Z ->
               distribution_rows subreddit0 cutoff'
                 (filter (fun r => negb (older_than cutoff r)) (posts w))
               = distribution_rows subreddit0 cutoff' (posts w)
               /\ timeline_rows subreddit0 cutoff'
                    (filter (fun r => negb (older_than cutoff r)) (posts w))
                  = timeline_rows subreddit0 cutoff' (posts w)) as Hwin.
    { intros subreddit0 cutoff' Hle. unfold distribution_rows, timeline_rows.
      rewrite (@window_after_cleanup subreddit0 cutoff cutoff' (posts w) Hle).
      split; reflexivity. }
    assert (Forall (fun r => (cutoff <= created_utc (post r))%Z)
              (filter (fun r => negb (older_than cutoff r)) (posts w))) as Hall.
    { apply Forall_forall. intros r Hr. apply filter_In in Hr. destruct Hr as [_ Hr].
      unfold older_than in Hr. apply negb_true_iff, Z.ltb_ge in Hr. exact Hr. }
    unfold print, ret.
    destruct (0 <? deleted)%Z eqn:D; cbn [fst snd posts stdout advance];
      fold deleted; rewrite D; rewrite ?app_nil_r;
      (split; [reflexivity|]; split; [exact Hkeep|]; split; [exact Hall|];
       split; [exact Hpos|]; split; [reflexivity|exact Hwin]).
Qed.

(* --------------------------------------------------------------------- *)
(** ** What can end the background loop *)

(** A sweep raises only out of the [DELETE] of its cleanup. *)
Lemma sweep_raises (E : env) (w : world) (e : exn) :
  fst (sweep E w) = Raise e ->
  e = SqliteError /\ exists n cutoff, sql_fails E n (DeleteOlder cutoff) = true.
Proof.
  unfold sweep, bind.
  destruct (fetch_all_returns E AI_SUBREDDITS 0%Z w) as (total & Hr & _).
  destruct (fetch_all E AI_SUBREDDITS 0%Z w) as [r w1]. cbn [fst] in Hr. subst r.
  unfold cleanup_old_posts, bind, datetime_now, sql, delete_older, sleep, print, ret.
  cbn [tick posts advance fst snd].
  match goal with
  | |- context [sql_fails E ?n ?s] => destruct (sql_fails E n s) eqn:F
  end.
  - cbn [fst]. intro H. injection H as <-. split; [reflexivity|]. eauto.
  - cbn [fst snd].
    destruct (0 <? Z.of_nat _)%Z; destruct (0 <? total)%Z; cbn [fst snd]; discriminate.
Qed.

(** X15.  What can end [background_fetcher].  While the [DELETE] of the
    cleanup goes through, the loop keeps running whatever else fails: a
    source that cannot be fetched, a classifier that is down, a
    [SELECT] or an [INSERT] that raises; after any number of turns it
    has not raised and has run the cleanup once per turn.  And when the
    loop does raise, the exception is the database error of a [DELETE]
    of the cleanup that failed: nothing else leaves the loop. *)
Theorem loop_ends_only_in_cleanup : forall (E : env) (turns : nat) (w : world),
  ((forall n cutoff, sql_fails E n (DeleteOlder cutoff) = false) ->
   fst (background_fetcher E turns w) = Ok tt
   /\ List.length (deletes (snd (background_fetcher E turns w)))
      = (List.length (deletes w) + turns)%nat)
  /\ (forall e,
        fst (background_fetcher E turns w) = Raise e ->
        e = SqliteError /\ exists n cutoff, sql_fails E n (DeleteOlder cutoff) = true).
Proof.
  intros E turns w. split.
  - intro Hok. apply background_fetcher_runs. exact Hok.
  - revert w. induction turns as [|k IH]; intros w e; [discriminate|].
    cbn [background_fetcher]. unfold bind.
    pose proof (@sweep_raises E w) as Hsweep.
    destruct (sweep E w) as [[u|e0] w1]; cbn [fst] in *.
    + apply IH.
    + intro H. injection H as <-. apply Hsweep. reflexivity.
Qed.

(* --------------------------------------------------------------------- *)
(** ** The statistics of an analysis *)

Lemma div_half_even_bounds (n d k : Z) :
  (0 <= n)%Z -> (0 < d)%Z -> (n <= k * d)%Z ->
  (0 <= Float64.div_half_even n d <= k)%Z.
Proof.
  intros Hn Hd Hk. unfold Float64.div_half_even.
  pose proof (Z.div_mod n d ltac:(lia)) as Hdm.
  pose proof (Z.mod_pos_bound n d Hd) as Hr.
  assert (0 <= n / d)%Z as Hq by (apply Z.div_pos; lia).
  assert (n / d <= k)%Z as Hqk by (apply Z.div_le_upper_bound; lia).
  destruct (2 * (n mod d) ?= d)%Z eqn:C.
  - apply Z.compare_eq in C. destruct (Z.even (n / d)); nia.
  - lia.
  - apply Z.compare_gt_iff in C. nia.
Qed.

Lemma floor_log2_below (a d : Z) :
  (0 < a)%Z -> (0 < d)%Z -> (0 <= Float64.floor_log2 a d)%Z ->
  (d * 2 ^ Float64.floor_log2 a d <= a)%Z.
Proof.
  intros Ha Hd. unfold Float64.floor_log2.
  pose proof (Z.log2_spec a Ha) as [La _].
  pose proof (Z.log2_spec d Hd) as [_ Ld].
  pose proof (Z.log2_nonneg a) as Na. pose proof (Z.log2_nonneg d) as Nd.
  set (la := Z.log2 a) in *. set (ld := Z.log2 d) in *.
  destruct (0 <=? la - ld)%Z eqn:E0.
  - destruct (a <? d * 2 ^ (la - ld))%Z eqn:Below.
    + intro H.
      assert (2 ^ la = 2 ^ (ld + 1) * 2 ^ (la - ld - 1))%Z as Hpow.
      { rewrite <- Z.pow_add_r by lia. f_equal. lia. }
      assert (0 < 2 ^ (la - ld - 1))%Z by (apply Z.pow_pos_nonneg; lia).
      nia.
    + intros _. apply Z.ltb_ge in Below. exact Below.
  - apply Z.leb_gt in E0. destruct (a * 2 ^ (- (la - ld)) <? d)%Z; lia.
Qed.

(** Rounding to binary64 keeps a value between 0 and a whole number
    below 2^52 between them. *)
Lemma round_bounds (x : Q) (bound : Z) :
  (0 <= x)%Q -> (x <= inject_Z bound)%Q -> (bound < 2 ^ 52)%Z ->
  (0 <= Float64.round x)%Q /\ (Float64.round x <= inject_Z bound)%Q.
Proof.
  destruct x as [n d]. intros Hn Hb Hbound.
  unfold Qle in Hn, Hb. cbn [Qnum Qden inject_Z] in Hn, Hb.
  rewrite Z.mul_1_r in Hn, Hb. cbn in Hn.
  unfold Float64.round. cbn [Qnum Qden].
  destruct (n =? 0)%Z eqn:N0.
  { apply Z.eqb_eq in N0. subst n. split; unfold Qle; cbn [Qnum Qden inject_Z]; nia. }
  apply Z.eqb_neq in N0.
  assert (0 < n)%Z as Hpos by lia.
  rewrite (Z.abs_eq n) by lia.
  assert (Float64.floor_log2 n (Z.pos d) < 52)%Z as Hfl.
  { destruct (Z_lt_le_dec (Float64.floor_log2 n (Z.pos d)) 52) as [H|H]; [exact H|].
    exfalso.
    pose proof (@floor_log2_below n (Z.pos d) Hpos ltac:(lia) ltac:(lia)) as Hlow.
    assert (2 ^ 52 <= 2 ^ Float64.floor_log2 n (Z.pos d))%Z
      by (apply Z.pow_le_mono_r; lia).
    nia. }
  set (u := Z.max (Float64.floor_log2 n (Z.pos d) - 52) (-1074)).
  assert (u < 0)%Z as Hu by (unfold u; lia).
  assert ((0 <=? u)%Z = false) as -> by (apply Z.leb_gt; exact Hu).
  assert ((n <? 0)%Z = false) as -> by (apply Z.ltb_ge; lia).
  assert (0 < 2 ^ (- u))%Z as Hp by (apply Z.pow_pos_nonneg; lia).
  destruct (@div_half_even_bounds (n * 2 ^ (- u)) (Z.pos d) (bound * 2 ^ (- u))
              ltac:(nia) ltac:(lia) ltac:(nia)) as [Hm0 Hm1].
  set (m := Float64.div_half_even (n * 2 ^ (- u)) (Z.pos d)) in *.
  split.
  - rewrite Qred_correct. unfold Qle. cbn [Qnum Qden].
    rewrite Z.mul_0_l, Z.mul_1_r. exact Hm0.
  - rewrite Qred_correct. unfold Qle. cbn [Qnum Qden inject_Z].
    rewrite Z2Pos.id by exact Hp. rewrite Z.mul_1_r. exact Hm1.
Qed.

Lemma percent_range (count total : Z) (x : Q) :
  (0 <= count <= total)%Z ->
  percent count total = Ok x -> (0 <= x)%Q /\ (x <= 100)%Q.
Proof.
  intros Hc. rewrite percent_value.
  destruct (0 <? total)%Z eqn:T; intro H; injection H as <-.
  - apply Z.ltb_lt in T.
    assert (0 <= inject_Z count / inject_Z total)%Q as Hq0.
    { apply Qle_shift_div_l; [unfold Qlt; cbn [Qnum Qden inject_Z]; lia|].
      unfold Qle. cbn [Qnum Qden Qmult inject_Z]. lia. }
    assert (inject_Z count / inject_Z total <= inject_Z 1)%Q as Hq1.
    { apply Qle_shift_div_r; [unfold Qlt; cbn [Qnum Qden inject_Z]; lia|].
      unfold Qle. cbn [Qnum Qden Qmult inject_Z]. lia. }
    destruct (@round_bounds _ 1%Z Hq0 Hq1 ltac:(reflexivity)) as [Hr0 Hr1].
    apply (@round_bounds _ 100%Z); [| |reflexivity].
    + apply Qmult_le_0_compat; [exact Hr0|discriminate].
    + setoid_replace (inject_Z 100) with (inject_Z 1 * 100)%Q by reflexivity.
      apply Qmult_le_compat_r; [exact Hr1|discriminate].
  - split; discriminate.
Qed.

Lemma round1_range (x : Q) :
  (0 <= x)%Q -> (x <= 100)%Q ->
  (0 <= Float64.round1 x)%Q /\ (Float64.round1 x <= 100)%Q.
Proof.
  destruct x as [n d]. intros H0 H1.
  unfold Qle in H0, H1. cbn [Qnum Qden] in H0, H1.
  rewrite Z.mul_1_r in H0, H1. cbn in H0.
  unfold Float64.round1. cbn [Qnum Qden].
  assert ((n * 10 <? 0)%Z = false) as -> by (apply Z.ltb_ge; lia).
  destruct (@div_half_even_bounds (n * 10) (Z.pos d) 1000 ltac:(lia) ltac:(lia) ltac:(lia))
    as [Hk0 Hk1].
  set (k := Float64.div_half_even (n * 10) (Z.pos d)) in *.
  apply (@round_bounds _ 100%Z); [| |reflexivity].
  - rewrite Qred_correct. unfold Qle. cbn [Qnum Qden]. lia.
  - rewrite Qred_correct. unfold Qle. cbn [Qnum Qden inject_Z]. lia.
Qed.

Lemma filter_len_le (A : Type) (f : A -> bool) (l : list A) :
  (0 <= len (filter f l) <= len l)%Z.
Proof.
  unfold len. pose proof (filter_length_le f l). lia.
Qed.

(** X16.  The statistics of an analysis, as [search_analysis] and
    [search_analysis_stream] compute them from the analysed posts.  They
    are always computed.  The three counts add up to the total, which is
    the number of posts analysed.  The two percentages lie between 0
    and 100, both as computed and as sent (rounded to one decimal), in
    spite of the rounding of the float operations.  And when no post is
    left to analyse, after the subreddit filter or with a limit of 0,
    all counts and percentages are 0 and the tone is "Neutral/Mixed". *)
Theorem statistics_in_range : forall l : list Post,
  exists stats,
    summarize l = Ok stats
    /\ ss_total stats = len l
    /\ (ss_positive stats + ss_neutral stats + ss_negative stats = ss_total stats)%Z
    /\ (0 <= ss_positive stats)%Z /\ (0 <= ss_neutral stats)%Z /\ (0 <= ss_negative stats)%Z
    /\ (0 <= ss_positive_percent stats)%Q /\ (ss_positive_percent stats <= 100)%Q
    /\ (0 <= ss_negative_percent stats)%Q /\ (ss_negative_percent stats <= 100)%Q
    /\ (0 <= ss_positive_percent (rounded stats))%Q
    /\ (ss_positive_percent (rounded stats) <= 100)%Q
    /\ (0 <= ss_negative_percent (rounded stats))%Q
    /\ (ss_negative_percent (rounded stats) <= 100)%Q
    /\ (l = [] ->
        rounded stats
        = {| ss_positive := 0; ss_neutral := 0; ss_negative := 0; ss_total := 0;
             ss_positive_percent := 0; ss_negative_percent := 0;
             ss_overall_tone := "Neutral/Mixed" |}).
Proof.
  intro l. unfold summarize.
  destruct (percent (len (positive_of l)) (len l)) as [pp|e] eqn:Hp.
  2: { rewrite percent_value in Hp. discriminate. }
  destruct (percent (len (negative_of l)) (len l)) as [np|e] eqn:Hn.
  2: { rewrite percent_value in Hn. discriminate. }
  destruct (@percent_range _ _ _ (filter_len_le (sentiment_is "positive") l) Hp) as [Hp0 Hp1].
  destruct (@percent_range _ _ _ (filter_len_le (sentiment_is "negative") l) Hn) as [Hn0 Hn1].
  destruct (round1_range Hp0 Hp1) as [Hrp0 Hrp1].
  destruct (round1_range Hn0 Hn1) as [Hrn0 Hrn1].
  eexists. split; [reflexivity|].
  cbn [rounded ss_positive ss_neutral ss_negative ss_total ss_positive_percent
         ss_negative_percent ss_overall_tone].
  split; [reflexivity|].
  split.
  { pose proof (sentiment_partition l) as H. unfold positive_of, negative_of, neutral_of.
    fold neither. unfold neither in *. lia. }
  split; [apply filter_len_le|]. split; [apply filter_len_le|]. split; [apply filter_len_le|].
  repeat (split; [assumption|]).
  intros ->. cbn in Hp, Hn. injection Hp as <-. injection Hn as <-. reflexivity.
Qed.

(* --------------------------------------------------------------------- *)
(** ** Reading a listing *)

Lemma getitem_ok (v : json) (key : string) (x : json) :
  getitem v key = Ok x <-> exists fields, v = JObject fields /\ assoc key fields = Some x.
Proof.
  split.
  - destruct v as [ | | | | | fields]; try discriminate.
    cbn [getitem]. destruct (assoc key fields) as [y|] eqn:A; [|discriminate].
    intro H. injection H as ->. eauto.
  - intros (fields & -> & A). cbn [getitem]. rewrite A. reflexivity.
Qed.

Section ListingFacts.

Variable py_str : json -> string.
Variable fromtimestamp : Q -> result Calendar.datetime.

Lemma parse_child_built (child : json) (p : fetched) :
  parse_child py_str fromtimestamp child = Ok p <-> built_from py_str fromtimestamp child p.
Proof.
  unfold parse_child, built_from. split.
  - destruct (getitem child "data") as [post_data|e] eqn:Hd; cbn [and_then]; [|discriminate].
    destruct post_data as [ | | | | | fields]; try discriminate.
    cbn [getitem json_get].
    destruct (assoc "id" fields) as [v1|] eqn:A1; cbn [and_then]; [|discriminate].
    destruct (assoc "title" fields) as [v2|] eqn:A2; cbn [and_then]; [|discriminate].
    destruct (assoc "selftext" fields) as [v3|] eqn:A3; cbn [and_then];
      (destruct (assoc "author" fields) as [v4|] eqn:A4; cbn [and_then]; [|discriminate];
       destruct (assoc "score" fields) as [v5|] eqn:A5; cbn [and_then]; [|discriminate];
       destruct (assoc "ups" fields) as [v6|] eqn:A6; cbn [and_then]; [|discriminate];
       destruct (assoc "downs" fields) as [v7|] eqn:A7; cbn [and_then]; [|discriminate];
       destruct (assoc "num_comments" fields) as [v8|] eqn:A8; cbn [and_then];
         [|discriminate];
       destruct (assoc "created_utc" fields) as [seconds|] eqn:A9; cbn [and_then];
         [|discriminate];
       destruct (timestamp_of fromtimestamp seconds) as [created|e] eqn:Ht; cbn [and_then];
         [|discriminate];
       destruct (assoc "permalink" fields) as [link|] eqn:A10; cbn [and_then];
         [|discriminate];
       destruct (assoc "url" fields) as [v11|] eqn:A11; cbn [and_then];
         (destruct (assoc "subreddit" fields) as [v12|] eqn:A12; cbn [and_then];
            [|discriminate];
          intro H; injection H as <-; exists fields, seconds, link;
          cbn [f_id f_title f_selftext f_author f_score f_ups f_downs f_num_comments
                 f_created_utc f_permalink f_url f_subreddit];
          rewrite ?A3, ?A11; auto 20)).
  - intros (fields & seconds & link & Hd & H1 & H2 & H3 & H4 & H5 & H6 & H7 & H8 & H9 & Ht
            & H10 & H11 & H12 & H13).
    rewrite Hd. cbn [and_then getitem json_get].
    rewrite H1, H2, H4, H5, H6, H7, H8, H9, H10, H13. cbn [and_then]. rewrite Ht.
    destruct p; cbn in *. subst.
    destruct (assoc "selftext" fields); destruct (assoc "url" fields); reflexivity.
Qed.

Lemma parse_children_built (items : list json) :
  forall posts0,
    parse_children py_str fromtimestamp items = Ok posts0
    <-> Forall2 (built_from py_str fromtimestamp) items posts0.
Proof.
  induction items as [|child items IH]; intro posts0.
  - cbn. split.
    + intro H. injection H as <-. constructor.
    + intro H. inversion H. reflexivity.
  - cbn [parse_children]. split.
    + destruct (parse_child py_str fromtimestamp child) as [p|e] eqn:Hc;
        cbn [and_then]; [|discriminate].
      destruct (parse_children py_str fromtimestamp items) as [ps|e] eqn:Hr;
        cbn [and_then]; [|discriminate].
      intro H. injection H as <-. constructor.
      * apply parse_child_built. exact Hc.
      * apply IH. reflexivity.
    + intro H. inversion H as [|? p ? ps Hp Hps]; subst.
      apply parse_child_built in Hp. apply IH in Hps. rewrite Hp, Hps. reflexivity.
Qed.

End ListingFacts.

(** X17.  What [parse_posts] returns, and the same loop of
    [fetch_reddit_posts].  It returns a list exactly when the decoded
    reply has a dict under [data] with something under [children] that
    can be iterated, and every item has a dict under [data] that holds
    the ten keys the loop indexes, with a number under [created_utc] that
    converts to a time.  The list then has one dict for each item, in
    the order of the items; each holds the item's own values, the empty
    text for a [selftext] or [url] the item lacks, and the permalink
    after "https://reddit.com". *)
Theorem parse_posts_built : forall (py_str : json -> string)
    (fromtimestamp : Q -> result Calendar.datetime) (data : json) (posts0 : list fetched),
  parse_posts py_str fromtimestamp data = Ok posts0
  <-> exists listing children items,
        getitem data "data" = Ok listing
        /\ getitem listing "children" = Ok children
        /\ iterate children = Ok items
        /\ Forall2 (built_from py_str fromtimestamp) items posts0.
Proof.
  intros py_str fromtimestamp data posts0. unfold parse_posts. split.
  - destruct (getitem data "data") as [listing|e]; cbn [and_then]; [|discriminate].
    destruct (getitem listing "children") as [children|e] eqn:Hc; cbn [and_then];
      [|discriminate].
    destruct (iterate children) as [items|e] eqn:Hi; cbn [and_then]; [|discriminate].
    intro H. exists listing, children, items.
    split; [reflexivity|]. split; [exact Hc|]. split; [exact Hi|].
    apply parse_children_built. exact H.
  - intros (listing & children & items & -> & Hc & Hi & H). cbn [and_then].
    rewrite Hc. cbn [and_then]. rewrite Hi. cbn [and_then].
    apply parse_children_built. exact H.
Qed.

Lemma getitem_raises (v : json) (key : string) (e : exn) :
  getitem v key = Raise e -> e = TypeError \/ e = KeyError key.
Proof.
  destruct v as [ | | | | | fields]; cbn [getitem]; try (intro H; injection H as <-; auto).
  destruct (assoc key fields); [discriminate|]. intro H. injection H as <-. auto.
Qed.

Section ListingErrors.

Variable py_str : json -> string.
Variable fromtimestamp : Q -> result Calendar.datetime.

Lemma key_error (key : string) (e : exn) :
  In key ("data" :: "children" :: required_keys)%string ->
  e = TypeError \/ e = KeyError key -> listing_error fromtimestamp e.
Proof.
  intros Hin [ -> | -> ]; [left; reflexivity|].
  right. left. exists key. split; [reflexivity|exact Hin].
Qed.

Lemma timestamp_raises (v : json) (e : exn) :
  timestamp_of fromtimestamp v = Raise e -> listing_error fromtimestamp e.
Proof.
  destruct v as [ | b | q | | | ]; cbn [timestamp_of];
    try (intro H; injection H as <-; left; reflexivity).
  - intro H. right. right. eauto.
  - intro H. right. right. eauto.
Qed.

Lemma parse_child_raises (child : json) (e : exn) :
  parse_child py_str fromtimestamp child = Raise e -> listing_error fromtimestamp e.
Proof.
  unfold parse_child.
  assert (forall key, In key required_keys ->
            In key ("data" :: "children" :: required_keys)%string) as Hreq.
  { intros key H. right. right. exact H. }
  destruct (getitem child "data") as [post_data|e0] eqn:Hd; cbn [and_then].
  2: { intro H. injection H as <-. apply (@key_error "data"); [left; reflexivity|].
       eapply getitem_raises; exact Hd. }
  destruct post_data as [ | | | | | fields];
    try (cbn; intro H; injection H as <-; left; reflexivity).
  cbn [json_get].
  repeat
    match goal with
    | |- and_then (getitem (JObject fields) ?key) _ = Raise e -> _ =>
        let G := fresh "G" in
        destruct (getitem (JObject fields) key) as [?v|?e0] eqn:G; cbn [and_then];
        [|intro H; injection H as <-;
          apply (@key_error key);
          [apply Hreq; cbn; auto 20|eapply getitem_raises; exact G]]
    | |- and_then (match assoc ?key fields with Some v => Ok v | None => Ok ?d end) _
         = Raise e -> _ =>
        destruct (assoc key fields); cbn [and_then]
    | |- and_then (timestamp_of fromtimestamp ?v) _ = Raise e -> _ =>
        let G := fresh "G" in
        destruct (timestamp_of fromtimestamp v) as [?t|?e0] eqn:G; cbn [and_then];
        [|intro H; injection H as <-; apply (timestamp_raises _ G)]
    end; discriminate.
Qed.

Lemma parse_children_raises (items : list json) (e : exn) :
  parse_children py_str fromtimestamp items = Raise e -> listing_error fromtimestamp e.
Proof.
  induction items as [|child items IH]; [discriminate|].
  cbn [parse_children].
  destruct (parse_child py_str fromtimestamp child) as [p|e0] eqn:Hc; cbn [and_then].
  - destruct (parse_children py_str fromtimestamp items) as [ps|e0]; cbn [and_then];
      [discriminate|].
    intro H. injection H as <-. apply IH. reflexivity.
  - intro H. injection H as <-. exact (parse_child_raises _ Hc).
Qed.

End ListingErrors.

(** X18.  What [parse_posts] raises, and with it the loop of
    [fetch_reddit_posts].  The exception is a [KeyError] for [data],
    [children] or one of the ten keys the loop indexes, a [TypeError]
    (for a value that is not a dict, cannot be iterated, or is no number
    where the time is expected), or what [datetime.fromtimestamp]
    raises.  And no part of a listing is returned: when the items before
    one are read and that one raises, [parse_posts] raises the same,
    whatever comes after. *)
Theorem parse_posts_raises : forall (py_str : json -> string)
    (fromtimestamp : Q -> result Calendar.datetime) (data : json),
  (forall e, parse_posts py_str fromtimestamp data = Raise e ->
             listing_error fromtimestamp e)
  /\ (forall listing children before child after read e,
        getitem data "data" = Ok listing ->
        getitem listing "children" = Ok children ->
        iterate children = Ok (before ++ child :: after) ->
        parse_children py_str fromtimestamp before = Ok read ->
        parse_child py_str fromtimestamp child = Raise e ->
        parse_posts py_str fromtimestamp data = Raise e).
Proof.
  intros py_str fromtimestamp data. split.
  - intro e. unfold parse_posts.
    destruct (getitem data "data") as [listing|e0] eqn:Hd; cbn [and_then].
    2: { intro H. injection H as <-. apply (@key_error fromtimestamp "data");
           [left; reflexivity|eapply getitem_raises; exact Hd]. }
    destruct (getitem listing "children") as [children|e0] eqn:Hc; cbn [and_then].
    2: { intro H. injection H as <-. apply (@key_error fromtimestamp "children");
           [right; left; reflexivity|eapply getitem_raises; exact Hc]. }
    destruct (iterate children) as [items|e0] eqn:Hi; cbn [and_then].
    2: { intro H. injection H as <-. left.
         destruct children; cbn in Hi; congruence. }
    apply parse_children_raises.
  - intros listing children before child after read e Hd Hc Hi Hread Hchild.
    unfold parse_posts. rewrite Hd. cbn [and_then]. rewrite Hc. cbn [and_then].
    rewrite Hi. cbn [and_then]. clear Hd Hc Hi.
    revert read Hread. induction before as [|b before IH]; intros read Hread.
    + cbn [app parse_children]. rewrite Hchild. reflexivity.
    + cbn [app parse_children] in *.
      destruct (parse_child py_str fromtimestamp b) as [p|e0]; cbn [and_then] in *;
        [|discriminate].
      destruct (parse_children py_str fromtimestamp before) as [ps|e0] eqn:Hb;
        cbn [and_then] in *; [|discriminate].
      rewrite (IH ps eq_refl). reflexivity.
Qed.

(** A listing of one link post, which has no [selftext], and the same
    listing followed by an item without [author]. *)
Example parse_posts_samples :
  parse_posts Listings.text_of Listings.utc
    (Listings.listing_of [Listings.item Listings.link_post])
  = Ok [ {| f_id := JString "p1"; f_title := JString "A link"; f_selftext := JString "";
            f_author := JString "someone"; f_score := JNumber 5; f_ups := JNumber 5;
            f_downs := JNumber 0; f_num_comments := JNumber 2;
            f_created_utc := 1704888000000000%Z;
            f_permalink := "https://reddit.com/r/OpenAI/comments/p1/";
            f_url := JString "https://example.org"; f_subreddit := JString "OpenAI" |} ]
  /\ parse_posts Listings.text_of Listings.utc
       (Listings.listing_of [Listings.item Listings.link_post;
                             Listings.item Listings.no_author])
     = Raise (KeyError "author")
  /\ parse_posts Listings.text_of Listings.utc (Listings.listing_of []) = Ok [].
Proof.
  vm_compute. repeat split; reflexivity.
Qed.

(* --------------------------------------------------------------------- *)
(** ** The order of the texts of datetimes *)

Lemma compare_refl (s : string) : String.compare s s = Eq.
Proof.
  induction s as [|c s IH]; [reflexivity|]. cbn [String.compare].
  assert (Ascii.compare c c = Eq) as ->; [|exact IH].
  unfold Ascii.compare. apply N.compare_refl.
Qed.

(** Texts that start with parts of the same length are ordered by those
    parts and then by the rest. *)
Lemma compare_fields (a1 a2 b1 b2 : string) :
  String.length a1 = String.length a2 ->
  String.compare (a1 ++ b1) (a2 ++ b2)
  = Iso.lexi (String.compare a1 a2) (String.compare b1 b2).
Proof.
  revert a2. induction a1 as [|c1 a1 IH]; intros [|c2 a2] Hlen; try discriminate.
  - reflexivity.
  - cbn [String.append String.compare]. cbn [String.length] in Hlen.
    destruct (Ascii.compare c1 c2); [|reflexivity..].
    apply IH. lia.
Qed.

Lemma length_field (width : nat) (n : Z) : String.length (Iso.field width n) = width.
Proof.
  revert n. induction width as [|k IH]; intro n; [reflexivity|].
  cbn [Iso.field]. rewrite length_append, IH. cbn. lia.
Qed.

(** Numbers with a last digit are ordered by what is before it and then
    by it. *)
Lemma compare_radix (base q1 r1 q2 r2 : Z) :
  (0 <= r1 < base)%Z -> (0 <= r2 < base)%Z ->
  (q1 * base + r1 ?= q2 * base + r2)%Z = Iso.lexi (q1 ?= q2)%Z (r1 ?= r2)%Z.
Proof.
  intros H1 H2. unfold Iso.lexi.
  destruct (Z.compare_spec q1 q2) as [ -> | Hq | Hq ].
  - destruct (Z.compare_spec r1 r2) as [ -> | Hr | Hr ].
    + apply Z.compare_refl.
    + apply Z.compare_lt_iff. lia.
    + apply Z.compare_gt_iff. lia.
  - apply Z.compare_lt_iff. nia.
  - apply Z.compare_gt_iff. nia.
Qed.

Lemma compare_digit (x y : Z) :
  (0 <= x < 10)%Z -> (0 <= y < 10)%Z ->
  Ascii.compare (Iso.digit x) (Iso.digit y) = (x ?= y)%Z.
Proof.
  intros Hx Hy. unfold Iso.digit, Ascii.compare, ascii_of_nat.
  rewrite !N_ascii_embedding by lia.
  rewrite <- N2Z.inj_compare, !nat_N_Z, !Nat2Z.inj_add, !Z2Nat.id by lia.
  apply Z.add_compare_mono_l.
Qed.

(** Fields of the same width are ordered as the numbers they write. *)
Lemma compare_field (width : nat) :
  forall a b : Z,
    (0 <= a < 10 ^ Z.of_nat width)%Z -> (0 <= b < 10 ^ Z.of_nat width)%Z ->
    String.compare (Iso.field width a) (Iso.field width b) = (a ?= b)%Z.
Proof.
  induction width as [|k IH]; intros a b Ha Hb.
  - cbn in Ha, Hb. assert (a = 0 /\ b = 0)%Z as [-> ->] by lia. reflexivity.
  - rewrite Nat2Z.inj_succ, Z.pow_succ_r in Ha, Hb by lia.
    cbn [Iso.field]. rewrite compare_fields by (rewrite !length_field; reflexivity).
    rewrite IH by (split; [apply Z.div_pos; lia|apply Z.div_lt_upper_bound; lia]).
    cbn [String.compare].
    pose proof (Z.mod_pos_bound a 10 ltac:(lia)) as Hra.
    pose proof (Z.mod_pos_bound b 10 ltac:(lia)) as Hrb.
    rewrite (compare_digit Hra Hrb).
    rewrite (Z.div_mod a 10) at 3 by lia. rewrite (Z.div_mod b 10) at 3 by lia.
    rewrite (Z.mul_comm 10 (a / 10)), (Z.mul_comm 10 (b / 10)).
    rewrite (compare_radix (a / 10) (b / 10) Hra Hrb).
    destruct (a / 10 ?= b / 10)%Z; cbn [Iso.lexi]; [|reflexivity..].
    destruct (a mod 10 ?= b mod 10)%Z; reflexivity.
Qed.

(** The calendar repeats every 146097 days, 400 years later. *)
Lemma civil_from_days_era (day k : Z) :
  Calendar.civil_from_days (day + 146097 * k)
  = let '(y, m, d) := Calendar.civil_from_days day in ((y + 400 * k)%Z, m, d).
Proof.
  unfold Calendar.civil_from_days.
  replace (day + 146097 * k + 719468)%Z with (day + 719468 + k * 146097)%Z by ring.
  rewrite Z.div_add by discriminate.
  set (z := (day + 719468)%Z). set (era := (z / 146097)%Z).
  replace (z + k * 146097 - (era + k) * 146097)%Z with (z - era * 146097)%Z by ring.
  set (doe := (z - era * 146097)%Z).
  set (yoe := ((doe - doe / 1460 + doe / 36524 - doe / 146096) / 365)%Z).
  set (doy := (doe - (365 * yoe + yoe / 4 - yoe / 100))%Z).
  set (mp := ((5 * doy + 2) / 153)%Z).
  cbv zeta.
  destruct ((if (mp <? 10)%Z then (mp + 3)%Z else (mp - 9)%Z) <=? 2)%Z;
    f_equal; f_equal; ring.
Qed.

Lemma date_number_era (day k : Z) :
  Iso.date_number (day + 146097 * k) = (Iso.date_number day + 4000000 * k)%Z.
Proof.
  unfold Iso.date_number. rewrite civil_from_days_era.
  destruct (Calendar.civil_from_days day) as [[y m] d]. ring.
Qed.

(** What [dates_rise] has checked. *)
Lemma dates_rise_spec (count : nat) :
  forall previous from : Z,
    Iso.dates_rise previous from count = true ->
    forall i : Z,
      (0 <= i < Z.of_nat count)%Z ->
      (let '(y, m, d) := Calendar.civil_from_days (from + i) in
       (1 <= m <= 12)%Z /\ (1 <= d <= 31)%Z)
      /\ ((if (i =? 0)%Z then previous else Iso.date_number (from + i - 1))
          < Iso.date_number (from + i))%Z.
Proof.
  induction count as [|k IH]; intros previous from H i Hi; [lia|].
  cbn [Iso.dates_rise] in H.
  destruct (Calendar.civil_from_days from) as [[y m] d] eqn:C.
  destruct ((previous <? y * 10000 + m * 100 + d)%Z && (1 <=? m)%Z && (m <=? 12)%Z
            && (1 <=? d)%Z && (d <=? 31)%Z) eqn:B; [|discriminate].
  apply andb_true_iff in B. destruct B as [B B5].
  apply andb_true_iff in B. destruct B as [B B4].
  apply andb_true_iff in B. destruct B as [B B3].
  apply andb_true_iff in B. destruct B as [B1 B2].
  apply Z.ltb_lt in B1. apply Z.leb_le in B2, B3, B4, B5.
  destruct (Z.eq_dec i 0) as [->|Hne].
  - rewrite Z.add_0_r. unfold Iso.date_number. rewrite C. cbn [Z.eqb]. lia.
  - specialize (IH _ _ H (i - 1)%Z ltac:(lia)).
    replace (from + 1 + (i - 1))%Z with (from + i)%Z in IH by ring.
    destruct IH as [IH1 IH2]. split; [exact IH1|].
    assert ((i =? 0)%Z = false) as -> by (apply Z.eqb_neq; exact Hne).
    destruct (Z.eq_dec i 1) as [->|Hne1].
    + cbn [Z.eqb Z.sub Z.add Z.opp Z.pos_sub] in IH2.
      replace (from + 1 - 1)%Z with from by ring.
      unfold Iso.date_number at 1. rewrite C. exact IH2.
    + assert ((i - 1 =? 0)%Z = false) as Hz by (apply Z.eqb_neq; lia).
      rewrite Hz in IH2.
      replace (from + 1 + (i - 1) - 1)%Z with (from + i - 1)%Z in IH2 by ring.
      exact IH2.
Qed.

(** The 146097 days from 0000-03-01. *)
Lemma one_era_rises :
  Iso.dates_rise (Iso.date_number (-719469)) (-719468) (Z.to_nat 146097) = true.
Proof. vm_compute. reflexivity. Qed.

(** Every day has a month from 1 to 12 and a day of the month from 1 to
    31, and a date number above the one of the day before. *)
Lemma next_day (day : Z) :
  (forall y m d, Calendar.civil_from_days day = (y, m, d) ->
                 (1 <= m <= 12)%Z /\ (1 <= d <= 31)%Z)
  /\ (Iso.date_number (day - 1) < Iso.date_number day)%Z.
Proof.
  set (k := ((day + 719468) / 146097)%Z).
  set (i := ((day + 719468) mod 146097)%Z).
  assert (day = -719468 + i + 146097 * k)%Z as Hday.
  { unfold i, k. pose proof (Z.div_mod (day + 719468) 146097 ltac:(lia)). lia. }
  assert (0 <= i < 146097)%Z as Hi by (apply Z.mod_pos_bound; lia).
  clearbody i k. subst day.
  destruct (@dates_rise_spec (Z.to_nat 146097) _ _ one_era_rises i
              ltac:(rewrite Z2Nat.id; lia)) as [Hb Hr].
  rewrite civil_from_days_era.
  destruct (Calendar.civil_from_days (-719468 + i)) as [[y0 m0] d0].
  split.
  - intros y m d H. injection H as _ <- <-. exact Hb.
  - replace (-719468 + i + 146097 * k - 1)%Z with (-719468 + i - 1 + 146097 * k)%Z by ring.
    rewrite !date_number_era.
    destruct (i =? 0)%Z eqn:I0; [|lia].
    apply Z.eqb_eq in I0. subst i.
    replace (-719468 + 0 - 1)%Z with (-719469)%Z by ring. lia.
Qed.

Lemma date_number_rises (a b : Z) :
  (a < b)%Z -> (Iso.date_number a < Iso.date_number b)%Z.
Proof.
  intro H. replace b with (a + 1 + (b - a - 1))%Z by ring.
  assert (0 <= b - a - 1)%Z as Hn by lia.
  revert Hn. generalize (b - a - 1)%Z. clear b H.
  apply (natlike_ind (fun n => Iso.date_number a < Iso.date_number (a + 1 + n))%Z).
  - rewrite Z.add_0_r. pose proof (proj2 (next_day (a + 1))) as H.
    replace (a + 1 - 1)%Z with a in H by ring. exact H.
  - intros n Hn IH. pose proof (proj2 (next_day (a + 1 + Z.succ n))) as H.
    replace (a + 1 + Z.succ n - 1)%Z with (a + 1 + n)%Z in H by lia. lia.
Qed.

Lemma date_number_compare (a b : Z) :
  (Iso.date_number a ?= Iso.date_number b)%Z = (a ?= b)%Z.
Proof.
  destruct (Z.compare_spec a b) as [ -> | H | H ].
  - apply Z.compare_refl.
  - apply Z.compare_lt_iff. apply date_number_rises. exact H.
  - apply Z.compare_gt_iff. apply date_number_rises. exact H.
Qed.

(** The days of Python's datetimes have years from 1 to 9999. *)
Lemma civil_in_range (day y m d : Z) :
  (Iso.first_day <= day <= Iso.last_day)%Z ->
  Calendar.civil_from_days day = (y, m, d) ->
  (1 <= y <= 9999)%Z /\ (1 <= m <= 12)%Z /\ (1 <= d <= 31)%Z.
Proof.
  intros [H1 H2] Hc.
  assert (Iso.date_number Iso.first_day <= Iso.date_number day)%Z as Hlow.
  { destruct (Z.eq_dec Iso.first_day day) as [<-|Hne]; [lia|].
    apply Z.lt_le_incl, date_number_rises. lia. }
  assert (Iso.date_number day <= Iso.date_number Iso.last_day)%Z as Hhigh.
  { destruct (Z.eq_dec day Iso.last_day) as [->|Hne]; [lia|].
    apply Z.lt_le_incl, date_number_rises. lia. }
  change (Iso.date_number Iso.first_day) with 10101%Z in Hlow.
  change (Iso.date_number Iso.last_day) with 99991231%Z in Hhigh.
  pose proof (proj1 (next_day day) y m d Hc) as Hb.
  unfold Iso.date_number in Hlow, Hhigh. rewrite Hc in Hlow, Hhigh. lia.
Qed.

Lemma lexi_radix (base q1 r1 q2 r2 : Z) (c : comparison) :
  (0 <= r1 < base)%Z -> (0 <= r2 < base)%Z ->
  c = (r1 ?= r2)%Z ->
  Iso.lexi (q1 ?= q2)%Z c = (q1 * base + r1 ?= q2 * base + r2)%Z.
Proof. intros H1 H2 ->. symmetry. apply compare_radix; assumption. Qed.

Lemma length_date_text (day : Z) : String.length (Iso.date_text day) = 10%nat.
Proof.
  unfold Iso.date_text. destruct (Calendar.civil_from_days day) as [[y m] d].
  rewrite !length_append, !length_field. reflexivity.
Qed.

Lemma length_clock_text (second : Z) : String.length (Iso.clock_text second) = 8%nat.
Proof. unfold Iso.clock_text. rewrite !length_append, !length_field. reflexivity. Qed.

(** The texts of the days of Python's datetimes are ordered as the days. *)
Lemma date_text_compare (a b : Z) :
  (Iso.first_day <= a <= Iso.last_day)%Z -> (Iso.first_day <= b <= Iso.last_day)%Z ->
  String.compare (Iso.date_text a) (Iso.date_text b) = (a ?= b)%Z.
Proof.
  intros Ha Hb. rewrite <- date_number_compare.
  unfold Iso.date_text, Iso.date_number.
  destruct (Calendar.civil_from_days a) as [[y1 m1] d1] eqn:Ca.
  destruct (Calendar.civil_from_days b) as [[y2 m2] d2] eqn:Cb.
  destruct (civil_in_range Ha Ca) as (Hy1 & Hm1 & Hd1).
  destruct (civil_in_range Hb Cb) as (Hy2 & Hm2 & Hd2).
  rewrite compare_fields by (rewrite !length_field; reflexivity).
  rewrite compare_field by (cbn; lia).
  change (String.compare ("-" ++ ?x) ("-" ++ ?y)) with (String.compare x y).
  rewrite compare_fields by (rewrite !length_field; reflexivity).
  rewrite compare_field by (cbn; lia).
  change (String.compare ("-" ++ ?x) ("-" ++ ?y)) with (String.compare x y).
  rewrite compare_field by (cbn; lia).
  replace (y1 * 10000 + m1 * 100 + d1)%Z with (y1 * 10000 + (m1 * 100 + d1))%Z by ring.
  replace (y2 * 10000 + m2 * 100 + d2)%Z with (y2 * 10000 + (m2 * 100 + d2))%Z by ring.
  apply lexi_radix; [lia..|].
  apply lexi_radix; [lia..|]. reflexivity.
Qed.

(** The texts of the seconds of a day are ordered as the seconds. *)
Lemma clock_text_compare (a b : Z) :
  (0 <= a < 86400)%Z -> (0 <= b < 86400)%Z ->
  String.compare (Iso.clock_text a) (Iso.clock_text b) = (a ?= b)%Z.
Proof.
  intros Ha Hb. unfold Iso.clock_text.
  assert (forall s, (0 <= s < 86400)%Z ->
            (0 <= s / 3600 < 100)%Z /\ (0 <= s / 60 mod 60 < 60)%Z /\ (0 <= s mod 60 < 60)%Z
            /\ s = (s / 3600 * 3600 + (s / 60 mod 60 * 60 + s mod 60))%Z) as Hparts.
  { intros s Hs.
    pose proof (Z.div_mod s 60 ltac:(lia)) as E1.
    pose proof (Z.mod_pos_bound s 60 ltac:(lia)) as B1.
    pose proof (Z.div_mod (s / 60) 60 ltac:(lia)) as E2.
    pose proof (Z.mod_pos_bound (s / 60) 60 ltac:(lia)) as B2.
    assert (s / 3600 = s / 60 / 60)%Z as E3 by (rewrite Z.div_div by lia; reflexivity).
    rewrite E3.
    assert (0 <= s / 60 / 60 < 100)%Z.
    { split; [apply Z.div_pos; [apply Z.div_pos|]; lia|].
      apply Z.div_lt_upper_bound; [lia|]. apply Z.div_lt_upper_bound; lia. }
    lia. }
  destruct (Hparts a Ha) as (Ah & Am & As & Ea).
  destruct (Hparts b Hb) as (Bh & Bm & Bs & Eb).
  rewrite compare_fields by (rewrite !length_field; reflexivity).
  rewrite compare_field by (cbn; lia).
  change (String.compare (":" ++ ?x) (":" ++ ?y)) with (String.compare x y).
  rewrite compare_fields by (rewrite !length_field; reflexivity).
  rewrite compare_field by (cbn; lia).
  change (String.compare (":" ++ ?x) (":" ++ ?y)) with (String.compare x y).
  rewrite compare_field by (cbn; lia).
  rewrite (f_equal2 Z.compare Ea Eb).
  apply lexi_radix; [lia..|].
  apply lexi_radix; [lia..|]. reflexivity.
Qed.

(** The texts of the microseconds of a second, where no microseconds are
    no text, are ordered as the microseconds. *)
Lemma fraction_text_compare (a b : Z) :
  (0 <= a < 1000000)%Z -> (0 <= b < 1000000)%Z ->
  String.compare (Iso.fraction_text a) (Iso.fraction_text b) = (a ?= b)%Z.
Proof.
  intros Ha Hb. unfold Iso.fraction_text.
  destruct (a =? 0)%Z eqn:A0; destruct (b =? 0)%Z eqn:B0.
  - apply Z.eqb_eq in A0, B0. subst. reflexivity.
  - apply Z.eqb_eq in A0. apply Z.eqb_neq in B0. subst.
    symmetry. apply Z.compare_lt_iff. lia.
  - apply Z.eqb_eq in B0. apply Z.eqb_neq in A0. subst.
    symmetry. apply Z.compare_gt_iff. lia.
  - change (String.compare ("." ++ ?x) ("." ++ ?y)) with (String.compare x y).
    apply compare_field; cbn; lia.
Qed.

(** A datetime is a day, a second of the day and a microsecond of the
    second. *)
Lemma datetime_parts (t : Calendar.datetime) :
  let rest := (t mod Calendar.usec_per_day)%Z in
  (0 <= rest / 1000000 < 86400)%Z /\ (0 <= rest mod 1000000 < 1000000)%Z
  /\ t = (Calendar.day_of t * Calendar.usec_per_day
          + (rest / 1000000 * 1000000 + rest mod 1000000))%Z.
Proof.
  unfold Calendar.day_of, Calendar.usec_per_day. cbv zeta.
  pose proof (Z.div_mod t 86400000000 ltac:(lia)) as E1.
  pose proof (Z.mod_pos_bound t 86400000000 ltac:(lia)) as B1.
  pose proof (Z.div_mod (t mod 86400000000) 1000000 ltac:(lia)) as E2.
  pose proof (Z.mod_pos_bound (t mod 86400000000) 1000000 ltac:(lia)) as B2.
  assert (0 <= t mod 86400000000 / 1000000 < 86400)%Z.
  { split; [apply Z.div_pos; lia|apply Z.div_lt_upper_bound; lia]. }
  lia.
Qed.

Lemma day_of_in_range (t : Calendar.datetime) :
  (Iso.datetime_min <= t <= Iso.datetime_max)%Z ->
  (Iso.first_day <= Calendar.day_of t <= Iso.last_day)%Z.
Proof.
  unfold Iso.datetime_min, Iso.datetime_max, Iso.first_day, Iso.last_day,
    Calendar.day_of, Calendar.usec_per_day.
  intros [H1 H2]. split.
  - apply Z.div_le_lower_bound; lia.
  - apply Z.lt_succ_r. apply Z.div_lt_upper_bound; lia.
Qed.

(** X19.  [adapt_datetime] keeps the order: for two datetimes that
    Python can hold, from 0001-01-01T00:00:00 to
    9999-12-31T23:59:59.999999, the texts they are stored as compare,
    character by character, as the datetimes do.  So the comparisons
    SQLite makes on the stored texts ([created_utc < ?] in
    [cleanup_old_posts]) are the comparisons of the datetimes. *)
Theorem adapt_datetime_keeps_order (t1 t2 : Calendar.datetime) :
  (Iso.datetime_min <= t1 <= Iso.datetime_max)%Z ->
  (Iso.datetime_min <= t2 <= Iso.datetime_max)%Z ->
  String.compare (Iso.adapt_datetime t1) (Iso.adapt_datetime t2) = (t1 ?= t2)%Z.
Proof.
  intros H1 H2. unfold Iso.adapt_datetime, Iso.isoformat. cbv zeta.
  destruct (datetime_parts t1) as (S1 & U1 & E1).
  destruct (datetime_parts t2) as (S2 & U2 & E2).
  rewrite compare_fields by (rewrite !length_date_text; reflexivity).
  rewrite date_text_compare by (apply day_of_in_range; assumption).
  change (String.compare ("T" ++ ?x) ("T" ++ ?y)) with (String.compare x y).
  rewrite compare_fields by (rewrite !length_clock_text; reflexivity).
  rewrite clock_text_compare by assumption.
  rewrite fraction_text_compare by assumption.
  rewrite (f_equal2 Z.compare E1 E2).
  apply lexi_radix; [unfold Calendar.usec_per_day in *; lia..|].
  apply lexi_radix; [lia..|]. reflexivity.
Qed.

Lemma adapt_datetime_keeps_order_witness :
  String.compare (Iso.adapt_datetime 1700000000000000%Z)
    (Iso.adapt_datetime 1700000000000001%Z)
  = Lt.
Proof.
  rewrite (@adapt_datetime_keeps_order 1700000000000000%Z 1700000000000001%Z).
  - reflexivity.
  - unfold Iso.datetime_min, Iso.datetime_max, Iso.first_day, Iso.last_day,
      Calendar.usec_per_day. lia.
  - unfold Iso.datetime_min, Iso.datetime_max, Iso.first_day, Iso.last_day,
      Calendar.usec_per_day. lia.
Defined.







